(** * Data Health Analyzer: validation and aggregation pipeline

    A shallow embedding of [data_health_analyzer.py]: the CSV row parser
    ([parse_csv_rows]), the row validator ([validate_rows]), the statistics
    aggregator ([compute_summary_statistics]), the summary collaborator
    ([generate_openai_summary]) and the orchestrator ([analyze_csv_content]),
    followed by the properties the specification states about them.

    Conventions of the embedding:
    - a Python [str] is a [string]; each character stands for the code point
      of the same number (U+0000 to U+00FF);
    - a Python [int] is a [Z];
    - a Python [float] is a binary64 value, see [pyfloat];
    - a Python [dict] with string keys is a [gmap string _], a [set] of
      strings a [gset string];
    - a call that may raise returns a [result]. *)

From stdpp Require Import gmap strings list pretty.
From Stdlib Require Import ZArith QArith Lia Ascii.

Local Open Scope Z_scope.

(** ** Exceptions *)

(** The exceptions the code meets.  [ValueError msg] is an instance of
    [ValueError], or of a subclass of it, whose [str] is [msg]: it is what
    [except ValueError] catches.  [OtherException] is an exception of any
    class not listed, which only the [openai] package can raise. *)
Inductive exn : Type :=
  | ValueError (msg : string)
  | CsvError (msg : string)
  | ZeroDivisionError
  | OverflowError
  | AttributeError (msg : string)
  | OtherException (class_name message : string).

Inductive result (A : Type) : Type :=
  | Ok (a : A)
  | Raise (e : exn).
Arguments Ok {A} a.
Arguments Raise {A} e.

#[global] Instance result_ret : MRet result := λ A a, Ok a.
#[global] Instance result_bind : MBind result := λ A B k r,
  match r with
  | Ok a => k a
  | Raise e => Raise e
  end.

Definition succeeds {A : Type} (r : result A) : Prop := ∃ a, r = Ok a.

(** ** Strings: [str.strip] and [int] *)

Module PyStr.

(** [str.isspace] on the code points below 256. *)
Definition is_space (a : ascii) : bool :=
  let n := N_of_ascii a in
  ((9 <=? n) && (n <=? 13) || (28 <=? n) && (n <=? 32)
   || (n =? 133) || (n =? 160))%N.

Fixpoint lstrip (s : string) : string :=
  match s with
  | EmptyString => EmptyString
  | String a s' => if is_space a then lstrip s' else s
  end.

Definition rstrip (s : string) : string :=
  String.rev (lstrip (String.rev s)).

Definition strip (s : string) : string := rstrip (lstrip s).

Definition digit_value (a : ascii) : option Z :=
  let n := N_of_ascii a in
  if ((48 <=? n) && (n <=? 57))%N then Some (Z.of_N n - 48) else None.

(** The digits of a decimal literal; single underscores may separate
    digits.  [prev] tells whether the previous character was a digit. *)
Fixpoint int_digits (s : string) (acc : Z) (prev : bool) : option Z :=
  match s with
  | EmptyString => if prev then Some acc else None
  | String a s' =>
      match digit_value a with
      | Some d => int_digits s' (10 * acc + d) true
      | None =>
          if (N_of_ascii a =? 95)%N && prev then int_digits s' acc false
          else None
      end
  end.

(** The number of digits of a literal, underscores not counted. *)
Fixpoint count_digits (s : string) : N :=
  match s with
  | EmptyString => 0
  | String a s' =>
      ((match digit_value a with Some _ => 1 | None => 0 end)
       + count_digits s')%N
  end.

(** [sys.get_int_max_str_digits()], as Python 3.11 and later set it. *)
Definition max_str_digits : N := 4300.

(** [int(s)] for an already stripped [s]; [None] is [ValueError]: that of
    a text that is no literal, and that of a literal of more than
    [max_str_digits] digits, leading zeros included. *)
Definition int (s : string) : option Z :=
  let digits :=
    match s with
    | String "-" s' | String "+" s' => s'
    | _ => s
    end in
  match int_digits digits 0 false with
  | None => None
  | Some v =>
      if (max_str_digits <? count_digits digits)%N then None
      else match s with
           | String "-" _ => Some (- v)
           | _ => Some v
           end
  end.

(** [sep.join(l)] *)
Fixpoint join (sep : string) (l : list string) : string :=
  match l with
  | [] => EmptyString
  | [x] => x
  | x :: l' => x +:+ sep +:+ join sep l'
  end.

End PyStr.

(** ** Floats

    A finite binary64 value is an integer multiple of [2^-1074]; [Fin z]
    stands for [z * 2^-1074].  [0.0] and [-0.0], which Python's [==] does
    not tell apart, are both [Fin 0]. *)

Inductive pyfloat : Type :=
  | Fin (z : Z)
  | Inf (neg : bool).

Module PyFloat.

Definition ulps : Z := 2 ^ 1074.

(** First magnitude, in units of [2^-1074], that is out of range. *)
Definition huge : Z := 2 ^ 2098.

Definition of_Z (k : Z) : pyfloat := Fin (k * ulps).

Definition to_Q (x : pyfloat) : option Q :=
  match x with
  | Fin z => Some (inject_Z z / inject_Z ulps)%Q
  | Inf _ => None
  end.

(** Nearest integer to [n / d], ties to even ([0 <= n], [0 < d]). *)
Definition half_even (n d : Z) : Z :=
  let q := n / d in
  let r := n mod d in
  if 2 * r <? d then q
  else if d <? 2 * r then q + 1
  else if Z.even q then q else q + 1.

(** [n / d] rounded to 53 significant bits, ties to even, with no bound
    on the exponent ([0 <= n], [0 < d]). *)
Definition round53 (n d : Z) : Z :=
  let s := Z.max 0 (Z.log2 (n / d) - 52) in
  half_even n (d * 2 ^ s) * 2 ^ s.

(** [a / b] on two [int]s: the correctly rounded quotient. *)
Definition truediv (a b : Z) : result pyfloat :=
  if b =? 0 then Raise ZeroDivisionError
  else
    let z := round53 (Z.abs a * ulps) (Z.abs b) in
    if z <? huge then Ok (Fin (Z.sgn a * Z.sgn b * z))
    else Raise OverflowError.

(** [x * 100] *)
Definition mul100 (x : pyfloat) : pyfloat :=
  match x with
  | Fin z =>
      let r := round53 (Z.abs z * 100) 1 in
      if r <? huge then Fin (Z.sgn z * r) else Inf (z <? 0)
  | Inf s => Inf s
  end.

(** [round(x, 2)]: the float nearest to the two-digit decimal nearest to
    [x] (ties of the decimal to even). *)
Definition round2 (x : pyfloat) : result pyfloat :=
  match x with
  | Fin z =>
      let h := half_even (Z.abs z * 100) ulps in
      let r := round53 (h * ulps) 100 in
      if r <? huge then Ok (Fin (Z.sgn z * r)) else Raise OverflowError
  | Inf s => Ok (Inf s)
  end.

(** The largest finite float, [sys.float_info.max], as an integer. *)
Definition max_float : Z := (2 ^ 53 - 1) * 2 ^ 971.

(** The exact quotient [a / b], where there is one, does not exceed
    [max_float] in magnitude. *)
Definition in_range (a b : Z) : Prop :=
  b ≠ 0 → Z.abs a ≤ max_float * Z.abs b.

(** [z] has at most 53 significant bits. *)
Definition representable (z : Z) : Prop :=
  ∃ m s, 0 ≤ m < 2 ^ 53 ∧ 0 ≤ s ∧ z = m * 2 ^ s.

(** The values a binary64 can hold. *)
Definition valid (x : pyfloat) : Prop :=
  match x with
  | Fin z => representable (Z.abs z) ∧ Z.abs z < huge
  | Inf _ => True
  end.

(** [lo <= x <= hi] on the exact value of a finite [x]. *)
Definition between (lo hi : Z) (x : pyfloat) : Prop :=
  ∃ q, to_Q x = Some q ∧ (inject_Z lo <= q)%Q ∧ (q <= inject_Z hi)%Q.

End PyFloat.

(** ** Records, warnings and the validator's state *)

(** A record of [csv.DictReader]: column name to cell, [None] for a cell the
    line was too short to fill. *)
Abbreviation Row := (gmap string (option string)).

Definition EXPECTED_COLUMNS : list string :=
  ["user_id"; "sessions"; "clicks"; "errors"]%string.
Definition NUMERIC_COLUMNS : list string :=
  ["sessions"; "clicks"; "errors"]%string.

(** [(row.get(column) or "").strip()] *)
Definition field (row : Row) (column : string) : string :=
  PyStr.strip match row !! column with
              | Some (Some cell) => cell
              | _ => EmptyString
              end.

(** The four messages [validate_rows] appends; [render] is the f-string. *)
Inductive warning : Type :=
  | DuplicateUser (row_number : nat) (user_id : string)
  | MissingValue (row_number : nat) (column : string)
  | InvalidInteger (row_number : nat) (raw_value column : string)
  | NegativeValue (row_number : nat) (column : string).

Definition render (w : warning) : string :=
  match w with
  | DuplicateUser n u =>
      "Row " +:+ pretty n +:+ ": duplicate user_id " +:+ u +:+ " detected."
  | MissingValue n c =>
      "Row " +:+ pretty n +:+ ": missing value in " +:+ c +:+ " column."
  | InvalidInteger n raw c =>
      "Row " +:+ pretty n +:+ ": invalid integer value '" +:+ raw
        +:+ "' in " +:+ c +:+ " column."
  | NegativeValue n c =>
      "Row " +:+ pretty n +:+ ": negative value in " +:+ c +:+ " column."
  end.

Definition warning_row (w : warning) : nat :=
  match w with
  | DuplicateUser n _ | MissingValue n _ | InvalidInteger n _ _
  | NegativeValue n _ => n
  end.

(** The five locals of [validate_rows]. *)
Record state : Type := State {
  warnings : list warning;
  seen_user_ids : gset string;
  sessions_per_user : gmap string (list Z);
  errors_flag_by_user : gmap string bool;
  unique_user_ids : list string
}.

Definition initial : state := State [] ∅ ∅ ∅ [].

Definition warn (w : warning) (st : state) : state :=
  State (warnings st ++ [w]) (seen_user_ids st) (sessions_per_user st)
        (errors_flag_by_user st) (unique_user_ids st).

Definition register (user_id : string) (st : state) : state :=
  State (warnings st) ({[user_id]} ∪ seen_user_ids st) (sessions_per_user st)
        (errors_flag_by_user st) (unique_user_ids st ++ [user_id]).

(** [sessions_per_user[user_id].append(v)] on a [defaultdict(list)] *)
Definition append_session (user_id : string) (v : Z) (st : state) : state :=
  State (warnings st) (seen_user_ids st)
        (<[user_id := default [] (sessions_per_user st !! user_id) ++ [v]]>
           (sessions_per_user st))
        (errors_flag_by_user st) (unique_user_ids st).

(** [errors_flag_by_user[user_id] = True] *)
Definition flag_errors (user_id : string) (st : state) : state :=
  State (warnings st) (seen_user_ids st) (sessions_per_user st)
        (<[user_id := true]> (errors_flag_by_user st)) (unique_user_ids st).

(** ** [validate_rows] *)

(** Lines 84 to 93: the user identifier of one record. *)
Definition check_user_id (row_number : nat) (user_id : string) (st : state)
  : state :=
  if decide (user_id ≠ EmptyString) then
    if decide (user_id ∉ seen_user_ids st) then register user_id st
    else warn (DuplicateUser row_number user_id) st
  else warn (MissingValue row_number "user_id") st.

(** Lines 96 to 117: one pass of the loop over [NUMERIC_COLUMNS]. *)
Definition check_column (row_number : nat) (row : Row) (user_id : string)
    (st : state) (column : string) : state :=
  let raw_value := field row column in
  if decide (raw_value = EmptyString) then
    warn (MissingValue row_number column) st
  else
    match PyStr.int raw_value with
    | None => warn (InvalidInteger row_number raw_value column) st
    | Some numeric_value =>
        if numeric_value <? 0 then warn (NegativeValue row_number column) st
        else
          let st1 :=
            if decide (column = "sessions"%string ∧ user_id ≠ EmptyString)
            then append_session user_id numeric_value st else st in
          if decide (column = "errors"%string ∧ user_id ≠ EmptyString
                     ∧ 0 < numeric_value)
          then flag_errors user_id st1 else st1
    end.

(** The body of the loop over the rows. *)
Definition validate_row (row_number : nat) (row : Row) (st : state) : state :=
  let user_id := field row "user_id" in
  foldl (check_column row_number row user_id)
        (check_user_id row_number user_id st) NUMERIC_COLUMNS.

(** [for row_number, row in enumerate(rows, start=...)] *)
Fixpoint validate_from (row_number : nat) (rows : list Row) (st : state)
  : state :=
  match rows with
  | [] => st
  | row :: rows' =>
      validate_from (S row_number) rows' (validate_row row_number row st)
  end.

Definition validate_state (rows : list Row) : state :=
  validate_from 2 rows initial.

(** The tuple [validate_rows] returns. *)
Definition validate_rows (rows : list Row)
  : list string * gmap string (list Z) * gmap string bool * list string :=
  let st := validate_state rows in
  (render <$> warnings st, sessions_per_user st, errors_flag_by_user st,
   unique_user_ids st).

(** ** [compute_summary_statistics] *)

Record SummaryStatistics : Type := Stats {
  total_users : nat;
  average_sessions_per_user : pyfloat;
  percent_users_with_errors : pyfloat
}.

Definition sum (l : list Z) : Z := foldr Z.add 0 l.

(** [{user_id: sum(values) for user_id, values in ... if values}] *)
Definition aggregate (sessions : gmap string (list Z)) : gmap string Z :=
  sum <$> filter (λ kv, kv.2 ≠ []) sessions.

(** [sum(aggregated_sessions.values())] *)
Definition sum_values (m : gmap string Z) : Z :=
  sum (map_to_list m).*2.

(** [{user_id for user_id, has_errors in ... if has_errors}] *)
Definition flagged (errors : gmap string bool) : gset string :=
  dom (filter (λ kv, kv.2 = true) errors).

(** Lines 130 to 138: the local [avg_sessions]. *)
Definition avg_sessions (sessions_per_user : gmap string (list Z))
  : result pyfloat :=
  let aggregated_sessions := aggregate sessions_per_user in
  if decide (size aggregated_sessions ≠ 0)%nat
  then PyFloat.truediv (sum_values aggregated_sessions)
                       (Z.of_nat (size aggregated_sessions))
  else Ok (Fin 0).

(** Lines 140 to 145: the local [error_percentage]. *)
Definition error_percentage (unique_user_count : nat)
    (errors_flag_by_user : gmap string bool) : result pyfloat :=
  let users_with_errors := flagged errors_flag_by_user in
  if decide (unique_user_count ≠ 0)%nat
  then share ← PyFloat.truediv (Z.of_nat (size users_with_errors))
                               (Z.of_nat unique_user_count);
       Ok (PyFloat.mul100 share)
  else Ok (Fin 0).

Definition compute_summary_statistics (unique_user_ids : list string)
    (sessions_per_user : gmap string (list Z))
    (errors_flag_by_user : gmap string bool) : result SummaryStatistics :=
  let unique_user_count := length unique_user_ids in
  avg ← avg_sessions sessions_per_user;
  pct ← error_percentage unique_user_count errors_flag_by_user;
  average ← PyFloat.round2 avg;
  percent ← PyFloat.round2 pct;
  Ok (Stats unique_user_count average percent).

(** Validator followed by aggregator, as [analyze_csv_content] chains them. *)
Definition statistics_of (rows : list Row) : result SummaryStatistics :=
  let st := validate_state rows in
  compute_summary_statistics (unique_user_ids st) (sessions_per_user st)
                             (errors_flag_by_user st).

Definition mk_row (user_id sessions clicks errors : string) : Row :=
  <["errors"%string := Some errors]>
    (<["clicks"%string := Some clicks]>
       (<["sessions"%string := Some sessions]>
          (<["user_id"%string := Some user_id]> ∅))).

(** ** [csv.reader]

    The reader of the [csv] module with its default dialect ([excel]:
    delimiter [,], quote character code 34, doubled quotes, not strict, no
    escape character), fed the lines of [io.StringIO(csv_text)], each of
    which ends at a line feed or at the end of the text. *)

(** What iterating the reader yields: the records, each split into its
    cells (a blank line is [[]]), and the message of the [csv.Error] that
    ends the iteration, if there is one. *)
Record reader_output : Type := Reader {
  lines : list (list string);
  failure : option string
}.

Module Csv.

Inductive parser_state : Type :=
  | START_RECORD
  | START_FIELD
  | IN_FIELD
  | IN_QUOTED_FIELD
  | QUOTE_IN_QUOTED_FIELD
  | EAT_CRNL.

(** The reader object: the parser state, the field being read (latest
    character first), its length, and the fields of the record read so far
    (latest first). *)
Record reader : Type := ReaderObj {
  state : parser_state;
  field : list ascii;
  field_len : N;
  fields : list string
}.

(** [csv.field_size_limit()] *)
Definition field_limit : N := 131072.

(** [parse_reset] *)
Definition start : reader := ReaderObj START_RECORD [] 0 [].

Definition set_state (s : parser_state) (r : reader) : reader :=
  ReaderObj s (field r) (field_len r) (fields r).

Definition parse_add_char (c : ascii) (r : reader) : string + reader :=
  if (field_limit <=? field_len r)%N
  then inl "field larger than field limit (131072)"%string
  else inr (ReaderObj (state r) (c :: field r) (field_len r + 1) (fields r)).

Definition parse_save_field (r : reader) : reader :=
  ReaderObj (state r) [] 0
            (Stdlib.Strings.String.string_of_list_ascii (reverse (field r))
             :: fields r).

Definition is_newline (c : ascii) : bool :=
  Ascii.eqb c "010" || Ascii.eqb c "013".
Definition is_quote (c : ascii) : bool := Ascii.eqb c "034".
Definition is_delimiter (c : ascii) : bool := Ascii.eqb c ",".

Definition then_state (s : parser_state) (x : string + reader)
  : string + reader :=
  match x with
  | inl msg => inl msg
  | inr r => inr (set_state s r)
  end.

(** The case [START_FIELD] of [parse_process_char]; [None] is [EOL]. *)
Definition start_field (r : reader) (c : option ascii) : string + reader :=
  match c with
  | None => inr (set_state START_RECORD (parse_save_field r))
  | Some a =>
      if is_newline a then inr (set_state EAT_CRNL (parse_save_field r))
      else if is_quote a then inr (set_state IN_QUOTED_FIELD r)
      else if is_delimiter a
      then inr (set_state START_FIELD (parse_save_field r))
      else then_state IN_FIELD (parse_add_char a r)
  end.

Definition parse_process_char (r : reader) (c : option ascii)
  : string + reader :=
  match state r with
  | START_RECORD =>
      match c with
      | None => inr r
      | Some a =>
          if is_newline a then inr (set_state EAT_CRNL r)
          else start_field r c
      end
  | START_FIELD => start_field r c
  | IN_FIELD =>
      match c with
      | None => inr (set_state START_RECORD (parse_save_field r))
      | Some a =>
          if is_newline a then inr (set_state EAT_CRNL (parse_save_field r))
          else if is_delimiter a
          then inr (set_state START_FIELD (parse_save_field r))
          else parse_add_char a r
      end
  | IN_QUOTED_FIELD =>
      match c with
      | None => inr r
      | Some a =>
          if is_quote a then inr (set_state QUOTE_IN_QUOTED_FIELD r)
          else parse_add_char a r
      end
  | QUOTE_IN_QUOTED_FIELD =>
      match c with
      | None => inr (set_state START_RECORD (parse_save_field r))
      | Some a =>
          if is_quote a then then_state IN_QUOTED_FIELD (parse_add_char a r)
          else if is_delimiter a
          then inr (set_state START_FIELD (parse_save_field r))
          else if is_newline a
          then inr (set_state EAT_CRNL (parse_save_field r))
          else then_state IN_FIELD (parse_add_char a r)
      end
  | EAT_CRNL =>
      match c with
      | None => inr (set_state START_RECORD r)
      | Some a =>
          if is_newline a then inr r
          else inl "new-line character seen in unquoted field - do you need to open the file with newline=''?"%string
      end
  end.

(** The end of the input inside a record: the record is yielded if a
    field is under way. *)
Definition finish (r : reader) (rows : list (list string))
  : list (list string) :=
  match state r, field_len r with
  | IN_QUOTED_FIELD, _ | _, Npos _ =>
      reverse (reverse (fields (parse_save_field r)) :: rows)
  | _, _ => reverse rows
  end.

(** [Reader_iternext], over and over: the characters of each line, then
    [EOL]; a record is yielded when a line ends in [START_RECORD].
    [rows] holds the records yielded so far, latest first. *)
Fixpoint feed (text : string) (r : reader) (rows : list (list string))
  : reader_output :=
  match text with
  | EmptyString => Reader (finish r rows) None
  | String c text' =>
      match parse_process_char r (Some c) with
      | inl msg => Reader (reverse rows) (Some msg)
      | inr r1 =>
          if Ascii.eqb c "010" || bool_decide (text' = EmptyString) then
            match parse_process_char r1 None with
            | inl msg => Reader (reverse rows) (Some msg)
            | inr r2 =>
                match state r2 with
                | START_RECORD =>
                    feed text' start (reverse (fields r2) :: rows)
                | _ => feed text' r2 rows
                end
            end
          else feed text' r1 rows
      end
  end.

End Csv.

(** [csv.reader(io.StringIO(csv_text))], iterated to its end. *)
Definition csv_reader (csv_text : string) : reader_output :=
  Csv.feed csv_text Csv.start [].

(** ** [parse_csv_rows] *)

(** [DictReader.__next__]: [dict(zip(fieldnames, row))], then [None] for
    the columns a short line leaves out.  The cells beyond the header are
    stored under the key [None], which no string key reads. *)
Definition make_row (fieldnames row : list string) : Row :=
  foldl (λ d key, <[key := None]> d)
        (foldl (λ d kv, <[kv.1 := Some kv.2]> d) ∅ (zip fieldnames row))
        (drop (length row) fieldnames).

(** [[col for col in EXPECTED_COLUMNS if col not in fieldnames]] *)
Definition missing_columns (fieldnames : list string) : list string :=
  filter (λ col, col ∉ fieldnames) EXPECTED_COLUMNS.

Definition missing_header_error : exn :=
  ValueError "The input file is missing a header row.".
Definition missing_columns_error (missing : list string) : exn :=
  ValueError ("Missing required columns: " +:+ PyStr.join ", " missing
              +:+ ".").
Definition empty_dataset_error : exn :=
  ValueError "The input file is empty. Please upload a valid dataset.".

(** The lines [DictReader] turns into records: it skips blank ones. *)
Definition data_lines (data : list (list string)) : list (list string) :=
  filter (λ row, row ≠ []) data.

Definition parse_csv_rows (csv_text : string) : result (list Row) :=
  let reader := csv_reader csv_text in
  match lines reader with
  | [] =>
      match failure reader with
      | Some msg => Raise (CsvError msg)
      | None => Raise missing_header_error
      end
  | fieldnames :: data =>
      if decide (missing_columns fieldnames ≠ []) then
        Raise (missing_columns_error (missing_columns fieldnames))
      else
        match failure reader with
        | Some msg => Raise (CsvError msg)
        | None =>
            let rows := make_row fieldnames <$> data_lines data in
            if decide (rows = []) then Raise empty_dataset_error
            else Ok rows
        end
  end.

(** ** [generate_openai_summary] and [analyze_csv_content] *)

Record completion_usage : Type := Usage {
  prompt_tokens : Z;
  completion_tokens : Z;
  total_tokens : Z
}.

(** A [ChatCompletion] as far as the code reads it: per choice the
    [content] of its message, and the optional [usage]. *)
Record chat_completion : Type := Completion {
  choices : list (option string);
  usage : option completion_usage
}.

Inductive call_outcome : Type :=
  | CallRaises (error : string)
  | CallReturns (response : chat_completion).

(** What [from openai import OpenAI] does: it binds the class, raises an
    [ImportError], which line 202 catches, or raises another exception,
    which nothing catches. *)
Inductive import_outcome : Type :=
  | Imported
  | RaisesImportError
  | ImportRaises (error : exn).

(** What the collaborator's surroundings decide: the environment variable,
    what [from openai import OpenAI] does, whether building the client,
    [OpenAI(api_key=api_key)], raises, and what
    [client.chat.completions.create] does with a prompt.  What the function
    prints is not part of its result. *)
Record collaborator : Type := Collaborator {
  OPENAI_API_KEY : option string;
  import_openai : import_outcome;
  new_client : option exn;
  create : string → call_outcome
}.

Record AnalysisResponse : Type := Response {
  response_warnings : list string;
  statistics : SummaryStatistics;
  ai_summary : option string;
  ai_notice : option string
}.

Section orchestrator.
(** [f"{x:.2f}"] and [f"{row}"] *)
Variable format_2f : pyfloat → string.
Variable format_row : Row → string.

Definition build_openai_prompt (warnings : list string)
    (stats : SummaryStatistics) (sample_rows : list Row) : string :=
  let warning_text :=
    if decide (warnings = []) then "None"%string
    else PyStr.join (String "010" EmptyString)
                    ((λ item, "- " +:+ item) <$> warnings) in
  let nl := String "010" EmptyString in
  let prompt :=
    "You are assisting a Technical Support Engineer reviewing a CSV upload."
    +:+ nl +:+ nl +:+ "DATA SUMMARY:" +:+ nl
    +:+ "- Total Users: " +:+ pretty (total_users stats) +:+ nl
    +:+ "- Average Sessions per User: "
    +:+ format_2f (average_sessions_per_user stats) +:+ nl
    +:+ "- Percent Users with Errors: "
    +:+ format_2f (percent_users_with_errors stats) +:+ "%" +:+ nl +:+ nl
    +:+ "VALIDATION WARNINGS:" +:+ nl +:+ warning_text +:+ nl +:+ nl
    +:+ "SAMPLE ROWS:" +:+ nl in
  let prompt :=
    foldl (λ prompt row, prompt +:+ "- " +:+ format_row row +:+ nl)
          prompt (take 5 sample_rows) in
  prompt +:+ nl
    +:+ "Write a brief support ticket update that:" +:+ nl
    +:+ "1. Summarizes the health of the dataset." +:+ nl
    +:+ "2. Suggests 2-3 likely causes for inconsistent uploads." +:+ nl
    +:+ "3. Recommends one immediate remediation step." +:+ nl
    +:+ "Keep the tone clear, professional, and action-oriented. "
    +:+ "Do not include code.".

(** Python's truth value of an optional string. *)
Definition truthy (s : option string) : bool :=
  match s with
  | Some (String _ _) => true
  | _ => false
  end.

Definition generate_openai_summary (env : collaborator)
    (warnings : list string) (stats : SummaryStatistics) (rows : list Row)
  : result (option string * option string) :=
  if negb (truthy (OPENAI_API_KEY env)) then
    Ok (None, Some "OpenAI analysis skipped: OPENAI_API_KEY environment variable is not set."%string)
  else
    match import_openai env with
    | RaisesImportError =>
        Ok (None, Some "OpenAI analysis skipped: install the 'openai' package to enable this feature."%string)
    | ImportRaises error => Raise error
    | Imported =>
        (* [client = OpenAI(api_key=api_key)], outside any handler *)
        match new_client env with
        | Some error => Raise error
        | None =>
            let prompt := build_openai_prompt warnings stats rows in
            match create env prompt with
            | CallRaises error =>
                Ok (None, Some ("OpenAI API call failed: " +:+ error))
            | CallReturns response =>
                match choices response with
                | [] =>
                    Ok (None, Some "OpenAI API returned no completion choices."%string)
                | content :: _ =>
                    if negb (truthy content) then
                      Ok (None, Some "OpenAI API completion contained no message content."%string)
                    else
                      (* [usage.prompt_tokens] and the two prints after it *)
                      match usage response with
                      | None =>
                          Raise (AttributeError
                            "'NoneType' object has no attribute 'prompt_tokens'")
                      | Some _ =>
                          Ok (Some (PyStr.strip (default EmptyString content)),
                              None)
                      end
                end
            end
        end
    end.

Definition analyze_csv_content (env : collaborator) (csv_text : string)
  : result AnalysisResponse :=
  rows ← parse_csv_rows csv_text;
  let '(warnings, sessions_per_user, errors_flag_by_user, unique_user_ids) :=
    validate_rows rows in
  stats ← compute_summary_statistics unique_user_ids sessions_per_user
                                     errors_flag_by_user;
  '(ai_summary, ai_notice) ← generate_openai_summary env warnings stats rows;
  Ok (Response warnings stats ai_summary ai_notice).
End orchestrator.

(** ** Vocabulary of the statements *)

(** The trimmed user identifier of a record. *)
Definition user_id_of (row : Row) : string := field row "user_id".

(** The value a numeric cell contributes: a non-negative integer. *)
Definition accepted (row : Row) (column : string) : option Z :=
  match PyStr.int (field row column) with
  | Some v => if decide (field row column ≠ EmptyString ∧ 0 ≤ v)
              then Some v else None
  | None => None
  end.

(** The distinct elements of a list, in the order they first appear. *)
Definition first_seen (l : list string) : list string :=
  reverse (remove_dups (reverse l)).

Definition nonempty (l : list string) : list string :=
  filter (λ u, u ≠ EmptyString) l.

Definition is_duplicate_of (u : string) (w : warning) : Prop :=
  ∃ n, w = DuplicateUser n u.

#[global] Instance is_duplicate_of_dec u w : Decision (is_duplicate_of u w).
Proof.
  destruct w as [n u'| | |];
    [destruct (decide (u' = u)) as [->|]; [left; by exists n|right]
    |right..]; intros [? ?]; congruence.
Defined.

(** The warning for the identifier of a record, [earlier] being the
    identifiers of the records before it. *)
Definition user_warning (n : nat) (earlier : list string) (u : string)
  : list warning :=
  if decide (u = EmptyString) then [MissingValue n "user_id"]
  else if decide (u ∈ earlier) then [DuplicateUser n u] else [].

(** The warning for one numeric cell of a record. *)
Definition column_warning (n : nat) (row : Row) (column : string)
  : list warning :=
  let raw := field row column in
  if decide (raw = EmptyString) then [MissingValue n column]
  else match PyStr.int raw with
       | None => [InvalidInteger n raw column]
       | Some v => if decide (v < 0) then [NegativeValue n column] else []
       end.

Definition row_warnings (n : nat) (earlier : list string) (row : Row)
  : list warning :=
  user_warning n earlier (user_id_of row)
  ++ column_warning n row "sessions"
  ++ column_warning n row "clicks"
  ++ column_warning n row "errors".

(** The accepted sessions values of the records of user [u], in order. *)
Definition sessions_of (u : string) (rows : list Row) : list Z :=
  rows ≫= λ row,
    if decide (user_id_of row = u)
    then option_list (accepted row "sessions") else [].

(** Some record of user [u] has a positive errors value. *)
Definition has_errors (u : string) (rows : list Row) : Prop :=
  ∃ row v, row ∈ rows ∧ user_id_of row = u
           ∧ accepted row "errors" = Some v ∧ 0 < v.

(** What the aggregator reads of the validator's state, and the set of
    seen identifiers: everything but the warnings. *)
Definition observations (st : state)
  : gset string * gmap string (list Z) * gmap string bool * list string :=
  (seen_user_ids st, sessions_per_user st, errors_flag_by_user st,
   unique_user_ids st).

(** Two records agree on every column but [clicks]. *)
Definition same_but_clicks (row row' : Row) : Prop :=
  delete "clicks"%string row = delete "clicks"%string row'.

(** A collaborator with credentials and the client library, whose call
    returns the text [content] and no usage statistics. *)
Definition without_usage (content : string) : collaborator :=
  Collaborator (Some "sk-test"%string) Imported None
               (λ _, CallReturns (Completion [Some content] None)).

(** Line feed and carriage return. *)
Definition LF : string := String "010" EmptyString.
Definition CR : string := String "013" EmptyString.

(** An upload of a header and one line. *)
Definition one_line_upload : string :=
  "user_id,sessions,clicks,errors" +:+ LF +:+ "u1,10,3,0" +:+ LF.

(** An upload whose data line holds a carriage return inside a cell. *)
Definition stray_return_upload : string :=
  "user_id,sessions,clicks,errors" +:+ LF +:+ "u1,1" +:+ CR +:+ "0,3,0" +:+ LF.

(** ** The [/analyze] endpoint *)

(** What a request comes to: the response body, an [HTTPException] raised
    by the handler, or another exception, which the handler lets through. *)
Inductive http_outcome : Type :=
  | Returns (body : AnalysisResponse)
  | HTTPException (status_code : nat) (detail : string)
  | Unhandled (e : exn).

Section endpoint.
Variable format_2f : pyfloat → string.
Variable format_row : Row → string.
(** [content_bytes.decode("utf-8-sig")]: the text, or the text of the
    [UnicodeDecodeError]. *)
Variable decode : list Byte.byte → string + string.

Definition analyze_dataset (env : collaborator)
    (content_type : option string) (content_bytes : list Byte.byte)
  : http_outcome :=
  if decide (content_type ∉ [Some "text/csv"%string;
                             Some "application/vnd.ms-excel"%string])
  then HTTPException 400 "Please upload a CSV file."
  else
    match content_bytes with
    | [] =>
        HTTPException 400
          "The input file is empty. Please upload a valid dataset."
    | _ =>
        match decode content_bytes with
        | inl exc =>
            HTTPException 400 ("Unable to decode file as UTF-8: " +:+ exc)
        | inr csv_text =>
            match analyze_csv_content format_2f format_row env csv_text with
            | Ok body => Returns body
            | Raise (ValueError msg) => HTTPException 400 msg
            | Raise error => Unhandled error
            end
        end
    end.
End endpoint.

(** ** Vocabulary of the further properties *)

(** Two records hold the same four cells, once trimmed. *)
Definition same_cells (row row' : Row) : Prop :=
  ∀ c, c ∈ EXPECTED_COLUMNS → field row c = field row' c.

(** Two records have the same identifier and the same accepted values. *)
Definition same_accepted (row row' : Row) : Prop :=
  user_id_of row = user_id_of row'
  ∧ accepted row "sessions" = accepted row' "sessions"
  ∧ accepted row "errors" = accepted row' "errors".

(** A cell that holds a non-negative integer. *)
Definition clean_cell (row : Row) (column : string) : Prop :=
  ∃ v, PyStr.int (field row column) = Some v ∧ 0 ≤ v.

(** The exception [usage.prompt_tokens] raises on a completion without
    usage statistics. *)
Definition no_usage_error : exn :=
  AttributeError "'NoneType' object has no attribute 'prompt_tokens'".

(** The exceptions [generate_openai_summary] lets through under [env]:
    that of the import when it is no [ImportError], that of building the
    client, and [no_usage_error]; none of them without the key. *)
Definition summary_error (env : collaborator) (e : exn) : Prop :=
  truthy (OPENAI_API_KEY env) = true
  ∧ (import_openai env = ImportRaises e
     ∨ import_openai env = Imported
       ∧ (new_client env = Some e
          ∨ new_client env = None ∧ e = no_usage_error)).

(** The exceptions [parse_csv_rows] raises. *)
Definition parser_error (e : exn) : Prop :=
  e = missing_header_error
  ∨ (∃ fieldnames, missing_columns fieldnames ≠ []
                   ∧ e = missing_columns_error (missing_columns fieldnames))
  ∨ e = empty_dataset_error
  ∨ (∃ msg, e = CsvError msg).

(** [row.get(column) or ""]: the cell as it stands in the record. *)
Definition raw_cell (row : Row) (column : string) : string :=
  match row !! column with
  | Some (Some cell) => cell
  | _ => EmptyString
  end.

(** A text of white space only. *)
Definition blank (s : string) : Prop :=
  Forall (λ a, PyStr.is_space a = true)
         (Stdlib.Strings.String.list_ascii_of_string s).

(** A text that neither starts nor ends with white space. *)
Definition trimmed (s : string) : Prop :=
  ∀ a, head (Stdlib.Strings.String.list_ascii_of_string s) = Some a
       ∨ last (Stdlib.Strings.String.list_ascii_of_string s) = Some a →
       PyStr.is_space a = false.

(** A record with the cell of one column replaced. *)
Definition with_cell (row : Row) (column cell : string) : Row :=
  <[column := Some cell]> row.

(** [lstrip] on the list of the characters. *)
Fixpoint lstrip_chars (l : list ascii) : list ascii :=
  match l with
  | [] => []
  | a :: l' => if PyStr.is_space a then lstrip_chars l' else l
  end.

(** A text without carriage return. *)
Definition no_carriage_return (text : string) : Prop :=
  Forall (λ c, c ≠ "013"%char)
         (Stdlib.Strings.String.list_ascii_of_string text).

(** The number of characters of a text. *)
Definition characters (text : string) : nat :=
  length (Stdlib.Strings.String.list_ascii_of_string text).

(** * Examples *)

Example strip_ex : PyStr.strip "  u1 	" = "u1"%string.
Proof. reflexivity. Qed.
Example int_ex1 : PyStr.int "-3" = Some (-3).
Proof. reflexivity. Qed.
Example int_ex2 : PyStr.int "12.5" = None.
Proof. reflexivity. Qed.
Example int_ex3 : PyStr.int "1_000" = Some 1000.
Proof. reflexivity. Qed.
(** [int("0" * 4300)] is accepted, [int("9" * 4301)] and
    [int("-" + "0" * 4301)] raise [ValueError]. *)
Example int_ex4 :
  PyStr.int (Stdlib.Strings.String.string_of_list_ascii
               (replicate 4300 "0"%char))
  = Some 0
  ∧ PyStr.int (Stdlib.Strings.String.string_of_list_ascii
                 (replicate 4301 "9"%char)) = None
  ∧ PyStr.int (String "-" (Stdlib.Strings.String.string_of_list_ascii
                             (replicate 4301 "0"%char))) = None.
Proof. vm_compute. repeat split; reflexivity. Qed.
Example div_ex1 : PyFloat.truediv 30 2 = Ok (PyFloat.of_Z 15).
Proof. vm_compute. reflexivity. Qed.
Example div_ex2 : PyFloat.truediv 1 3 = Ok (Fin (6004799503160661 * 2 ^ (1074 - 54))).
Proof. vm_compute. reflexivity. Qed.
Example div_ex3 : PyFloat.truediv (10 ^ 400) 1 = Raise OverflowError.
Proof. vm_compute. reflexivity. Qed.

(** [round(2.675, 2) == 2.67], [round(0.125, 2) == 0.12],
    [round(0.375, 2) == 0.38], [round(1 / 3 * 100, 2) == 33.33],
    [round(0.005, 2) == 0.01] and [round(0.015, 2) == 0.01]. *)
Example round_ex1 :
  PyFloat.truediv 2675 1000 ≫= PyFloat.round2 = PyFloat.truediv 267 100.
Proof. vm_compute. reflexivity. Qed.
Example round_ex2 :
  PyFloat.truediv 1 8 ≫= PyFloat.round2 = PyFloat.truediv 12 100.
Proof. vm_compute. reflexivity. Qed.
Example round_ex3 :
  PyFloat.truediv 3 8 ≫= PyFloat.round2 = PyFloat.truediv 38 100.
Proof. vm_compute. reflexivity. Qed.
Example round_ex4 :
  (x ← PyFloat.truediv 1 3; PyFloat.round2 (PyFloat.mul100 x))
  = PyFloat.truediv 3333 100.
Proof. vm_compute. reflexivity. Qed.
Example round_ex5 :
  PyFloat.truediv 1 200 ≫= PyFloat.round2 = PyFloat.truediv 1 100.
Proof. vm_compute. reflexivity. Qed.
Example round_ex6 :
  PyFloat.truediv 3 200 ≫= PyFloat.round2 = PyFloat.truediv 1 100.
Proof. vm_compute. reflexivity. Qed.
(** The largest quotient that is still a float, and the first that is not. *)
Example div_ex4 :
  PyFloat.truediv (2 ^ 1024 - 2 ^ 970 - 1) 1
  = Ok (Fin (PyFloat.max_float * PyFloat.ulps)).
Proof. vm_compute. reflexivity. Qed.
Example div_ex5 : PyFloat.truediv (2 ^ 1024 - 2 ^ 970) 1 = Raise OverflowError.
Proof. vm_compute. reflexivity. Qed.
Example csv_ex1 :
  csv_reader ("a,b" +:+ CR +:+ LF +:+ LF +:+ "1,,2")
  = Reader [["a"; "b"]; []; ["1"; ""; "2"]]%string None.
Proof. reflexivity. Qed.
Example csv_ex2 :
  csv_reader ("a,b" +:+ CR +:+ "1,2" +:+ CR)
  = Reader [] (Some "new-line character seen in unquoted field - do you need to open the file with newline=''?"%string).
Proof. reflexivity. Qed.
Example csv_ex3 : csv_reader EmptyString = Reader [] None.
Proof. reflexivity. Qed.
Example stats_ex :
  statistics_of [mk_row "u1" "10" "3" "0"; mk_row "u2" "20" "x" "5"]
  = Ok (Stats 2 (PyFloat.of_Z 15) (PyFloat.of_Z 50)).
Proof. vm_compute. reflexivity. Qed.
Example warn_ex :
  (validate_rows [mk_row "" "abc" " " "-1"]).1.1.1
  = ["Row 2: missing value in user_id column.";
     "Row 2: invalid integer value 'abc' in sessions column.";
     "Row 2: missing value in clicks column.";
     "Row 2: negative value in errors column."]%string.
Proof. vm_compute. reflexivity. Qed.

(** * Properties *)

(** ** Rounding *)

Section rounding.
Import PyFloat.

Lemma half_even_bounds n d :
  0 ≤ n → 0 < d → n / d ≤ half_even n d ≤ n / d + 1.
Proof.
  intros Hn Hd. unfold half_even.
  repeat case_match; lia.
Qed.

Lemma half_even_nonneg n d : 0 ≤ n → 0 < d → 0 ≤ half_even n d.
Proof.
  intros Hn Hd. pose proof (half_even_bounds n d Hn Hd).
  pose proof (Z.div_pos n d Hn Hd). lia.
Qed.

(** Rounding to the nearest integer never passes an integer bound. *)
Lemma half_even_le n d k :
  0 ≤ n → 0 < d → n ≤ k * d → half_even n d ≤ k.
Proof.
  intros Hn Hd Hk. unfold half_even.
  pose proof (Z.div_mod n d ltac:(lia)) as Hdiv.
  pose proof (Z.mod_pos_bound n d Hd) as Hmod.
  assert (n / d ≤ k) by nia.
  assert (0 < n mod d → n / d + 1 ≤ k) by nia.
  repeat case_match; lia.
Qed.

Lemma half_even_exact k d : 0 ≤ k → 0 < d → half_even (k * d) d = k.
Proof.
  intros Hk Hd. unfold half_even.
  rewrite Z.div_mul, Z.mod_mul by lia.
  case_match; lia.
Qed.

Lemma round53_nonneg n d : 0 ≤ n → 0 < d → 0 ≤ round53 n d.
Proof.
  intros Hn Hd. unfold round53.
  apply Z.mul_nonneg_nonneg; [|apply Z.pow_nonneg; lia].
  apply half_even_nonneg; [done|].
  apply Z.mul_pos_pos; [done|]. apply Z.pow_pos_nonneg; lia.
Qed.

(** Rounding to 53 bits never passes a bound that has 53 bits itself. *)
Lemma round53_le n d m s :
  0 ≤ n → 0 < d → 0 ≤ m < 2 ^ 53 → 0 ≤ s → n ≤ m * 2 ^ s * d →
  round53 n d ≤ m * 2 ^ s.
Proof.
  intros Hn Hd Hm Hs Hle. unfold round53.
  set (t := n / d). set (e := Z.max 0 (Z.log2 t - 52)).
  assert (0 ≤ e) as He by lia.
  assert (0 < 2 ^ e) as Hpe by (apply Z.pow_pos_nonneg; lia).
  assert (0 < 2 ^ s) as Hps by (apply Z.pow_pos_nonneg; lia).
  assert (t ≤ m * 2 ^ s) as Ht.
  { unfold t. apply Z.div_le_upper_bound; [done|]. lia. }
  destruct (decide (e ≤ s)) as [Hes|Hes].
  - replace s with ((s - e) + e) in * by lia.
    rewrite Z.pow_add_r in * by lia.
    assert (0 < 2 ^ (s - e)) by (apply Z.pow_pos_nonneg; lia).
    assert (half_even n (d * 2 ^ e) ≤ m * 2 ^ (s - e)).
    { apply half_even_le; [done|nia|nia]. }
    nia.
  - exfalso.
    assert (e = Z.log2 t - 52) as Heq by lia.
    assert (0 < t) as Htpos.
    { destruct (decide (0 < t)); [done|].
      rewrite (Z.log2_nonpos t) in Heq by lia. lia. }
    pose proof (Z.log2_spec t Htpos) as [Hlo _].
    replace (Z.log2 t) with (53 + (e - 1)) in Hlo by lia.
    rewrite Z.pow_add_r in Hlo by lia.
    assert (2 ^ s ≤ 2 ^ (e - 1)) by (apply Z.pow_le_mono_r; lia).
    nia.
Qed.

(** The result of rounding to 53 bits has 53 bits. *)
Lemma round53_representable n d :
  0 ≤ n → 0 < d → representable (round53 n d).
Proof.
  intros Hn Hd. unfold round53.
  set (t := n / d). set (e := Z.max 0 (Z.log2 t - 52)).
  assert (0 ≤ e) as He by lia.
  assert (0 < 2 ^ e) as Hpe by (apply Z.pow_pos_nonneg; lia).
  assert (0 ≤ t) as Ht0 by (apply Z.div_pos; lia).
  assert (t < 2 ^ 53 * 2 ^ e) as Ht.
  { destruct (decide (0 < t)) as [Htpos|]; [|lia].
    pose proof (Z.log2_spec t Htpos) as [_ Hhi].
    rewrite <- Z.pow_add_r by lia.
    eapply Z.lt_le_trans; [exact Hhi|].
    apply Z.pow_le_mono_r; lia. }
  assert (half_even n (d * 2 ^ e) ≤ 2 ^ 53) as Hh.
  { apply half_even_le; [done|nia|].
    pose proof (Z.div_mod n d ltac:(lia)).
    pose proof (Z.mod_pos_bound n d Hd). fold t in H. nia. }
  pose proof (half_even_nonneg n (d * 2 ^ e) Hn ltac:(nia)) as Hh0.
  destruct (decide (half_even n (d * 2 ^ e) = 2 ^ 53)) as [->|Hne].
  - exists 1, (53 + e). rewrite Z.pow_add_r by lia. lia.
  - exists (half_even n (d * 2 ^ e)), e. lia.
Qed.

Lemma representable_0 : representable 0.
Proof. exists 0, 0. lia. Qed.

Lemma representable_sgn (u z : Z) :
  u = 0 ∨ u = 1 ∨ u = -1 → 0 ≤ z → representable z →
  representable (Z.abs (u * z)).
Proof.
  intros [->|[->| ->]] Hz Hr.
  - rewrite Z.mul_0_l. apply representable_0.
  - by rewrite Z.mul_1_l, Z.abs_eq.
  - replace (Z.abs (-1 * z)) with z by lia. done.
Qed.

Lemma sgn_cases (a : Z) : Z.sgn a = 0 ∨ Z.sgn a = 1 ∨ Z.sgn a = -1.
Proof. destruct a; simpl; auto. Qed.

Lemma huge_eq : huge = 2 ^ 53 * 2 ^ 2045.
Proof. reflexivity. Qed.

Lemma ulps_pos : 0 < ulps.
Proof. reflexivity. Qed.

Lemma max_float_ulps : max_float * ulps = (2 ^ 53 - 1) * 2 ^ 2045.
Proof. reflexivity. Qed.

(** A quotient in range is a float: [/] does not raise. *)
Lemma truediv_in_range a b :
  b ≠ 0 → in_range a b →
  ∃ z, truediv a b = Ok (Fin z) ∧ valid (Fin z).
Proof.
  intros Hb Hr. unfold truediv, in_range in *. specialize (Hr Hb).
  destruct (Z.eqb_spec b 0) as [|_]; [done|].
  set (r := round53 (Z.abs a * ulps) (Z.abs b)).
  assert (0 ≤ r) as Hr0.
  { apply round53_nonneg; [pose proof ulps_pos; lia | lia]. }
  assert (r ≤ (2 ^ 53 - 1) * 2 ^ 2045) as Hle.
  { apply round53_le; [pose proof ulps_pos; lia|lia|lia|lia|].
    rewrite <- max_float_ulps.
    replace (max_float * ulps * Z.abs b)
      with (max_float * Z.abs b * ulps) by ring.
    apply Z.mul_le_mono_nonneg_r; [pose proof ulps_pos; lia | done]. }
  assert (r < huge) as Hlt by (rewrite huge_eq; lia).
  destruct (Z.ltb_spec r huge) as [_|]; [|lia].
  eexists; split; [done|]. simpl. split.
  - rewrite <- Z.sgn_mul. apply representable_sgn; [apply sgn_cases|done|].
    apply round53_representable; [pose proof ulps_pos; lia | lia].
  - pose proof (sgn_cases (a * b)) as Hs. rewrite <- Z.sgn_mul.
    destruct Hs as [->|[->| ->]]; lia.
Qed.

Lemma truediv_raises a b e :
  truediv a b = Raise e →
  (b = 0 ∧ e = ZeroDivisionError) ∨ (b ≠ 0 ∧ e = OverflowError).
Proof.
  unfold truediv. destruct (Z.eqb_spec b 0); [naive_solver|].
  case_match; naive_solver.
Qed.

(** [x * 100] is a float or an infinity. *)
Lemma mul100_valid x : valid (mul100 x).
Proof.
  destruct x as [z|]; [|done]. simpl.
  set (r := round53 (Z.abs z * 100) 1).
  assert (0 ≤ r) as Hr0 by (apply round53_nonneg; lia).
  destruct (Z.ltb_spec r huge) as [Hlt|]; [|done]. simpl. split.
  - apply representable_sgn; [apply sgn_cases|done|].
    apply round53_representable; lia.
  - pose proof (sgn_cases z) as [->|[->| ->]]; lia.
Qed.

(** [round(x, 2)] does not raise on a float. *)
Lemma round2_valid x : valid x → ∃ y, round2 x = Ok y.
Proof.
  destruct x as [z|]; [|by eexists]. intros [(m & s & Hm & Hs & Hz) Hlt].
  simpl.
  set (h := half_even (Z.abs z * 100) ulps).
  pose proof ulps_pos as Hu.
  assert (0 ≤ h) as Hh0 by (apply half_even_nonneg; lia).
  assert (round53 (h * ulps) 100 < huge) as Hr.
  { destruct (decide (1074 ≤ s)) as [Hbig|Hsmall].
    - assert (Z.abs z * 100 = (m * 2 ^ (s - 1074) * 100) * ulps) as Heq.
      { rewrite Hz. unfold ulps.
        replace s with ((s - 1074) + 1074) at 1 by lia.
        rewrite Z.pow_add_r by lia. lia. }
      assert (0 ≤ 2 ^ (s - 1074)) by (apply Z.pow_nonneg; lia).
      assert (h = m * 2 ^ (s - 1074) * 100) as Hh.
      { unfold h. rewrite Heq. apply half_even_exact; [nia|done]. }
      assert (round53 (h * ulps) 100 ≤ m * 2 ^ s); [|lia].
      apply round53_le; [nia|lia|done|done|]. rewrite Hh, <- Heq. lia.
    - assert (2 ^ s ≤ 2 ^ 1073) by (apply Z.pow_le_mono_r; lia).
      assert (0 < 2 ^ s) by (apply Z.pow_pos_nonneg; lia).
      assert (Z.abs z ≤ 2 ^ 53 * 2 ^ 1073) as Hz' by nia.
      assert (h ≤ 2 ^ 60) as Hh.
      { apply half_even_le; [lia|done|].
        change (2 ^ 60 * ulps) with (2 ^ 53 * 2 ^ 1073 * 256). lia. }
      assert (round53 (h * ulps) 100 ≤ 1 * 2 ^ 1134) as Hle.
      { apply round53_le; [nia|lia|lia|lia|].
        change (2 ^ 1134) with (2 ^ 60 * ulps). nia. }
      eapply Z.le_lt_trans; [exact Hle|]. reflexivity. }
  destruct (Z.ltb_spec (round53 (h * ulps) 100) huge) as [_|]; [|lia].
  by eexists.
Qed.

Lemma round2_raises x e : round2 x = Raise e → e = OverflowError.
Proof. destruct x; simpl; [|done]. case_match; naive_solver. Qed.

(** *** Bounds on a share of users *)

Lemma truediv_share k n :
  0 ≤ k ≤ n → 0 < n → ∃ z, truediv k n = Ok (Fin z) ∧ 0 ≤ z ≤ ulps.
Proof.
  intros Hk Hn. unfold truediv.
  destruct (Z.eqb_spec n 0) as [|_]; [lia|].
  pose proof ulps_pos as Hu.
  set (r := round53 (Z.abs k * ulps) (Z.abs n)).
  assert (0 ≤ r) as Hr0 by (apply round53_nonneg; lia).
  assert (r ≤ 1 * 2 ^ 1074) as Hle.
  { apply round53_le; [lia|lia|lia|lia|]. fold ulps. nia. }
  fold ulps in Hle.
  assert (ulps < huge) by reflexivity.
  destruct (Z.ltb_spec r huge) as [_|]; [|lia].
  eexists; split; [done|].
  pose proof (sgn_cases k) as Hsk.
  rewrite (Z.sgn_pos n) by done. destruct Hsk as [->|[->| Hneg]]; [lia..|].
  pose proof (Z.sgn_nonneg k). lia.
Qed.

Lemma mul100_share z :
  0 ≤ z ≤ ulps → ∃ z', mul100 (Fin z) = Fin z' ∧ 0 ≤ z' ≤ 100 * ulps.
Proof.
  intros Hz. simpl.
  set (r := round53 (Z.abs z * 100) 1).
  assert (0 ≤ r) as Hr0 by (apply round53_nonneg; lia).
  assert (r ≤ 100 * 2 ^ 1074) as Hle.
  { apply round53_le; [lia|lia|lia|lia|]. fold ulps. lia. }
  fold ulps in Hle.
  assert (100 * ulps < huge) by reflexivity.
  destruct (Z.ltb_spec r huge) as [_|]; [|lia].
  eexists; split; [done|].
  pose proof (sgn_cases z) as [->|[->| Hneg]]; [lia..|].
  pose proof (Z.sgn_nonneg z). lia.
Qed.

Lemma round2_share z :
  0 ≤ z ≤ 100 * ulps →
  ∃ z', round2 (Fin z) = Ok (Fin z') ∧ 0 ≤ z' ≤ 100 * ulps.
Proof.
  intros Hz. simpl. pose proof ulps_pos as Hu.
  set (h := half_even (Z.abs z * 100) ulps).
  assert (0 ≤ h) as Hh0 by (apply half_even_nonneg; lia).
  assert (h ≤ 10000) as Hh by (apply half_even_le; lia).
  set (r := round53 (h * ulps) 100).
  assert (0 ≤ r) as Hr0 by (apply round53_nonneg; nia).
  assert (r ≤ 100 * 2 ^ 1074) as Hle.
  { apply round53_le; [nia|lia|lia|lia|]. fold ulps. nia. }
  fold ulps in Hle.
  assert (100 * ulps < huge) by reflexivity.
  destruct (Z.ltb_spec r huge) as [_|]; [|lia].
  eexists; split; [done|].
  pose proof (sgn_cases z) as [->|[->| Hneg]]; [lia..|].
  pose proof (Z.sgn_nonneg z). lia.
Qed.

Lemma between_Fin lo hi z :
  lo * ulps ≤ z ≤ hi * ulps → between lo hi (Fin z).
Proof.
  intros [Hlo Hhi]. eexists; split; [done|].
  pose proof ulps_pos as Hu.
  assert (0 < inject_Z ulps)%Q as HuQ.
  { change (inject_Z 0 < inject_Z ulps)%Q. by rewrite <- Zlt_Qlt. }
  split.
  - apply Qle_shift_div_l; [done|].
    rewrite <- inject_Z_mult, <- Zle_Qle. done.
  - apply Qle_shift_div_r; [done|].
    rewrite <- inject_Z_mult, <- Zle_Qle. done.
Qed.

End rounding.

(** ** The validator, record by record *)

Section validator.
Implicit Types (st : state) (row : Row) (rows : list Row) (u : string).

Lemma validate_from_snoc n rows row st :
  validate_from n (rows ++ [row]) st
  = validate_row (n + length rows) row (validate_from n rows st).
Proof.
  revert n st. induction rows as [|r rows IH]; intros n st; simpl.
  - by rewrite Nat.add_0_r.
  - rewrite IH. f_equal. lia.
Qed.

Lemma validate_state_snoc rows row :
  validate_state (rows ++ [row])
  = validate_row (2 + length rows) row (validate_state rows).
Proof. apply validate_from_snoc. Qed.

(** What one numeric cell does to the state. *)
Lemma check_column_spec n row u st c :
  let st' := check_column n row u st c in
  warnings st' = warnings st ++ column_warning n row c
  ∧ seen_user_ids st' = seen_user_ids st
  ∧ unique_user_ids st' = unique_user_ids st
  ∧ sessions_per_user st'
    = match accepted row c with
      | Some v =>
          if decide (c = "sessions"%string ∧ u ≠ EmptyString)
          then <[u := default [] (sessions_per_user st !! u) ++ [v]]>
                 (sessions_per_user st)
          else sessions_per_user st
      | None => sessions_per_user st
      end
  ∧ errors_flag_by_user st'
    = match accepted row c with
      | Some v =>
          if decide (c = "errors"%string ∧ u ≠ EmptyString ∧ 0 < v)
          then <[u := true]> (errors_flag_by_user st)
          else errors_flag_by_user st
      | None => errors_flag_by_user st
      end.
Proof.
  unfold check_column, column_warning, accepted.
  destruct (decide (field row c = EmptyString)) as [Hraw|Hraw].
  - rewrite Hraw. done.
  - destruct (PyStr.int (field row c)) as [v|] eqn:Hint; [|done].
    destruct (Z.ltb_spec v 0) as [Hneg|Hpos].
    + rewrite (decide_True (P := v < 0)) by done.
      rewrite (decide_False (P := _ ∧ 0 ≤ v)) by lia. done.
    + rewrite (decide_False (P := v < 0)) by lia.
      rewrite (decide_True (P := _ ∧ 0 ≤ v)) by done.
      rewrite app_nil_r. repeat case_decide; done.
Qed.

(** What the identifier of a record does to the state. *)
Lemma check_user_id_spec n u st earlier :
  (u ≠ EmptyString → u ∈ seen_user_ids st ↔ u ∈ earlier) →
  let st' := check_user_id n u st in
  warnings st' = warnings st ++ user_warning n earlier u
  ∧ seen_user_ids st'
    = (if decide (u ≠ EmptyString) then {[u]} ∪ seen_user_ids st
       else seen_user_ids st)
  ∧ unique_user_ids st'
    = (if decide (u ≠ EmptyString ∧ u ∉ seen_user_ids st)
       then unique_user_ids st ++ [u] else unique_user_ids st)
  ∧ sessions_per_user st' = sessions_per_user st
  ∧ errors_flag_by_user st' = errors_flag_by_user st.
Proof.
  intros Hseen. unfold check_user_id, user_warning.
  destruct (decide (u ≠ EmptyString)) as [Hu|Hu].
  - rewrite (decide_False (P := u = EmptyString)) by done.
    destruct (decide (u ∉ seen_user_ids st)) as [Hnew|Hold].
    + rewrite decide_False by (rewrite <- Hseen; done).
      rewrite decide_True by done. simpl. by rewrite app_nil_r.
    + apply dec_stable in Hold.
      rewrite decide_True by (rewrite <- Hseen; done).
      rewrite decide_False by tauto. simpl.
      repeat split; try done.
      apply set_eq. intros x. rewrite elem_of_union, elem_of_singleton.
      split; [by right | intros [->|?]; done].
  - rewrite decide_True by (by apply dec_stable).
    rewrite decide_False by tauto. done.
Qed.

Lemma check_sessions_spec n row u st :
  let st' := check_column n row u st "sessions" in
  sessions_per_user st'
  = match accepted row "sessions" with
    | Some v =>
        if decide (u ≠ EmptyString)
        then <[u := default [] (sessions_per_user st !! u) ++ [v]]>
               (sessions_per_user st)
        else sessions_per_user st
    | None => sessions_per_user st
    end
  ∧ errors_flag_by_user st' = errors_flag_by_user st.
Proof.
  destruct (check_column_spec n row u st "sessions") as (_ & _ & _ & Hm & He).
  cbv zeta. rewrite Hm, He. destruct (accepted row "sessions"); [|done].
  split.
  - destruct (decide (u ≠ EmptyString));
      [rewrite decide_True by done | rewrite decide_False by tauto]; done.
  - rewrite decide_False; [done|]. intros [? _]. done.
Qed.

Lemma check_clicks_spec n row u st :
  let st' := check_column n row u st "clicks" in
  sessions_per_user st' = sessions_per_user st
  ∧ errors_flag_by_user st' = errors_flag_by_user st.
Proof.
  destruct (check_column_spec n row u st "clicks") as (_ & _ & _ & Hm & He).
  cbv zeta. rewrite Hm, He. destruct (accepted row "clicks"); [|done].
  split; (rewrite decide_False; [done|]; intros [? _]; done).
Qed.

Lemma check_errors_spec n row u st :
  let st' := check_column n row u st "errors" in
  sessions_per_user st' = sessions_per_user st
  ∧ errors_flag_by_user st'
    = match accepted row "errors" with
      | Some v =>
          if decide (u ≠ EmptyString ∧ 0 < v)
          then <[u := true]> (errors_flag_by_user st)
          else errors_flag_by_user st
      | None => errors_flag_by_user st
      end.
Proof.
  destruct (check_column_spec n row u st "errors") as (_ & _ & _ & Hm & He).
  cbv zeta. rewrite Hm, He. destruct (accepted row "errors"); [|done].
  split.
  - rewrite decide_False; [done|]. intros [? _]. done.
  - destruct (decide (u ≠ EmptyString ∧ 0 < z));
      [rewrite decide_True by tauto | rewrite decide_False by tauto]; done.
Qed.

(** What one record does to the state. *)
Lemma validate_row_spec n row st earlier :
  let u := user_id_of row in
  (u ≠ EmptyString → u ∈ seen_user_ids st ↔ u ∈ earlier) →
  let st' := validate_row n row st in
  warnings st' = warnings st ++ row_warnings n earlier row
  ∧ seen_user_ids st'
    = (if decide (u ≠ EmptyString) then {[u]} ∪ seen_user_ids st
       else seen_user_ids st)
  ∧ unique_user_ids st'
    = (if decide (u ≠ EmptyString ∧ u ∉ seen_user_ids st)
       then unique_user_ids st ++ [u] else unique_user_ids st)
  ∧ sessions_per_user st'
    = match accepted row "sessions" with
      | Some v =>
          if decide (u ≠ EmptyString)
          then <[u := default [] (sessions_per_user st !! u) ++ [v]]>
                 (sessions_per_user st)
          else sessions_per_user st
      | None => sessions_per_user st
      end
  ∧ errors_flag_by_user st'
    = match accepted row "errors" with
      | Some v =>
          if decide (u ≠ EmptyString ∧ 0 < v)
          then <[u := true]> (errors_flag_by_user st)
          else errors_flag_by_user st
      | None => errors_flag_by_user st
      end.
Proof.
  intros u Hseen. unfold validate_row, row_warnings, NUMERIC_COLUMNS.
  change (field row "user_id") with u. cbn [foldl]. cbv zeta.
  destruct (check_user_id_spec n u st earlier Hseen)
    as (Hw0 & Hs0 & Hu0 & Hm0 & He0).
  set (st0 := check_user_id n u st) in *.
  destruct (check_column_spec n row u st0 "sessions")
    as (Hw1 & Hs1 & Hu1 & _).
  destruct (check_sessions_spec n row u st0) as (Hm1 & He1).
  set (st1 := check_column n row u st0 "sessions") in *.
  destruct (check_column_spec n row u st1 "clicks")
    as (Hw2 & Hs2 & Hu2 & _).
  destruct (check_clicks_spec n row u st1) as (Hm2 & He2).
  set (st2 := check_column n row u st1 "clicks") in *.
  destruct (check_column_spec n row u st2 "errors")
    as (Hw3 & Hs3 & Hu3 & _).
  destruct (check_errors_spec n row u st2) as (Hm3 & He3).
  set (st3 := check_column n row u st2 "errors") in *.
  repeat split.
  - rewrite Hw3, Hw2, Hw1, Hw0. by rewrite <- !(assoc_L (++)).
  - by rewrite Hs3, Hs2, Hs1, Hs0.
  - by rewrite Hu3, Hu2, Hu1, Hu0.
  - by rewrite Hm3, Hm2, Hm1, Hm0.
  - by rewrite He3, He2, He1, He0.
Qed.

End validator.

(** ** The validator, on a whole input *)

Section validation.
Implicit Types (st : state) (row : Row) (rows : list Row) (u : string).

Lemma ids_snoc rows row :
  user_id_of <$> rows ++ [row] = (user_id_of <$> rows) ++ [user_id_of row].
Proof. by rewrite fmap_app. Qed.

Lemma first_seen_snoc l u :
  first_seen (l ++ [u])
  = if decide (u ∈ l) then first_seen l else first_seen l ++ [u].
Proof.
  unfold first_seen. rewrite reverse_snoc. cbn [remove_dups].
  destruct (decide (u ∈ l)) as [Hin|Hin],
           (decide_rel elem_of u (reverse l)) as [Hin'|Hin'];
    rewrite elem_of_reverse in Hin';
    [done | tauto | tauto | by rewrite reverse_cons].
Qed.

Lemma elem_of_first_seen l u : u ∈ first_seen l ↔ u ∈ l.
Proof.
  unfold first_seen.
  by rewrite elem_of_reverse, elem_of_remove_dups, elem_of_reverse.
Qed.

Lemma NoDup_first_seen l : NoDup (first_seen l).
Proof.
  unfold first_seen. rewrite reverse_Permutation. apply NoDup_remove_dups.
Qed.

Lemma nonempty_snoc l u :
  nonempty (l ++ [u])
  = nonempty l ++ (if decide (u ≠ EmptyString) then [u] else []).
Proof.
  unfold nonempty. by rewrite filter_app.
Qed.

Lemma elem_of_nonempty l u : u ∈ nonempty l ↔ u ≠ EmptyString ∧ u ∈ l.
Proof. unfold nonempty. by rewrite list_elem_of_filter. Qed.

(** The identifiers seen so far are the non-empty ones of the input. *)
Lemma seen_spec rows :
  seen_user_ids (validate_state rows)
  = list_to_set (nonempty (user_id_of <$> rows)).
Proof.
  induction rows as [|row rows IH] using rev_ind; [done|].
  rewrite validate_state_snoc.
  destruct (validate_row_spec (2 + length rows) row (validate_state rows)
              (elements (seen_user_ids (validate_state rows))))
    as (_ & Hs & _).
  { intros _. by rewrite elem_of_elements. }
  rewrite Hs, IH, ids_snoc, nonempty_snoc, list_to_set_app_L.
  clear Hs IH. apply set_eq. intros x.
  case_decide; rewrite !elem_of_union, ?elem_of_list_to_set,
    ?list_elem_of_singleton, ?elem_of_singleton, ?elem_of_nil; tauto.
Qed.

Lemma seen_iff rows u :
  u ≠ EmptyString →
  u ∈ seen_user_ids (validate_state rows) ↔ u ∈ user_id_of <$> rows.
Proof.
  intros Hu. rewrite seen_spec, elem_of_list_to_set, elem_of_nonempty.
  tauto.
Qed.

(** The state after one more record. *)
Lemma validate_state_step rows row :
  let st := validate_state rows in
  let st' := validate_state (rows ++ [row]) in
  let u := user_id_of row in
  warnings st'
  = warnings st
    ++ row_warnings (2 + length rows) (user_id_of <$> rows) row
  ∧ unique_user_ids st'
    = (if decide (u ≠ EmptyString ∧ u ∉ seen_user_ids st)
       then unique_user_ids st ++ [u] else unique_user_ids st)
  ∧ sessions_per_user st'
    = match accepted row "sessions" with
      | Some v =>
          if decide (u ≠ EmptyString)
          then <[u := default [] (sessions_per_user st !! u) ++ [v]]>
                 (sessions_per_user st)
          else sessions_per_user st
      | None => sessions_per_user st
      end
  ∧ errors_flag_by_user st'
    = match accepted row "errors" with
      | Some v =>
          if decide (u ≠ EmptyString ∧ 0 < v)
          then <[u := true]> (errors_flag_by_user st)
          else errors_flag_by_user st
      | None => errors_flag_by_user st
      end.
Proof.
  cbv zeta. rewrite validate_state_snoc.
  destruct (validate_row_spec (2 + length rows) row (validate_state rows)
              (user_id_of <$> rows)) as (Hw & _ & Hu & Hm & He).
  { intros Hne. by apply seen_iff. }
  done.
Qed.

(** The registry lists the non-empty identifiers in first-seen order. *)
Lemma unique_spec rows :
  unique_user_ids (validate_state rows)
  = first_seen (nonempty (user_id_of <$> rows)).
Proof.
  induction rows as [|row rows IH] using rev_ind; [done|].
  destruct (validate_state_step rows row) as (_ & Hu & _).
  rewrite Hu, IH, ids_snoc, nonempty_snoc. simpl.
  destruct (decide (user_id_of row ≠ EmptyString)) as [Hne|Hne].
  - rewrite first_seen_snoc.
    destruct (decide (user_id_of row ∈ nonempty (user_id_of <$> rows)))
      as [Hin|Hin].
    + rewrite decide_False; [done|]. intros [_ Hnot]. apply Hnot.
      rewrite seen_iff by done. by apply elem_of_nonempty in Hin as [_ ?].
    + rewrite decide_True; [done|]. split; [done|].
      rewrite seen_iff by done. intros Hin'. apply Hin.
      by apply elem_of_nonempty.
  - rewrite app_nil_r. rewrite decide_False by tauto. done.
Qed.

(** The warnings are those of the records, one record after the other. *)
Lemma warnings_spec rows :
  warnings (validate_state rows)
  = concat (imap (λ i row,
              row_warnings (2 + i) (take i (user_id_of <$> rows)) row)
            rows).
Proof.
  induction rows as [|row rows IH] using rev_ind; [done|].
  destruct (validate_state_step rows row) as (Hw & _).
  rewrite Hw, IH, imap_app, concat_app. simpl.
  rewrite Nat.add_0_r, app_nil_r, ids_snoc.
  rewrite take_app_length' by (by rewrite length_fmap).
  f_equal. f_equal. apply imap_ext. intros i x Hi. simpl.
  rewrite take_app_le; [done|].
  rewrite length_fmap. apply lookup_lt_Some in Hi. lia.
Qed.

Lemma sessions_of_snoc u rows row :
  sessions_of u (rows ++ [row])
  = sessions_of u rows
    ++ (if decide (user_id_of row = u)
        then option_list (accepted row "sessions") else []).
Proof.
  unfold sessions_of. rewrite bind_app. f_equal. simpl.
  by rewrite app_nil_r.
Qed.

(** Each user holds the accepted sessions values of all its records. *)
Lemma sessions_spec rows u :
  sessions_per_user (validate_state rows) !! u
  = if decide (u ≠ EmptyString ∧ sessions_of u rows ≠ [])
    then Some (sessions_of u rows) else None.
Proof.
  induction rows as [|row rows IH] using rev_ind.
  { rewrite decide_False by (intros [_ ?]; done). done. }
  destruct (validate_state_step rows row) as (_ & _ & Hm & _).
  rewrite Hm, sessions_of_snoc. clear Hm.
  set (m := sessions_per_user (validate_state rows)) in *.
  assert (u ≠ EmptyString → default [] (m !! u) = sessions_of u rows)
    as Hdef.
  { intros Hu. rewrite IH. case_decide as Hd; [done|].
    simpl. destruct (decide (sessions_of u rows = [])) as [->|]; [done|].
    tauto. }
  destruct (accepted row "sessions") as [v|]; simpl.
  - destruct (decide (user_id_of row ≠ EmptyString)) as [Hne|Hne].
    + destruct (decide (user_id_of row = u)) as [<-|Hother].
      * rewrite lookup_insert_eq, Hdef by done.
        rewrite decide_True; [done|]. split; [done|].
        by destruct (sessions_of (user_id_of row) rows).
      * rewrite lookup_insert_ne by done. by rewrite app_nil_r.
    + apply dec_stable in Hne.
      destruct (decide (user_id_of row = u)) as [<-|Hother].
      * rewrite IH, !decide_False; [done|tauto..].
      * by rewrite app_nil_r.
  - destruct (decide (user_id_of row = u)); rewrite app_nil_r; exact IH.
Qed.

Lemma has_errors_snoc u rows row :
  has_errors u (rows ++ [row])
  ↔ has_errors u rows
    ∨ (user_id_of row = u ∧ ∃ v, accepted row "errors" = Some v ∧ 0 < v).
Proof.
  unfold has_errors. split.
  - intros (r & v & Hin & Hu & Ha & Hv).
    apply elem_of_app in Hin as [Hin|Hin%list_elem_of_singleton].
    + left. by exists r, v.
    + subst r. right. split; [done|]. by exists v.
  - intros [(r & v & Hin & Hu & Ha & Hv)|(Hu & v & Ha & Hv)].
    + exists r, v. rewrite elem_of_app. tauto.
    + exists row, v. rewrite elem_of_app, list_elem_of_singleton. tauto.
Qed.

(** A user is flagged exactly when a record of it has a positive errors
    value; no flag is ever [False]. *)
Lemma errors_spec rows u :
  (errors_flag_by_user (validate_state rows) !! u = Some true
   ↔ u ≠ EmptyString ∧ has_errors u rows)
  ∧ errors_flag_by_user (validate_state rows) !! u ≠ Some false.
Proof.
  induction rows as [|row rows [IH1 IH2]] using rev_ind.
  { split; [|done]. split; [done|].
    intros [_ (r & v & Hin & _)]. by apply elem_of_nil in Hin. }
  destruct (validate_state_step rows row) as (_ & _ & _ & He).
  rewrite He, has_errors_snoc. clear He.
  destruct (accepted row "errors") as [v|] eqn:Ha.
  - destruct (decide (user_id_of row ≠ EmptyString ∧ 0 < v)) as [[Hne Hv]|Hno].
    + destruct (decide (user_id_of row = u)) as [<-|Hother].
      * rewrite lookup_insert_eq. split; [|done].
        split; [|done]. intros _. split; [done|]. right.
        split; [done|]. by exists v.
      * rewrite lookup_insert_ne by done. split; [|done].
        rewrite IH1. split; [tauto|]. intros [? [?|[? _]]]; tauto.
    + split; [|done]. rewrite IH1. split; [tauto|].
      intros [Hu [?|[Heq (v' & Hv' & Hpos)]]]; [tauto|].
      exfalso. apply Hno. subst u. split; [done|]. congruence.
  - split; [|done]. rewrite IH1. split; [tauto|].
    intros [Hu [?|[_ (v' & Hv' & _)]]]; [tauto|done].
Qed.

End validation.

(** ** The aggregator *)

Section aggregator.
Import PyFloat.
Implicit Types (sess : gmap string (list Z)) (errs : gmap string bool).

Lemma aggregate_empty sess :
  (∀ u l, sess !! u = Some l → l = []) → aggregate sess = ∅.
Proof.
  intros Hno. unfold aggregate. apply fmap_empty_iff, map_empty.
  intros u. apply map_lookup_filter_None. right. intros l Hl Hne.
  apply Hne. simpl. by apply (Hno u).
Qed.

Lemma round2_zero : round2 (Fin 0) = Ok (Fin 0).
Proof. reflexivity. Qed.

Lemma valid_zero : valid (Fin 0).
Proof. split; [apply representable_0 | reflexivity]. Qed.

Lemma avg_sessions_in_range sess :
  in_range (sum_values (aggregate sess)) (Z.of_nat (size (aggregate sess))) →
  ∃ avg, avg_sessions sess = Ok avg ∧ valid avg
         ∧ (aggregate sess = ∅ → avg = Fin 0).
Proof.
  intros Hr. unfold avg_sessions.
  destruct (decide (size (aggregate sess) ≠ 0%nat)) as [Hne|He].
  - assert (Z.of_nat (size (aggregate sess)) ≠ 0) as Hz by lia.
    destruct (truediv_in_range _ _ Hz Hr) as (z & -> & Hv).
    exists (Fin z). repeat split; try apply Hv.
    intros Hempty. rewrite Hempty, map_size_empty in Hne. done.
  - exists (Fin 0). split; [done|]. split; [apply valid_zero | done].
Qed.

Lemma error_percentage_in_range n errs :
  in_range (Z.of_nat (size (flagged errs))) (Z.of_nat n) →
  ∃ pct, error_percentage n errs = Ok pct ∧ valid pct
         ∧ (n = 0%nat → pct = Fin 0).
Proof.
  intros Hr. unfold error_percentage.
  destruct (decide (n ≠ 0%nat)) as [Hne|He].
  - assert (Z.of_nat n ≠ 0) as Hz by lia.
    destruct (truediv_in_range _ _ Hz Hr) as (z & -> & Hv).
    exists (mul100 (Fin z)). split; [done|].
    split; [apply mul100_valid | done].
  - exists (Fin 0). split; [done|]. split; [apply valid_zero | done].
Qed.

Lemma bind_raise {A B} (r : result A) (k : A → result B) e :
  r ≫= k = Raise e → r = Raise e ∨ ∃ a, r = Ok a ∧ k a = Raise e.
Proof.
  destruct r as [a|e']; intros H.
  - right. exists a. split; [done|]. exact H.
  - left. simpl in H. by injection H as ->.
Qed.

Lemma avg_sessions_raises sess e :
  avg_sessions sess = Raise e → e = OverflowError.
Proof.
  unfold avg_sessions. case_decide as Hs; [|done].
  intros [[? _]|[_ ?]]%truediv_raises; [lia|done].
Qed.

Lemma error_percentage_raises n errs e :
  error_percentage n errs = Raise e → e = OverflowError.
Proof.
  unfold error_percentage. case_decide as Hn; [|done].
  intros [Hdiv|(sh & _ & ?)]%bind_raise; [|done].
  apply truediv_raises in Hdiv as [[? _]|[_ ?]]; [lia|done].
Qed.

(** The aggregator raises nothing but [OverflowError]; in particular it
    never divides by zero. *)
Lemma compute_summary_statistics_raises ids sess errs e :
  compute_summary_statistics ids sess errs = Raise e → e = OverflowError.
Proof.
  unfold compute_summary_statistics.
  intros [Ha|(avg & _ & H1)]%bind_raise; [by eapply avg_sessions_raises|].
  apply bind_raise in H1 as [Hp|(pct & _ & H2)];
    [by eapply error_percentage_raises|].
  apply bind_raise in H2 as [Hr|(average & _ & H3)];
    [by eapply round2_raises|].
  apply bind_raise in H3 as [Hr|(percent & _ & H4)];
    [by eapply round2_raises|done].
Qed.

End aggregator.

(** ** What the registry holds *)

Section registry.
Import PyFloat.
Implicit Types (row : Row) (rows : list Row) (u : string).

Lemma registry_elem_of rows u :
  u ∈ unique_user_ids (validate_state rows)
  ↔ u ≠ EmptyString ∧ u ∈ user_id_of <$> rows.
Proof. by rewrite unique_spec, elem_of_first_seen, elem_of_nonempty. Qed.

Lemma registry_NoDup rows : NoDup (unique_user_ids (validate_state rows)).
Proof. rewrite unique_spec. apply NoDup_first_seen. Qed.

Lemma sessions_of_elem_of u rows :
  sessions_of u rows ≠ [] → u ∈ user_id_of <$> rows.
Proof.
  intros Hne. destruct (sessions_of u rows) as [|v l] eqn:Hs; [done|].
  assert (v ∈ sessions_of u rows) as Hv by (rewrite Hs; left).
  apply list_elem_of_bind in Hv as (row & Hin & Hrow).
  case_decide as Hu; [|by apply elem_of_nil in Hin].
  subst u. by apply list_elem_of_fmap_2.
Qed.

Lemma has_errors_elem_of u rows :
  has_errors u rows → u ∈ user_id_of <$> rows.
Proof.
  intros (row & v & Hin & <- & _). by apply list_elem_of_fmap_2.
Qed.

Lemma elem_of_flagged (errs : gmap string bool) u :
  u ∈ flagged errs ↔ errs !! u = Some true.
Proof.
  unfold flagged. rewrite elem_of_dom. split.
  - intros [b Hb]. apply map_lookup_filter_Some in Hb as [Hb Ht].
    simpl in Ht. by subst b.
  - intros Hu. exists true. by apply map_lookup_filter_Some.
Qed.

(** Every key of the sessions map is in the registry. *)
Lemma sessions_keys_registered rows u :
  u ∈ dom (sessions_per_user (validate_state rows)) →
  u ∈ unique_user_ids (validate_state rows).
Proof.
  rewrite elem_of_dom, sessions_spec, registry_elem_of.
  case_decide as Hd; [|by intros [? ?]].
  intros _. destruct Hd as [Hu Hs]. split; [done|].
  by apply sessions_of_elem_of.
Qed.

(** Every flagged user is in the registry. *)
Lemma flagged_registered rows u :
  errors_flag_by_user (validate_state rows) !! u = Some true →
  u ∈ unique_user_ids (validate_state rows).
Proof.
  intros [Hu He]%errors_spec. apply registry_elem_of. split; [done|].
  by apply has_errors_elem_of.
Qed.

Lemma size_flagged_le rows :
  (size (flagged (errors_flag_by_user (validate_state rows)))
   ≤ length (unique_user_ids (validate_state rows)))%nat.
Proof.
  rewrite <- (size_list_to_set (C := gset string))
    by apply registry_NoDup.
  apply subseteq_size. intros u Hu. apply elem_of_list_to_set.
  by apply flagged_registered, elem_of_flagged.
Qed.

(** A share of the registered users, as a percentage, rounded. *)
Lemma error_percentage_share n (errs : gmap string bool) :
  (size (flagged errs) ≤ n)%nat →
  ∃ pct percent,
    error_percentage n errs = Ok pct ∧ valid pct
    ∧ round2 pct = Ok percent ∧ between 0 100 percent.
Proof.
  intros Hle. unfold error_percentage.
  destruct (decide (n ≠ 0%nat)) as [Hn|Hn].
  - destruct (truediv_share (Z.of_nat (size (flagged errs))) (Z.of_nat n))
      as (z & -> & Hz); [lia..|].
    destruct (mul100_share z Hz) as (z' & Hmul & Hz').
    destruct (round2_share z' Hz') as (p & Hp & Hp').
    exists (Fin z'), (Fin p).
    split; [change (Ok (mul100 (Fin z)) = Ok (Fin z')); by rewrite Hmul|].
    split; [rewrite <- Hmul; apply mul100_valid|].
    split; [done|]. apply between_Fin. lia.
  - exists (Fin 0), (Fin 0). split; [done|]. split; [apply valid_zero|].
    split; [apply round2_zero|]. apply between_Fin. pose proof ulps_pos. lia.
Qed.

End registry.

(** ** Independence of the clicks column *)

Section clicks.
Implicit Types (st : state) (row : Row) (rows : list Row).

Lemma same_but_clicks_field row row' c :
  same_but_clicks row row' → c ≠ "clicks"%string →
  field row c = field row' c.
Proof.
  intros Hsame Hc. unfold field.
  rewrite <- (lookup_delete_ne row "clicks" c) by done.
  rewrite <- (lookup_delete_ne row' "clicks" c) by done.
  by rewrite Hsame.
Qed.

Lemma same_but_clicks_accepted row row' c :
  same_but_clicks row row' → c ≠ "clicks"%string →
  accepted row c = accepted row' c.
Proof.
  intros Hsame Hc. unfold accepted.
  by rewrite (same_but_clicks_field row row' c).
Qed.

Lemma validate_row_clicks n n' row row' st st' :
  same_but_clicks row row' → observations st = observations st' →
  observations (validate_row n row st)
  = observations (validate_row n' row' st').
Proof.
  intros Hsame [= Hs Hm He Hu].
  destruct (validate_row_spec n row st (elements (seen_user_ids st)))
    as (_ & Hs1 & Hu1 & Hm1 & He1).
  { intros _. by rewrite elem_of_elements. }
  destruct (validate_row_spec n' row' st' (elements (seen_user_ids st')))
    as (_ & Hs2 & Hu2 & Hm2 & He2).
  { intros _. by rewrite elem_of_elements. }
  unfold observations. rewrite Hs1, Hu1, Hm1, He1, Hs2, Hu2, Hm2, He2.
  unfold user_id_of.
  rewrite (same_but_clicks_field row row' "user_id") by done.
  rewrite (same_but_clicks_accepted row row' "sessions") by done.
  rewrite (same_but_clicks_accepted row row' "errors") by done.
  by rewrite Hs, Hm, He, Hu.
Qed.

Lemma validate_from_clicks rows rows' :
  Forall2 same_but_clicks rows rows' →
  ∀ n n' st st',
    observations st = observations st' →
    observations (validate_from n rows st)
    = observations (validate_from n' rows' st').
Proof.
  induction 1 as [|row row' rows rows' Hrow _ IH]; intros n n' st st' Hst;
    [done|].
  simpl. apply IH. by apply validate_row_clicks.
Qed.

Lemma statistics_of_clicks rows rows' :
  Forall2 same_but_clicks rows rows' →
  statistics_of rows = statistics_of rows'.
Proof.
  intros Hrows. unfold statistics_of.
  pose proof (validate_from_clicks rows rows' Hrows 2%nat 2%nat
                initial initial eq_refl) as [= _ Hm He Hu].
  unfold validate_state. by rewrite Hm, He, Hu.
Qed.

End clicks.

(** ** Users without a single accepted value *)

Section invalid.
Import PyFloat.
Implicit Types (row : Row) (rows : list Row).

Lemma compute_total_users ids sess errs stats :
  compute_summary_statistics ids sess errs = Ok stats →
  total_users stats = length ids.
Proof.
  unfold compute_summary_statistics.
  destruct (avg_sessions sess) as [avg|]; [|done]. simpl.
  destruct (error_percentage _ errs) as [pct|]; [|done]. simpl.
  destruct (round2 avg) as [average|]; [|done]. simpl.
  destruct (round2 pct) as [percent|]; [|done]. simpl.
  by intros [= <-].
Qed.

Lemma round53_zero d : 0 < d → round53 0 d = 0.
Proof.
  intros Hd. unfold round53. rewrite Z.div_0_l by lia.
  change (Z.max 0 (Z.log2 0 - 52)) with 0. rewrite Z.pow_0_r.
  unfold half_even. rewrite Z.div_0_l, Z.mod_0_l by lia.
  destruct (Z.ltb_spec (2 * 0) (d * 1)); lia.
Qed.

Lemma truediv_zero n : n ≠ 0 → truediv 0 n = Ok (Fin 0).
Proof.
  intros Hn. unfold truediv. destruct (Z.eqb_spec n 0); [done|].
  simpl. rewrite round53_zero by lia. done.
Qed.

(** Without any accepted value both maps stay empty. *)
Lemma nothing_accepted rows :
  (∀ row, row ∈ rows →
     accepted row "sessions" = None ∧ accepted row "errors" = None) →
  sessions_per_user (validate_state rows) = ∅
  ∧ flagged (errors_flag_by_user (validate_state rows)) = ∅.
Proof.
  intros Hnone. split.
  - apply map_empty. intros u. rewrite sessions_spec.
    rewrite decide_False; [done|]. intros [_ Hne]. apply Hne.
    apply elem_of_nil_inv. intros v Hv.
    apply list_elem_of_bind in Hv as (row & Hin & Hrow).
    destruct (Hnone row Hrow) as [Hs _]. rewrite Hs in Hin.
    case_decide; by apply elem_of_nil in Hin.
  - apply set_eq. intros u. rewrite elem_of_flagged, elem_of_empty.
    split; [|done]. intros [_ (row & v & Hrow & _ & Ha & _)]%errors_spec.
    destruct (Hnone row Hrow) as [_ He]. congruence.
Qed.

Lemma avg_sessions_empty : avg_sessions ∅ = Ok (Fin 0).
Proof. reflexivity. Qed.

Lemma error_percentage_none_flagged n (errs : gmap string bool) :
  flagged errs = ∅ → error_percentage n errs = Ok (Fin 0).
Proof.
  intros He. unfold error_percentage. rewrite He, size_empty.
  case_decide as Hn; [|done].
  change (Z.of_nat 0) with 0. rewrite truediv_zero by lia. reflexivity.
Qed.

Lemma statistics_of_nothing_accepted rows :
  (∀ row, row ∈ rows →
     accepted row "sessions" = None ∧ accepted row "errors" = None) →
  statistics_of rows
  = Ok (Stats (length (unique_user_ids (validate_state rows)))
              (Fin 0) (Fin 0)).
Proof.
  intros Hnone. destruct (nothing_accepted rows Hnone) as [Hm He].
  unfold statistics_of, compute_summary_statistics.
  rewrite Hm, avg_sessions_empty, (error_percentage_none_flagged _ _ He).
  reflexivity.
Qed.

End invalid.

(** ** Order of the warnings *)

Section order.
Implicit Types (row : Row) (rows : list Row) (w : warning).

Lemma user_warning_row n earlier u w :
  w ∈ user_warning n earlier u → warning_row w = n.
Proof.
  unfold user_warning. repeat case_decide;
    rewrite ?list_elem_of_singleton, ?elem_of_nil; by intros; subst.
Qed.

Lemma column_warning_row n row c w :
  w ∈ column_warning n row c → warning_row w = n.
Proof.
  unfold column_warning. repeat case_match;
    rewrite ?list_elem_of_singleton, ?elem_of_nil; by intros; subst.
Qed.

Lemma row_warnings_row n earlier row w :
  w ∈ row_warnings n earlier row → warning_row w = n.
Proof.
  unfold row_warnings. rewrite !elem_of_app.
  intros [?|[?|[?|?]]];
    eauto using user_warning_row, column_warning_row.
Qed.

Lemma warnings_rows_bounded rows w :
  w ∈ warnings (validate_state rows) →
  (warning_row w < 2 + length rows)%nat.
Proof.
  revert w. induction rows as [|row rows IH] using rev_ind; intros w.
  { intros Hw. by apply elem_of_nil in Hw. }
  destruct (validate_state_step rows row) as (-> & _).
  rewrite length_app, elem_of_app. simpl. intros [Hw|Hw].
  - apply IH in Hw. lia.
  - apply row_warnings_row in Hw. lia.
Qed.

(** The row numbers of the warnings never decrease. *)
Lemma warnings_rows_sorted rows a b wa wb :
  warnings (validate_state rows) !! a = Some wa →
  warnings (validate_state rows) !! b = Some wb →
  (a < b)%nat → (warning_row wa ≤ warning_row wb)%nat.
Proof.
  revert a b wa wb.
  induction rows as [|row rows IH] using rev_ind; intros a b wa wb; [done|].
  destruct (validate_state_step rows row) as (-> & _).
  rewrite !lookup_app_Some.
  intros [Ha|[Hla Ha]] [Hb|[Hlb Hb]] Hab.
  - by eapply IH.
  - apply list_elem_of_lookup_2, warnings_rows_bounded in Ha.
    apply list_elem_of_lookup_2, row_warnings_row in Hb. lia.
  - apply lookup_lt_Some in Hb. lia.
  - apply list_elem_of_lookup_2, row_warnings_row in Ha.
    apply list_elem_of_lookup_2, row_warnings_row in Hb. lia.
Qed.

End order.

(** ** Negative values *)

Section negative.
Implicit Types (row : Row) (rows : list Row).

Lemma accepted_nonneg row c v : accepted row c = Some v → 0 ≤ v.
Proof.
  unfold accepted. destruct (PyStr.int (field row c)); [|done].
  case_decide as Hd; [|done]. intros [= <-]. by destruct Hd.
Qed.

(** Every value in a sessions list is non-negative. *)
Lemma sessions_nonneg rows u l :
  sessions_per_user (validate_state rows) !! u = Some l →
  Forall (λ x, 0 ≤ x) l.
Proof.
  rewrite sessions_spec. case_decide; [|done]. intros [= <-].
  apply Forall_forall. intros v Hv.
  apply list_elem_of_bind in Hv as (row & Hin & _).
  case_decide; [|by apply elem_of_nil in Hin].
  destruct (accepted row "sessions") as [v'|] eqn:Ha;
    [|by apply elem_of_nil in Hin].
  apply list_elem_of_singleton in Hin as ->. by eapply accepted_nonneg.
Qed.

End negative.

Lemma mk_row_same_but_clicks (user_id sessions clicks clicks' errors : string) :
  same_but_clicks (mk_row user_id sessions clicks errors)
                  (mk_row user_id sessions clicks' errors).
Proof.
  unfold same_but_clicks, mk_row.
  by rewrite !(delete_insert_ne _ "clicks" "errors"), !delete_insert_eq.
Qed.

(** ** Duplicate identifiers *)

Section duplicates.
Implicit Types (row : Row) (rows : list Row) (u : string).






End duplicates.

(** ** The parser *)

Lemma missing_columns_elem_of fieldnames c :
  c ∈ missing_columns fieldnames ↔ c ∈ EXPECTED_COLUMNS ∧ c ∉ fieldnames.
Proof. unfold missing_columns. rewrite list_elem_of_filter. tauto. Qed.

Lemma missing_columns_sublist fieldnames :
  missing_columns fieldnames `sublist_of` EXPECTED_COLUMNS.
Proof. apply sublist_filter. Qed.

Section parsing.

Lemma parse_csv_rows_ValueError csv_text msg :
  parse_csv_rows csv_text = Raise (ValueError msg) →
  let reader := csv_reader csv_text in
  (lines reader = [] ∧ failure reader = None
   ∧ ValueError msg = missing_header_error)
  ∨ (∃ fieldnames data,
       lines reader = fieldnames :: data
       ∧ missing_columns fieldnames ≠ []
       ∧ ValueError msg = missing_columns_error (missing_columns fieldnames))
  ∨ (∃ fieldnames data,
       lines reader = fieldnames :: data
       ∧ missing_columns fieldnames = [] ∧ failure reader = None
       ∧ data_lines data = []
       ∧ ValueError msg = empty_dataset_error).
Proof.
  unfold parse_csv_rows. cbv zeta.
  destruct (lines (csv_reader csv_text)) as [|fieldnames data].
  - destruct (failure (csv_reader csv_text)); [done|].
    intros [= <-]. by left.
  - case_decide as Hmiss.
    + intros [= <-]. right; left. by exists fieldnames, data.
    + destruct (failure (csv_reader csv_text)); [done|].
      case_decide as Hrows; [|done].
      intros [= <-]. right; right. exists fieldnames, data.
      apply fmap_nil_inv in Hrows. done.
Qed.

End parsing.

(** ** The summary collaborator *)

Section summary.
Variable format_2f : pyfloat → string.
Variable format_row : Row → string.

(** When the import raises nothing but [ImportError], the client is
    built and every completion has usage statistics, the collaborator
    returns a summary or a notice, never both and never neither. *)
Lemma generate_openai_summary_with_usage env warnings stats rows :
  (∀ error, import_openai env ≠ ImportRaises error) →
  new_client env = None →
  (∀ prompt response,
     create env prompt = CallReturns response → is_Some (usage response)) →
  ∃ summary notice,
    generate_openai_summary format_2f format_row env warnings stats rows
    = Ok (summary, notice)
    ∧ (is_Some summary ∧ notice = None ∨ summary = None ∧ is_Some notice).
Proof.
  intros Himport Hclient Husage. unfold generate_openai_summary.
  destruct (truthy (OPENAI_API_KEY env)); simpl; [|eauto 10].
  destruct (import_openai env) as [| |error];
    [|eauto 10|by destruct (Himport error)].
  rewrite Hclient.
  destruct (create env _) as [error|response] eqn:Hcall; [eauto 10|].
  destruct (choices response) as [|content ?]; [eauto 10|].
  destruct (truthy content); simpl; [|eauto 10].
  destruct (Husage _ _ Hcall) as [us ->]. eauto 10.
Qed.

End summary.

(** ** What the validator reads of a record *)

Section reads.
Implicit Types (st : state) (row : Row) (rows : list Row).

Lemma check_column_field n row row' u st c :
  field row c = field row' c →
  check_column n row u st c = check_column n row' u st c.
Proof. intros Hc. unfold check_column. by rewrite Hc. Qed.

Lemma validate_row_same_cells n row row' st :
  same_cells row row' → validate_row n row st = validate_row n row' st.
Proof.
  intros Hsame. unfold validate_row, NUMERIC_COLUMNS. cbn [foldl].
  assert (∀ c, c ∈ EXPECTED_COLUMNS → ∀ u st0,
            check_column n row u st0 c = check_column n row' u st0 c) as Hc.
  { intros c Hin u st0. by apply check_column_field, Hsame. }
  rewrite (Hsame "user_id"%string) by (unfold EXPECTED_COLUMNS; set_solver).
  rewrite !Hc by (unfold EXPECTED_COLUMNS; set_solver). done.
Qed.

Lemma validate_from_same_cells rows rows' :
  Forall2 same_cells rows rows' →
  ∀ n st, validate_from n rows st = validate_from n rows' st.
Proof.
  induction 1 as [|row row' rows rows' Hrow _ IH]; intros n st; [done|].
  simpl. by rewrite (validate_row_same_cells n row row'), IH.
Qed.

Lemma validate_row_same_accepted n n' row row' st st' :
  same_accepted row row' → observations st = observations st' →
  observations (validate_row n row st)
  = observations (validate_row n' row' st').
Proof.
  intros (Hid & Hsess & Herr) [= Hs Hm He Hu].
  destruct (validate_row_spec n row st (elements (seen_user_ids st)))
    as (_ & Hs1 & Hu1 & Hm1 & He1).
  { intros _. by rewrite elem_of_elements. }
  destruct (validate_row_spec n' row' st' (elements (seen_user_ids st')))
    as (_ & Hs2 & Hu2 & Hm2 & He2).
  { intros _. by rewrite elem_of_elements. }
  unfold observations. rewrite Hs1, Hu1, Hm1, He1, Hs2, Hu2, Hm2, He2.
  by rewrite Hid, Hsess, Herr, Hs, Hm, He, Hu.
Qed.

Lemma validate_from_same_accepted rows rows' :
  Forall2 same_accepted rows rows' →
  ∀ n n' st st',
    observations st = observations st' →
    observations (validate_from n rows st)
    = observations (validate_from n' rows' st').
Proof.
  induction 1 as [|row row' rows rows' Hrow _ IH]; intros n n' st st' Hst;
    [done|].
  simpl. apply IH. by apply validate_row_same_accepted.
Qed.

End reads.

(** ** Which warnings come out *)

Section emitted.
Implicit Types (st : state) (row : Row) (rows : list Row) (w : warning).

Lemma NoDup_snoc_iff {A} (l : list A) (x : A) :
  NoDup (l ++ [x]) ↔ NoDup l ∧ x ∉ l.
Proof.
  rewrite NoDup_app. split.
  - intros (Hl & Hx & _). split; [done|]. intros Hin.
    apply (Hx x Hin). left.
  - intros [Hl Hx]. split; [done|]. split; [|apply NoDup_singleton].
    intros y Hy ->%list_elem_of_singleton. done.
Qed.

Lemma column_warning_nil n row c :
  column_warning n row c = [] ↔ clean_cell row c.
Proof.
  unfold column_warning, clean_cell.
  destruct (decide (field row c = EmptyString)) as [Hraw|Hraw].
  { rewrite Hraw. split; [done|]. by intros (v & ? & _). }
  destruct (PyStr.int (field row c)) as [v|].
  - destruct (decide (v < 0)) as [Hneg|Hpos].
    + split; [done|]. intros (v' & [= <-] & ?). lia.
    + split; [|done]. intros _. exists v. split; [done|lia].
  - split; [done|]. by intros (v & ? & _).
Qed.

Lemma user_warning_nil n earlier u :
  user_warning n earlier u = [] ↔ u ≠ EmptyString ∧ u ∉ earlier.
Proof.
  unfold user_warning.
  destruct (decide (u = EmptyString)) as [Hu|Hu]; [by split; [|intros [? _]]|].
  destruct (decide (u ∈ earlier)) as [Hin|Hin]; [by split; [|intros [_ ?]]|].
  done.
Qed.

Lemma row_warnings_nil n earlier row :
  row_warnings n earlier row = []
  ↔ (user_id_of row ≠ EmptyString ∧ user_id_of row ∉ earlier)
    ∧ clean_cell row "sessions" ∧ clean_cell row "clicks"
    ∧ clean_cell row "errors".
Proof.
  unfold row_warnings.
  by rewrite !app_nil, user_warning_nil, !column_warning_nil.
Qed.

Lemma row_warnings_length n earlier row :
  (length (row_warnings n earlier row) ≤ 4)%nat.
Proof.
  assert (∀ c, (length (column_warning n row c) ≤ 1)%nat) as Hc.
  { intros c. unfold column_warning. repeat case_match; simpl; lia. }
  assert (length (user_warning n earlier (user_id_of row)) ≤ 1)%nat as Hu.
  { unfold user_warning. repeat case_decide; simpl; lia. }
  unfold row_warnings. rewrite !length_app.
  pose proof (Hc "sessions"%string). pose proof (Hc "clicks"%string).
  pose proof (Hc "errors"%string). lia.
Qed.

(** The warnings of each record are among those returned. *)
Lemma row_warnings_emitted rows i row w :
  rows !! i = Some row →
  w ∈ row_warnings (2 + i) (take i (user_id_of <$> rows)) row →
  w ∈ warnings (validate_state rows).
Proof.
  revert i row w. induction rows as [|r rows IH] using rev_ind;
    intros i row w Hi Hw; [done|].
  destruct (validate_state_step rows r) as (-> & _).
  rewrite ids_snoc in Hw. apply elem_of_app.
  apply lookup_app_Some in Hi as [Hi|[Hlen Hi]].
  - left. apply (IH i row w Hi).
    rewrite take_app_le in Hw; [done|].
    rewrite length_fmap. apply lookup_lt_Some in Hi. lia.
  - right. apply list_lookup_singleton_Some in Hi as [Hi ->].
    assert (i = length rows) as -> by lia.
    by rewrite take_app_length' in Hw by (by rewrite length_fmap).
Qed.

Lemma warnings_rows_from_two rows w :
  w ∈ warnings (validate_state rows) → (2 ≤ warning_row w)%nat.
Proof.
  revert w. induction rows as [|row rows IH] using rev_ind; intros w.
  { intros Hw. by apply elem_of_nil in Hw. }
  destruct (validate_state_step rows row) as (-> & _).
  rewrite elem_of_app. intros [Hw|Hw]; [by apply IH|].
  apply row_warnings_row in Hw. lia.
Qed.

Lemma warnings_length rows :
  (length (warnings (validate_state rows)) ≤ 4 * length rows)%nat.
Proof.
  induction rows as [|row rows IH] using rev_ind; [done|].
  destruct (validate_state_step rows row) as (-> & _).
  rewrite !length_app. change (length [row]) with 1%nat.
  pose proof (row_warnings_length (2 + length rows) (user_id_of <$> rows) row).
  lia.
Qed.

Lemma warnings_nil_iff rows :
  warnings (validate_state rows) = []
  ↔ NoDup (user_id_of <$> rows)
    ∧ Forall (λ row,
        user_id_of row ≠ EmptyString ∧ clean_cell row "sessions"
        ∧ clean_cell row "clicks" ∧ clean_cell row "errors") rows.
Proof.
  induction rows as [|row rows IH] using rev_ind.
  { split; [|done]. intros _. split; [apply NoDup_nil_2 | done]. }
  destruct (validate_state_step rows row) as (-> & _).
  rewrite app_nil, IH, row_warnings_nil, ids_snoc, NoDup_snoc_iff,
    Forall_app, Forall_singleton.
  tauto.
Qed.

End emitted.

(** ** Trimming *)

Section trimming.
Local Abbreviation chars := Stdlib.Strings.String.list_ascii_of_string.

Lemma chars_app s t : chars (s +:+ t) = chars s ++ chars t.
Proof. induction s as [|a s IH]; simpl; [done|]. by rewrite IH. Qed.

Lemma chars_rev_app s t :
  chars (String.rev_app s t) = reverse (chars s) ++ chars t.
Proof.
  revert t. induction s as [|a s IH]; intros t; simpl; [done|].
  by rewrite IH, reverse_cons, <- app_assoc.
Qed.

Lemma chars_rev s : chars (String.rev s) = reverse (chars s).
Proof. unfold String.rev. by rewrite chars_rev_app, app_nil_r. Qed.

Lemma chars_inj s t : chars s = chars t → s = t.
Proof.
  intros Heq.
  rewrite <- (Stdlib.Strings.String.string_of_list_ascii_of_string s),
    <- (Stdlib.Strings.String.string_of_list_ascii_of_string t).
  by rewrite Heq.
Qed.

Lemma chars_lstrip s : chars (PyStr.lstrip s) = lstrip_chars (chars s).
Proof.
  induction s as [|a s IH]; simpl; [done|].
  by destruct (PyStr.is_space a).
Qed.

Lemma chars_strip s :
  chars (PyStr.strip s)
  = reverse (lstrip_chars (reverse (lstrip_chars (chars s)))).
Proof.
  unfold PyStr.strip, PyStr.rstrip.
  by rewrite chars_rev, chars_lstrip, chars_rev, chars_lstrip.
Qed.

Lemma lstrip_chars_blank l m :
  Forall (λ a, PyStr.is_space a = true) l →
  lstrip_chars (l ++ m) = lstrip_chars m.
Proof. induction 1 as [|a l Ha _ IH]; simpl; [done|]. by rewrite Ha. Qed.

Lemma lstrip_chars_head l :
  (∀ a, head l = Some a → PyStr.is_space a = false) → lstrip_chars l = l.
Proof.
  destruct l as [|a l]; simpl; [done|]. intros Ha. by rewrite (Ha a).
Qed.

(** [strip] takes off the white space around a text that has none at
    its ends, and nothing else. *)
Lemma strip_padded l s r :
  blank l → blank r → trimmed s → PyStr.strip (l +:+ s +:+ r) = s.
Proof.
  unfold blank, trimmed. intros Hl Hr Hs. apply chars_inj.
  rewrite chars_strip, !chars_app, lstrip_chars_blank by done.
  destruct (chars s) as [|a cs] eqn:Hcs.
  { simpl. rewrite <- (app_nil_r (chars r)), lstrip_chars_blank by done.
    done. }
  rewrite (lstrip_chars_head ((a :: cs) ++ chars r))
    by (intros b [= <-]; apply Hs; by left).
  rewrite reverse_app, lstrip_chars_blank by (by apply Forall_reverse).
  rewrite lstrip_chars_head; [by rewrite reverse_involutive|].
  intros b Hb. apply Hs. right. by rewrite <- head_reverse.
Qed.

Lemma user_id_of_raw row :
  user_id_of row = PyStr.strip (raw_cell row "user_id").
Proof. reflexivity. Qed.

End trimming.

(** ** Where the warnings of a record are *)

Section located.
Implicit Types (row : Row) (rows : list Row) (w : warning).

(** A warning with the row number of a record is one of that record. *)
Lemma warnings_of_row rows i row w :
  rows !! i = Some row → w ∈ warnings (validate_state rows) →
  warning_row w = (2 + i)%nat →
  w ∈ row_warnings (2 + i) (take i (user_id_of <$> rows)) row.
Proof.
  revert i row w. induction rows as [|r rows IH] using rev_ind;
    intros i row w Hi Hw Hn; [done|].
  revert Hw. destruct (validate_state_step rows r) as (-> & _).
  rewrite ids_snoc. intros [Hw|Hw]%elem_of_app.
  - pose proof (warnings_rows_bounded rows w Hw).
    apply lookup_app_Some in Hi as [Hi|[Hlen _]]; [|lia].
    rewrite take_app_le
      by (rewrite length_fmap; apply lookup_lt_Some in Hi; lia).
    by apply IH.
  - pose proof (row_warnings_row _ _ _ _ Hw).
    assert (i = length rows) as -> by lia.
    rewrite lookup_app_r, Nat.sub_diag in Hi by done.
    injection Hi as <-.
    by rewrite take_app_length' by (by rewrite length_fmap).
Qed.

Lemma column_warning_column n row c w :
  w ∈ column_warning n row c →
  w = MissingValue n c ∨ w = InvalidInteger n (field row c) c
  ∨ w = NegativeValue n c.
Proof.
  unfold column_warning. repeat case_match;
    intros Hw; try (by apply elem_of_nil in Hw);
    apply list_elem_of_singleton in Hw as ->; tauto.
Qed.

Lemma column_warning_negative n row c v :
  PyStr.int (field row c) = Some v → v < 0 →
  column_warning n row c = [NegativeValue n c].
Proof.
  intros Hint Hneg. unfold column_warning. rewrite Hint.
  destruct (decide (field row c = EmptyString)) as [Hraw|_].
  { by rewrite Hraw in Hint. }
  by rewrite decide_True.
Qed.

Lemma column_warning_emitted rows i row c w :
  rows !! i = Some row → c ∈ NUMERIC_COLUMNS →
  w ∈ column_warning (2 + i) row c → w ∈ warnings (validate_state rows).
Proof.
  intros Hi Hc Hw. apply (row_warnings_emitted rows i row); [done|].
  unfold row_warnings. rewrite !elem_of_app.
  unfold NUMERIC_COLUMNS in Hc.
  apply elem_of_cons in Hc as [->|Hc]; [tauto|].
  apply elem_of_cons in Hc as [->|Hc]; [tauto|].
  apply list_elem_of_singleton in Hc as ->. tauto.
Qed.

Lemma accepted_negative row c v :
  PyStr.int (field row c) = Some v → v < 0 → accepted row c = None.
Proof.
  intros Hint Hneg. unfold accepted. rewrite Hint.
  rewrite decide_False; [done|lia].
Qed.

Lemma field_with_cell row c cell c' :
  field (with_cell row c cell) c'
  = if decide (c' = c) then PyStr.strip cell else field row c'.
Proof.
  unfold field, with_cell. case_decide as Hc.
  - subst c'. by rewrite lookup_insert_eq.
  - by rewrite lookup_insert_ne.
Qed.

(** Emptying a cell that holds no accepted value changes nothing the
    aggregator reads. *)
Lemma same_accepted_emptied row c :
  c ∈ NUMERIC_COLUMNS → accepted row c = None →
  same_accepted row (with_cell row c EmptyString).
Proof.
  intros Hc Hnone.
  assert (c ≠ "user_id"%string) as Hid.
  { intros ->. unfold NUMERIC_COLUMNS in Hc.
    repeat (apply elem_of_cons in Hc as [?|Hc]; [done|]).
    by apply elem_of_nil in Hc. }
  assert (∀ c', accepted (with_cell row c EmptyString) c' = accepted row c')
    as Hsame.
  { intros c'. unfold accepted at 1. rewrite field_with_cell.
    case_decide as Hc'; [|done]. subst c'. by rewrite Hnone. }
  unfold same_accepted, user_id_of.
  rewrite field_with_cell, decide_False by done.
  by rewrite !Hsame.
Qed.

Lemma same_accepted_insert rows i row row' :
  rows !! i = Some row → same_accepted row row' →
  Forall2 same_accepted rows (<[i := row']> rows).
Proof.
  intros Hi Hsame.
  rewrite <- (list_insert_id rows i row Hi) at 1.
  apply Forall2_insert; [|done].
  apply Forall_Forall2_diag, Forall_forall. intros r _. by split_and!.
Qed.

End located.

(** * The claims *)

(** C1, as the specification states it, fails: the true division of the
    summed sessions by the number of users raises [OverflowError] once the
    mean is beyond the range of a float.  Here on one user with a sessions
    value of 10^400, directly and through the validator. *)
Lemma C1_overflow_counterexample :
  compute_summary_statistics ["u"%string] {["u"%string := [10 ^ 400]]} ∅
  = Raise OverflowError
  ∧ statistics_of
      [mk_row "u" (String "1" (Stdlib.Strings.String.string_of_list_ascii (replicate 400 "0"%char)))
              "0" "0"]
    = Raise OverflowError.
Proof. split; vm_compute; reflexivity. Qed.

(** C1 (amended): the aggregator is a pure function that returns statistics
    whenever the two quotients it takes are within the range of a float;
    [total_users] is the length of the registry,
    [average_sessions_per_user] is 0 when no user has a sessions value and
    [percent_users_with_errors] is 0 when there is no user: the divisions
    by zero are not taken. *)
Theorem C1_aggregator_succeeds_in_range
    (ids : list string) (sess : gmap string (list Z))
    (errs : gmap string bool) :
  PyFloat.in_range (sum_values (aggregate sess))
                   (Z.of_nat (size (aggregate sess))) →
  PyFloat.in_range (Z.of_nat (size (flagged errs))) (Z.of_nat (length ids)) →
  ∃ stats,
    compute_summary_statistics ids sess errs = Ok stats
    ∧ total_users stats = length ids
    ∧ ((∀ u l, sess !! u = Some l → l = []) →
       average_sessions_per_user stats = Fin 0)
    ∧ (length ids = 0%nat → percent_users_with_errors stats = Fin 0).
Proof.
  intros Hmean Hshare. unfold compute_summary_statistics.
  destruct (avg_sessions_in_range sess Hmean) as (avg & -> & Hva & Havg0).
  destruct (error_percentage_in_range (length ids) errs Hshare)
    as (pct & -> & Hvp & Hpct0).
  destruct (round2_valid avg Hva) as (average & Ha).
  destruct (round2_valid pct Hvp) as (percent & Hp).
  simpl. rewrite Ha. simpl. rewrite Hp. simpl.
  eexists. split; [done|]. simpl. split; [done|]. split.
  - intros Hno. rewrite (Havg0 (aggregate_empty sess Hno)) in Ha.
    rewrite round2_zero in Ha. congruence.
  - intros Hn. rewrite (Hpct0 Hn) in Hp. rewrite round2_zero in Hp.
    congruence.
Qed.

Lemma C1_aggregator_succeeds_in_range_witness :
  ∃ stats,
    compute_summary_statistics [] {["u"%string := []]} {["v"%string := true]}
    = Ok stats
    ∧ total_users stats = 0%nat
    ∧ average_sessions_per_user stats = Fin 0
    ∧ percent_users_with_errors stats = Fin 0.
Proof.
  destruct (C1_aggregator_succeeds_in_range
              [] {["u"%string := []]} {["v"%string := true]})
    as (stats & Hok & Htotal & Havg & Hpct).
  - intros Hne. exfalso. apply Hne. vm_compute. reflexivity.
  - intros Hne. exfalso. apply Hne. reflexivity.
  - exists stats. split; [exact Hok|]. split; [exact Htotal|]. split.
    + apply Havg. intros u l Hl.
      apply lookup_singleton_Some in Hl as [_ <-]. reflexivity.
    + apply Hpct. reflexivity.
Defined.

(** C2, as the specification states it, fails: on an upload whose data line
    holds a carriage return inside an unquoted cell the [csv] module raises
    [csv.Error], which is no [ValueError], and no record is returned. *)
Lemma C2_csv_error_counterexample :
  parse_csv_rows stray_return_upload
  = Raise (CsvError "new-line character seen in unquoted field - do you need to open the file with newline=''?")
  ∧ (∀ msg, parse_csv_rows stray_return_upload ≠ Raise (ValueError msg))
  ∧ ¬ succeeds (parse_csv_rows stray_return_upload).
Proof.
  assert (parse_csv_rows stray_return_upload
          = Raise (CsvError "new-line character seen in unquoted field - do you need to open the file with newline=''?"))
    as Heq by (vm_compute; reflexivity).
  rewrite Heq. split; [done|]. split; [done|]. by intros [rows ?].
Qed.

(** C2 (amended): [parse_csv_rows] raises [ValueError] in three cases and no
    other: no header line; a header that lacks required columns, the message
    listing exactly the lacking ones in the order of [EXPECTED_COLUMNS];
    no data line after the header.  Otherwise it returns the records of
    the data lines, one for each and in their order, unless the [csv]
    module fails on the text, whose [csv.Error] it lets through. *)
Theorem C2_parser_failures (csv_text : string) :
  let reader := csv_reader csv_text in
  let result := parse_csv_rows csv_text in
  (lines reader = [] → failure reader = None →
   result = Raise missing_header_error)
  ∧ (∀ fieldnames data,
       lines reader = fieldnames :: data →
       missing_columns fieldnames ≠ [] →
       result = Raise (ValueError
         ("Missing required columns: "
          +:+ PyStr.join ", " (missing_columns fieldnames) +:+ ".")))
  ∧ (∀ fieldnames c,
       c ∈ missing_columns fieldnames
       ↔ c ∈ ["user_id"; "sessions"; "clicks"; "errors"]%string
         ∧ c ∉ fieldnames)
  ∧ (∀ fieldnames,
       missing_columns fieldnames
       `sublist_of` ["user_id"; "sessions"; "clicks"; "errors"]%string)
  ∧ (∀ fieldnames data,
       lines reader = fieldnames :: data →
       missing_columns fieldnames = [] → failure reader = None →
       data_lines data = [] →
       result = Raise empty_dataset_error)
  ∧ (∀ fieldnames data,
       lines reader = fieldnames :: data →
       missing_columns fieldnames = [] → failure reader = None →
       data_lines data ≠ [] →
       result = Ok (make_row fieldnames <$> data_lines data)
       ∧ length (make_row fieldnames <$> data_lines data)
         = length (data_lines data))
  ∧ (∀ error,
       failure reader = Some error →
       lines reader = []
       ∨ (∃ fieldnames data,
            lines reader = fieldnames :: data
            ∧ missing_columns fieldnames = []) →
       result = Raise (CsvError error))
  ∧ (∀ msg,
       result = Raise (ValueError msg) →
       (lines reader = [] ∧ failure reader = None
        ∧ ValueError msg = missing_header_error)
       ∨ (∃ fieldnames data,
            lines reader = fieldnames :: data
            ∧ missing_columns fieldnames ≠ []
            ∧ ValueError msg
              = missing_columns_error (missing_columns fieldnames))
       ∨ (∃ fieldnames data,
            lines reader = fieldnames :: data
            ∧ missing_columns fieldnames = [] ∧ failure reader = None
            ∧ data_lines data = []
            ∧ ValueError msg = empty_dataset_error)).
Proof.
  cbv zeta. split_and!.
  - unfold parse_csv_rows. intros -> ->. done.
  - unfold parse_csv_rows. intros fieldnames data -> Hmiss.
    by rewrite decide_True.
  - intros fieldnames c. apply missing_columns_elem_of.
  - intros fieldnames. apply missing_columns_sublist.
  - unfold parse_csv_rows. intros fieldnames data -> Hmiss -> Hdata.
    rewrite decide_False by (by intros ?). rewrite Hdata. done.
  - unfold parse_csv_rows. intros fieldnames data -> Hmiss -> Hdata.
    split; [|by rewrite length_fmap].
    rewrite decide_False by (by intros ?).
    rewrite decide_False; [done|]. by intros ?%fmap_nil_inv.
  - unfold parse_csv_rows.
    intros error -> [->|(fieldnames & data & -> & Hmiss)]; [done|].
    by rewrite decide_False by (by intros ?).
  - intros msg Hraise. by apply parse_csv_rows_ValueError.
Qed.



(** C4: [total_users] is the number of distinct identifiers that are not
    empty once trimmed.  Every record with such an identifier is counted,
    also when none of its numeric fields is accepted, in which case the
    statistics are still returned; the empty identifier is never counted.
    The identifier of a record is its [user_id] cell without the white
    space around it: cells that differ in that white space only are one
    user, and a cell of white space is none.  So three records with the
    cells [" u1 "], ["u1"] followed by a tab, and ["   "], none of them with
    an accepted value, are one user. *)
Theorem C4_total_users_counts_distinct_identifiers (rows : list Row) :
  let st := validate_state rows in
  let distinct : gset string := list_to_set (nonempty (user_id_of <$> rows)) in
  length (unique_user_ids st) = size distinct
  ∧ (∀ stats, statistics_of rows = Ok stats → total_users stats = size distinct)
  ∧ (∀ row, row ∈ rows → user_id_of row ≠ EmptyString →
       user_id_of row ∈ unique_user_ids st)
  ∧ (EmptyString ∉ unique_user_ids st)
  ∧ ((∀ row, row ∈ rows →
        accepted row "sessions" = None ∧ accepted row "errors" = None) →
     statistics_of rows = Ok (Stats (size distinct) (Fin 0) (Fin 0)))
  ∧ (∀ row l s r,
       raw_cell row "user_id" = l +:+ s +:+ r →
       blank l → blank r → trimmed s → user_id_of row = s)
  ∧ (∀ row, blank (raw_cell row "user_id") → user_id_of row = EmptyString)
  ∧ statistics_of [mk_row " u1 " "x" "" "-1";
                   mk_row (String "u" (String "1" (String "009" EmptyString)))
                          "" "2.5" "";
                   mk_row "   " "1" "1" "1"]
    = Ok (Stats 1 (Fin 0) (Fin 0)).
Proof.
  cbv zeta.
  assert (length (unique_user_ids (validate_state rows))
          = size (list_to_set (C := gset string)
                    (nonempty (user_id_of <$> rows))))
    as Hsize.
  { rewrite <- (size_list_to_set (C := gset string))
      by apply registry_NoDup.
    f_equal. apply set_eq. intros u.
    by rewrite !elem_of_list_to_set, registry_elem_of, elem_of_nonempty. }
  assert (∀ row l s r,
            raw_cell row "user_id" = l +:+ s +:+ r →
            blank l → blank r → trimmed s → user_id_of row = s) as Hraw.
  { intros row l s r Hcell Hl Hr Hs.
    rewrite user_id_of_raw, Hcell. by apply strip_padded. }
  split; [done|]. split.
  { intros stats Hstats. rewrite <- Hsize.
    by apply compute_total_users in Hstats. }
  split.
  { intros row Hrow Hne. apply registry_elem_of. split; [done|].
    by apply list_elem_of_fmap_2. }
  split.
  { rewrite registry_elem_of. by intros [? _]. }
  split.
  { intros Hnone. rewrite <- Hsize. by apply statistics_of_nothing_accepted. }
  split; [exact Hraw|]. split.
  - intros row Hblank.
    apply (Hraw row EmptyString EmptyString (raw_cell row "user_id"));
      [done|by apply Forall_nil|done|by intros a [?|?]].
  - vm_compute. reflexivity.
Qed.

(** C5: two inputs that differ in nothing but their clicks cells leave the
    validator with the same registry, the same sessions and the same
    errors flags, and give the same statistics (or the same exception):
    the clicks column reaches the warnings only. *)
Theorem C5_clicks_never_influence_statistics (rows rows' : list Row) :
  Forall2 same_but_clicks rows rows' →
  observations (validate_state rows) = observations (validate_state rows')
  ∧ statistics_of rows = statistics_of rows'.
Proof.
  intros Hrows. split.
  - by apply validate_from_clicks.
  - by apply statistics_of_clicks.
Qed.

Lemma C5_clicks_never_influence_statistics_witness :
  statistics_of [mk_row "u1" "10" "7" "0"; mk_row "u2" "20" "-1" "5"]
  = statistics_of [mk_row "u1" "10" "" "0"; mk_row "u2" "20" "many" "5"].
Proof.
  apply (C5_clicks_never_influence_statistics
           [mk_row "u1" "10" "7" "0"; mk_row "u2" "20" "-1" "5"]
           [mk_row "u1" "10" "" "0"; mk_row "u2" "20" "many" "5"]).
  repeat constructor; vm_compute; reflexivity.
Defined.

(** C6: a numeric cell that trims to the literal of a negative integer
    makes [validate_rows] return the negative-value warning of its column
    with the row number of its record, and no invalid-integer warning for
    that column and row.  The value is not an accepted one: what the
    validator hands to the aggregator, and so the statistics, are what
    they would be with the cell left empty; no sessions list holds a
    negative value, and an errors flag is set only by a record with a
    positive errors value. *)
Theorem C6_negative_values_excluded
    (rows : list Row) (i : nat) (row : Row) (c : string) (v : Z) :
  rows !! i = Some row → c ∈ NUMERIC_COLUMNS →
  PyStr.int (field row c) = Some v → v < 0 →
  ("Row " +:+ pretty (2 + i)%nat +:+ ": negative value in " +:+ c
     +:+ " column.")
  ∈ (validate_rows rows).1.1.1
  ∧ NegativeValue (2 + i) c ∈ warnings (validate_state rows)
  ∧ (∀ raw, InvalidInteger (2 + i) raw c ∉ warnings (validate_state rows))
  ∧ accepted row c = None
  ∧ observations (validate_state rows)
    = observations (validate_state (<[i := with_cell row c EmptyString]> rows))
  ∧ statistics_of rows
    = statistics_of (<[i := with_cell row c EmptyString]> rows)
  ∧ (∀ u l,
       sessions_per_user (validate_state rows) !! u = Some l →
       Forall (λ x, 0 ≤ x) l ∧ l = sessions_of u rows)
  ∧ (∀ u, errors_flag_by_user (validate_state rows) !! u = Some true →
          has_errors u rows).
Proof.
  intros Hi Hc Hint Hneg.
  pose proof (column_warning_negative (2 + i) row c v Hint Hneg) as Hcw.
  pose proof (accepted_negative row c v Hint Hneg) as Hacc.
  assert (NegativeValue (2 + i) c ∈ warnings (validate_state rows)) as Hin.
  { apply (column_warning_emitted rows i row c); [done..|].
    rewrite Hcw. left. }
  pose proof (validate_from_same_accepted rows
                (<[i := with_cell row c EmptyString]> rows)
                (same_accepted_insert rows i row _ Hi
                   (same_accepted_emptied row c Hc Hacc))
                2%nat 2%nat initial initial eq_refl) as Hobs.
  split_and!.
  - unfold validate_rows. simpl.
    by apply (list_elem_of_fmap_2' render _ (NegativeValue (2 + i) c)).
  - done.
  - intros raw Hw.
    apply (warnings_of_row rows i row) in Hw; [|done..].
    unfold row_warnings in Hw. rewrite !elem_of_app in Hw.
    destruct Hw as [Hw|Hw].
    { unfold user_warning in Hw. repeat case_decide;
        try (by apply elem_of_nil in Hw);
        by apply list_elem_of_singleton in Hw. }
    assert (∀ c', InvalidInteger (2 + i) raw c
                  ∈ column_warning (2 + i) row c' → False) as Hno.
    { intros c' Hw'.
      pose proof (column_warning_column _ _ _ _ Hw') as [?|[[= _ <-]|?]];
        [done| |done].
      rewrite Hcw in Hw'. by apply list_elem_of_singleton in Hw'. }
    destruct Hw as [Hw|[Hw|Hw]]; by apply Hno in Hw.
  - done.
  - exact Hobs.
  - injection Hobs as _ Hm He Hu.
    unfold statistics_of, validate_state. by rewrite Hm, He, Hu.
  - intros u l Hl. split; [by apply (sessions_nonneg rows u)|].
    rewrite sessions_spec in Hl. case_decide; [|done]. by injection Hl.
  - intros u Hu. by apply errors_spec in Hu as [_ ?].
Qed.

Lemma C6_negative_values_excluded_witness :
  "Row 3: negative value in sessions column."%string
  ∈ (validate_rows [mk_row "u1" "5" "4" "0";
                    mk_row "u1" " -3 " "4" "0"]).1.1.1
  ∧ NegativeValue 3 "sessions"
    ∈ warnings (validate_state [mk_row "u1" "5" "4" "0";
                                mk_row "u1" " -3 " "4" "0"])
  ∧ (∀ raw, InvalidInteger 3 raw "sessions"
            ∉ warnings (validate_state [mk_row "u1" "5" "4" "0";
                                        mk_row "u1" " -3 " "4" "0"]))
  ∧ accepted (mk_row "u1" " -3 " "4" "0") "sessions" = None
  ∧ observations (validate_state [mk_row "u1" "5" "4" "0";
                                  mk_row "u1" " -3 " "4" "0"])
    = observations
        (validate_state
           (<[1%nat := with_cell (mk_row "u1" " -3 " "4" "0") "sessions"
                         EmptyString]>
              [mk_row "u1" "5" "4" "0"; mk_row "u1" " -3 " "4" "0"]))
  ∧ statistics_of [mk_row "u1" "5" "4" "0"; mk_row "u1" " -3 " "4" "0"]
    = statistics_of
        (<[1%nat := with_cell (mk_row "u1" " -3 " "4" "0") "sessions"
                      EmptyString]>
           [mk_row "u1" "5" "4" "0"; mk_row "u1" " -3 " "4" "0"])
  ∧ (∀ u l,
       sessions_per_user (validate_state [mk_row "u1" "5" "4" "0";
                                          mk_row "u1" " -3 " "4" "0"]) !! u
       = Some l →
       Forall (λ x, 0 ≤ x) l
       ∧ l = sessions_of u [mk_row "u1" "5" "4" "0";
                            mk_row "u1" " -3 " "4" "0"])
  ∧ (∀ u, errors_flag_by_user
            (validate_state [mk_row "u1" "5" "4" "0";
                             mk_row "u1" " -3 " "4" "0"]) !! u
          = Some true →
          has_errors u [mk_row "u1" "5" "4" "0";
                        mk_row "u1" " -3 " "4" "0"]).
Proof.
  apply (C6_negative_values_excluded
           [mk_row "u1" "5" "4" "0"; mk_row "u1" " -3 " "4" "0"]
           1 (mk_row "u1" " -3 " "4" "0") "sessions" (-3)).
  - reflexivity.
  - left.
  - vm_compute. reflexivity.
  - lia.
Defined.

(** C7 at its failing input: when the completion carries a text but no
    usage statistics, reading [usage.prompt_tokens] raises
    [AttributeError] inside [generate_openai_summary], outside any
    handler, and the whole analysis of a well-formed upload fails. *)
Theorem C7_summary_generator_raises_without_usage
    (format_2f : pyfloat → string) (format_row : Row → string) :
  (∀ warnings stats rows,
     generate_openai_summary format_2f format_row (without_usage "All good.")
                             warnings stats rows
     = Raise (AttributeError
                "'NoneType' object has no attribute 'prompt_tokens'"))
  ∧ analyze_csv_content format_2f format_row
                        (without_usage "All good.") one_line_upload
    = Raise (AttributeError
               "'NoneType' object has no attribute 'prompt_tokens'")
  ∧ statistics_of [make_row ["user_id"; "sessions"; "clicks"; "errors"]
                            ["u1"; "10"; "3"; "0"]]
    = Ok (Stats 1 (PyFloat.of_Z 10) (Fin 0)).
Proof.
  split; [done|]. split; vm_compute; reflexivity.
Qed.

(** C8: the warnings come record by record in input order, and within a
    record the warning on the identifier is followed by those on sessions,
    clicks and errors, in that order; so a warning never precedes one with
    a smaller row number.  The strings returned are these warnings
    rendered. *)
Theorem C8_warnings_in_encounter_order (rows : list Row) :
  let ws := warnings (validate_state rows) in
  let ids := user_id_of <$> rows in
  (validate_rows rows).1.1.1 = render <$> ws
  ∧ ws = concat (imap (λ i row,
                   user_warning (2 + i) (take i ids) (user_id_of row)
                   ++ column_warning (2 + i) row "sessions"
                   ++ column_warning (2 + i) row "clicks"
                   ++ column_warning (2 + i) row "errors") rows)
  ∧ (∀ a b wa wb,
       ws !! a = Some wa → ws !! b = Some wb → (a < b)%nat →
       (warning_row wa ≤ warning_row wb)%nat).
Proof.
  cbv zeta. split; [done|]. split.
  - apply warnings_spec.
  - apply warnings_rows_sorted.
Qed.

(** C9: the two records of the example, whatever their clicks cells, give
    2 users, an average of 15.0 sessions and 50.0 percent of users with
    errors. *)
Theorem C9_two_user_example (clicks1 clicks2 : string) :
  statistics_of [mk_row "u1" "10" clicks1 "0"; mk_row "u2" "20" clicks2 "5"]
  = Ok (Stats 2 (PyFloat.of_Z 15) (PyFloat.of_Z 50))
  ∧ PyFloat.between 15 15 (PyFloat.of_Z 15)
  ∧ PyFloat.between 50 50 (PyFloat.of_Z 50).
Proof.
  split.
  - rewrite (statistics_of_clicks _
               [mk_row "u1" "10" "" "0"; mk_row "u2" "20" "" "5"]).
    + vm_compute. reflexivity.
    + repeat constructor; apply mk_row_same_but_clicks.
  - split; apply between_Fin; lia.
Qed.

(** C10: on every output of [validate_rows], the keys of the sessions map
    and the users flagged in the errors map are in the registry; so the
    flagged users are no more than the registered ones, the percentage is
    computed without an exception, and it lies between 0 and 100. *)
Theorem C10_observations_registered (rows : list Row) :
  let st := validate_state rows in
  (∀ u, u ∈ dom (sessions_per_user st) → u ∈ unique_user_ids st)
  ∧ (∀ u, errors_flag_by_user st !! u = Some true → u ∈ unique_user_ids st)
  ∧ (size (flagged (errors_flag_by_user st))
     ≤ length (unique_user_ids st))%nat
  ∧ (∃ pct percent,
       error_percentage (length (unique_user_ids st))
                        (errors_flag_by_user st) = Ok pct
       ∧ PyFloat.round2 pct = Ok percent
       ∧ PyFloat.between 0 100 percent)
  ∧ (∀ stats, statistics_of rows = Ok stats →
       PyFloat.between 0 100 (percent_users_with_errors stats)).
Proof.
  cbv zeta. split; [apply sessions_keys_registered|].
  split; [apply flagged_registered|]. split; [apply size_flagged_le|].
  destruct (error_percentage_share _ _ (size_flagged_le rows))
    as (pct & percent & Hpct & _ & Hround & Hb).
  split; [by exists pct, percent|].
  intros stats. unfold statistics_of, compute_summary_statistics.
  rewrite Hpct. destruct (avg_sessions _) as [avg|]; [|done]. simpl.
  destruct (PyFloat.round2 avg) as [average|]; [|done]. simpl.
  rewrite Hround. simpl. by intros [= <-].
Qed.

(** * Further properties *)


(** X1: [validate_rows] reads nothing of a record but its four cells
    [user_id], [sessions], [clicks] and [errors], each trimmed: two inputs
    whose records agree on these give the same warnings, observations and
    registry, whatever other columns they hold and whether a blank cell is
    absent, [None], empty or white space. *)
Theorem X1_validator_reads_four_trimmed_cells (rows rows' : list Row) :
  Forall2 same_cells rows rows' → validate_rows rows = validate_rows rows'.
Proof.
  intros Hrows. unfold validate_rows, validate_state.
  by rewrite (validate_from_same_cells rows rows' Hrows).
Qed.

Lemma X1_validator_reads_four_trimmed_cells_witness :
  validate_rows [<["note"%string := Some "vip"%string]>
                   (mk_row "u1" "10" "" "0")]
  = validate_rows [delete "clicks"%string (mk_row " u1 " " 10" "  " "0 ")].
Proof.
  apply (X1_validator_reads_four_trimmed_cells
           [<["note"%string := Some "vip"%string]> (mk_row "u1" "10" "" "0")]
           [delete "clicks"%string (mk_row " u1 " " 10" "  " "0 ")]).
  repeat constructor. intros c Hc.
  unfold EXPECTED_COLUMNS in Hc.
  repeat (apply elem_of_cons in Hc as [->|Hc]; [vm_compute; reflexivity|]).
  by apply elem_of_nil in Hc.
Defined.

(** X2: the statistics depend on a record only through its trimmed
    identifier and its accepted sessions and errors values: a cell that is
    missing, one that is no integer and one that is negative are
    interchangeable, and so is anything in the clicks column. *)
Theorem X2_statistics_read_identifier_and_accepted_values
    (rows rows' : list Row) :
  Forall2 same_accepted rows rows' →
  observations (validate_state rows) = observations (validate_state rows')
  ∧ statistics_of rows = statistics_of rows'.
Proof.
  intros Hrows.
  pose proof (validate_from_same_accepted rows rows' Hrows 2%nat 2%nat
                initial initial eq_refl) as Hobs.
  split; [exact Hobs|].
  injection Hobs as _ Hm He Hu.
  unfold statistics_of, validate_state. by rewrite Hm, He, Hu.
Qed.

Lemma X2_statistics_read_identifier_and_accepted_values_witness :
  statistics_of [mk_row "u1" "-4" "1" "abc"; mk_row "u1" "7" "1" "2"]
  = statistics_of [mk_row " u1" "" "x" "1.5"; mk_row "u1" "+7" "" "02"].
Proof.
  apply (X2_statistics_read_identifier_and_accepted_values
           [mk_row "u1" "-4" "1" "abc"; mk_row "u1" "7" "1" "2"]
           [mk_row " u1" "" "x" "1.5"; mk_row "u1" "+7" "" "02"]).
  repeat constructor; vm_compute; reflexivity.
Defined.


(** X3: [validate_rows] returns no warning exactly when the trimmed
    identifiers of the records are non-empty and pairwise distinct and
    every sessions, clicks and errors cell holds a non-negative integer. *)
Theorem X3_no_warnings_iff_clean (rows : list Row) :
  (validate_rows rows).1.1.1 = []
  ↔ NoDup (user_id_of <$> rows)
    ∧ Forall (λ row,
        user_id_of row ≠ EmptyString ∧ clean_cell row "sessions"
        ∧ clean_cell row "clicks" ∧ clean_cell row "errors") rows.
Proof.
  rewrite <- warnings_nil_iff. unfold validate_rows. simpl. split.
  - apply fmap_nil_inv.
  - by intros ->.
Qed.

(** X4: a numeric cell that is not empty once trimmed and is no integer
    literal makes the validator return one warning that carries the row
    number of its record and quotes the trimmed text; the cell contributes
    no value. *)
Theorem X4_invalid_integer_reported
    (rows : list Row) (i : nat) (row : Row) (c : string) :
  rows !! i = Some row → c ∈ NUMERIC_COLUMNS →
  field row c ≠ EmptyString → PyStr.int (field row c) = None →
  column_warning (2 + i) row c = [InvalidInteger (2 + i) (field row c) c]
  ∧ ("Row " +:+ pretty (2 + i)%nat +:+ ": invalid integer value '"
       +:+ field row c +:+ "' in " +:+ c +:+ " column.")
    ∈ (validate_rows rows).1.1.1
  ∧ accepted row c = None.
Proof.
  intros Hi Hc Hraw Hint.
  assert (column_warning (2 + i) row c
          = [InvalidInteger (2 + i) (field row c) c]) as Hcw.
  { unfold column_warning. rewrite decide_False by done. by rewrite Hint. }
  split; [done|]. split; [|unfold accepted; by rewrite Hint].
  unfold validate_rows. simpl.
  apply (list_elem_of_fmap_2' render _
           (InvalidInteger (2 + i) (field row c) c)); [|done].
  apply (row_warnings_emitted rows i row); [done|].
  unfold row_warnings. rewrite !elem_of_app.
  unfold NUMERIC_COLUMNS in Hc.
  apply elem_of_cons in Hc as [->|Hc]; [rewrite Hcw; right; left; left|].
  apply elem_of_cons in Hc as [->|Hc];
    [rewrite Hcw; right; right; left; left|].
  apply list_elem_of_singleton in Hc as ->.
  rewrite Hcw. right; right; right; left.
Qed.

Lemma X4_invalid_integer_reported_witness :
  "Row 3: invalid integer value '12.5' in sessions column."%string
  ∈ (validate_rows [mk_row "u1" "1" "1" "1";
                    mk_row "u2" " 12.5 " "1" "1"]).1.1.1.
Proof.
  apply (X4_invalid_integer_reported
           [mk_row "u1" "1" "1" "1"; mk_row "u2" " 12.5 " "1" "1"]
           1 (mk_row "u2" " 12.5 " "1" "1") "sessions").
  - reflexivity.
  - left.
  - vm_compute. discriminate.
  - vm_compute. reflexivity.
Defined.

(** X5: a required cell that is absent from the record, is [None], or is
    empty or white space only makes the validator return the missing-value
    warning of its column with the row number of its record. *)
Theorem X5_missing_value_reported
    (rows : list Row) (i : nat) (row : Row) (c : string) :
  rows !! i = Some row → c ∈ EXPECTED_COLUMNS →
  (row !! c = None ∨ row !! c = Some None
   ∨ ∃ cell, row !! c = Some (Some cell) ∧ PyStr.strip cell = EmptyString) →
  ("Row " +:+ pretty (2 + i)%nat +:+ ": missing value in " +:+ c
     +:+ " column.")
  ∈ (validate_rows rows).1.1.1.
Proof.
  intros Hi Hc Hcell.
  assert (field row c = EmptyString) as Hraw.
  { unfold field.
    destruct Hcell as [->|[->|(cell & -> & Hstrip)]]; [done|done|exact Hstrip]. }
  unfold validate_rows. simpl.
  apply (list_elem_of_fmap_2' render _ (MissingValue (2 + i) c)); [|done].
  apply (row_warnings_emitted rows i row); [done|].
  assert (column_warning (2 + i) row c = [MissingValue (2 + i) c]) as Hcw.
  { unfold column_warning. by rewrite decide_True. }
  unfold row_warnings. rewrite !elem_of_app.
  unfold EXPECTED_COLUMNS in Hc.
  apply elem_of_cons in Hc as [->|Hc].
  { left. unfold user_warning, user_id_of. rewrite decide_True by done. left. }
  apply elem_of_cons in Hc as [->|Hc]; [rewrite Hcw; right; left; left|].
  apply elem_of_cons in Hc as [->|Hc];
    [rewrite Hcw; right; right; left; left|].
  apply list_elem_of_singleton in Hc as ->.
  rewrite Hcw. right; right; right; left.
Qed.

Lemma X5_missing_value_reported_witness :
  "Row 2: missing value in errors column."%string
  ∈ (validate_rows [delete "errors"%string (mk_row "u1" "1" "1" "1")]).1.1.1.
Proof.
  apply (X5_missing_value_reported
           [delete "errors"%string (mk_row "u1" "1" "1" "1")]
           0 (delete "errors"%string (mk_row "u1" "1" "1" "1")) "errors").
  - reflexivity.
  - right; right; right; left.
  - left. vm_compute. reflexivity.
Defined.

(** X6: a record gets at most four warnings, so there are at most four
    times as many warnings as records; and every warning carries a row
    number from 2, for the first record, to the number of records plus 1. *)
Theorem X6_warnings_bounded (rows : list Row) :
  (length (validate_rows rows).1.1.1 ≤ 4 * length rows)%nat
  ∧ (∀ w, w ∈ warnings (validate_state rows) →
       (2 ≤ warning_row w ≤ 1 + length rows)%nat).
Proof.
  split.
  - unfold validate_rows. simpl. rewrite length_fmap. apply warnings_length.
  - intros w Hw. split; [by apply (warnings_rows_from_two rows)|].
    apply warnings_rows_bounded in Hw. lia.
Qed.

(** ** How the state grows *)

Section growth.
Implicit Types (st : state) (row : Row) (rows more : list Row) (u : string).

Lemma first_seen_prefix (l k : list string) :
  first_seen l `prefix_of` first_seen (l ++ k).
Proof.
  induction k as [|x k IH] using rev_ind; [by rewrite app_nil_r|].
  rewrite (assoc_L (++)), first_seen_snoc.
  case_decide; [done|]. by apply prefix_app_r.
Qed.

Lemma nonempty_app (l k : list string) :
  nonempty (l ++ k) = nonempty l ++ nonempty k.
Proof. unfold nonempty. apply filter_app. Qed.

Lemma warnings_prefix rows more :
  warnings (validate_state rows)
  `prefix_of` warnings (validate_state (rows ++ more)).
Proof.
  induction more as [|row more IH] using rev_ind; [by rewrite app_nil_r|].
  rewrite (assoc_L (++)).
  destruct (validate_state_step (rows ++ more) row) as (-> & _).
  by apply prefix_app_r.
Qed.

Lemma sessions_of_app u rows more :
  sessions_of u (rows ++ more) = sessions_of u rows ++ sessions_of u more.
Proof. unfold sessions_of. apply bind_app. Qed.

Lemma has_errors_app_l u rows more :
  has_errors u rows → has_errors u (rows ++ more).
Proof.
  intros (row & v & Hin & H). exists row, v. split; [|done].
  apply elem_of_app. by left.
Qed.

Lemma first_seen_length (l : list string) :
  (length (first_seen l) ≤ length l)%nat
  ∧ (length (first_seen l) = length l ↔ NoDup l).
Proof.
  induction l as [|x l [IHle IHeq]] using rev_ind.
  { split; [done|]. split; [intros _; apply NoDup_nil_2 | done]. }
  rewrite first_seen_snoc, NoDup_snoc_iff, !length_app.
  change (length [x]) with 1%nat.
  destruct (decide (x ∈ l)) as [Hin|Hin].
  - split; [lia|]. split; [lia|]. by intros [_ ?].
  - rewrite length_app. change (length [x]) with 1%nat.
    split; [lia|]. rewrite <- IHeq. split; [intros ?; split; [lia|done]|].
    intros [? _]. lia.
Qed.

Lemma nonempty_length (l : list string) :
  (length (nonempty l) ≤ length l)%nat
  ∧ (length (nonempty l) = length l ↔ EmptyString ∉ l).
Proof.
  split; [apply length_filter|].
  induction l as [|x l IH]; [split; [intros _ []%elem_of_nil | done]|].
  unfold nonempty in *. rewrite not_elem_of_cons.
  pose proof (length_filter (λ u : string, u ≠ EmptyString) l) as Hle.
  destruct (decide (x ≠ EmptyString)) as [Hx|Hx].
  - rewrite filter_cons_True by done. simpl. rewrite <- IH.
    split; [intros ?; split; [done|lia] | intros [_ ?]; lia].
  - rewrite filter_cons_False by done. simpl. apply dec_stable in Hx.
    split; [lia|]. intros [? _]. done.
Qed.

Lemma nonempty_id (l : list string) : EmptyString ∉ l → nonempty l = l.
Proof.
  induction l as [|x l IH]; [done|]. rewrite not_elem_of_cons.
  intros [Hx Hl]. unfold nonempty in *.
  rewrite filter_cons_True by done. by rewrite IH.
Qed.

Lemma aggregate_validated rows u :
  aggregate (sessions_per_user (validate_state rows)) !! u
  = if decide (u ≠ EmptyString ∧ sessions_of u rows ≠ [])
    then Some (sum (sessions_of u rows)) else None.
Proof.
  unfold aggregate. rewrite lookup_fmap.
  pose proof (sessions_spec rows u) as Hs.
  destruct (decide (u ≠ EmptyString ∧ sessions_of u rows ≠ [])) as [[_ Hne]|_].
  - by rewrite (map_lookup_filter_Some_2 _ _ _ _ Hs Hne).
  - rewrite (proj2 (map_lookup_filter_None _ _ _)); [done|]. by left.
Qed.

Lemma sessions_lists_nonempty rows u l :
  sessions_per_user (validate_state rows) !! u = Some l →
  l ≠ [] ∧ u ≠ EmptyString.
Proof.
  rewrite sessions_spec. case_decide as Hd; [|done].
  intros [= <-]. tauto.
Qed.

End growth.

(** X7: reading more records only adds to what the validator holds: the
    warnings and the registry of a prefix of the input are prefixes of
    those of the whole input, a sessions list is only appended to, and an
    errors flag that is set stays set. *)
Theorem X7_validator_state_only_grows (rows more : list Row) :
  let st := validate_state rows in
  let st' := validate_state (rows ++ more) in
  warnings st `prefix_of` warnings st'
  ∧ unique_user_ids st `prefix_of` unique_user_ids st'
  ∧ (∀ u l, sessions_per_user st !! u = Some l →
       sessions_per_user st' !! u = Some (l ++ sessions_of u more))
  ∧ (∀ u, errors_flag_by_user st !! u = Some true →
       errors_flag_by_user st' !! u = Some true).
Proof.
  cbv zeta. split_and!.
  - apply warnings_prefix.
  - rewrite !unique_spec, fmap_app, nonempty_app. apply first_seen_prefix.
  - intros u l. rewrite !sessions_spec, sessions_of_app.
    case_decide as Hd; [|done]. intros [= <-]. destruct Hd as [Hu Hne].
    rewrite decide_True; [done|]. split; [done|].
    intros [? _]%app_nil. done.
  - intros u [Hu He]%errors_spec. apply errors_spec. split; [done|].
    by apply has_errors_app_l.
Qed.

(** X8: there are never more users than records, and there are as many
    exactly when the trimmed identifiers of the records are non-empty and
    pairwise distinct. *)
Theorem X8_total_users_at_most_records (rows : list Row) :
  let registry := unique_user_ids (validate_state rows) in
  (length registry ≤ length rows)%nat
  ∧ (length registry = length rows
     ↔ NoDup (user_id_of <$> rows) ∧ EmptyString ∉ user_id_of <$> rows)
  ∧ (∀ stats, statistics_of rows = Ok stats →
       (total_users stats ≤ length rows)%nat).
Proof.
  cbv zeta. rewrite unique_spec.
  set (ids := user_id_of <$> rows).
  assert (length ids = length rows) as Hlen by apply length_fmap.
  destruct (first_seen_length (nonempty ids)) as [Hle1 Heq1].
  destruct (nonempty_length ids) as [Hle2 Heq2].
  assert (length (first_seen (nonempty ids)) ≤ length rows)%nat by lia.
  split; [done|]. split.
  - split.
    + intros Heq. assert (EmptyString ∉ ids) as Hne by (apply Heq2; lia).
      split; [|done]. rewrite <- (nonempty_id ids Hne). apply Heq1. lia.
    + intros [Hnd Hne]. rewrite (nonempty_id ids Hne) in *.
      apply Heq1 in Hnd. lia.
  - intros stats Hstats. apply compute_total_users in Hstats.
    rewrite Hstats, unique_spec. done.
Qed.

(** X9: in what the validator hands to the aggregator no sessions list is
    empty and no key is the empty identifier, so the aggregator's filter
    on non-empty lists drops nothing: the aggregated map holds, for each
    user with an accepted sessions value, the sum of all these values. *)
Theorem X9_aggregated_sessions (rows : list Row) :
  let sessions := sessions_per_user (validate_state rows) in
  (∀ u l, sessions !! u = Some l → l ≠ [] ∧ u ≠ EmptyString)
  ∧ aggregate sessions = sum <$> sessions
  ∧ (∀ u, aggregate sessions !! u
          = if decide (u ≠ EmptyString ∧ sessions_of u rows ≠ [])
            then Some (sum (sessions_of u rows)) else None).
Proof.
  cbv zeta. split_and!.
  - apply sessions_lists_nonempty.
  - unfold aggregate. f_equal. apply map_filter_id.
    intros u l Hl. simpl. by apply sessions_lists_nonempty in Hl as [? _].
  - apply aggregate_validated.
Qed.

(** ** The statistics of a validated input *)

Section statistics.
Import PyFloat.
Implicit Types (row : Row) (rows : list Row) (u : string).

Lemma sum_nonneg (l : list Z) : Forall (λ x, 0 ≤ x) l → 0 ≤ sum l.
Proof. induction 1 as [|x l Hx _ IH]; simpl; lia. Qed.

Lemma sum_Permutation (l k : list Z) : l ≡ₚ k → sum l = sum k.
Proof. induction 1; simpl; lia. Qed.

Lemma sessions_of_nonneg u rows : Forall (λ x, 0 ≤ x) (sessions_of u rows).
Proof.
  apply Forall_forall. intros v Hv.
  apply list_elem_of_bind in Hv as (row & Hin & _).
  case_decide; [|by apply elem_of_nil in Hin].
  destruct (accepted row "sessions") as [v'|] eqn:Ha;
    [|by apply elem_of_nil in Hin].
  apply list_elem_of_singleton in Hin as ->. by eapply accepted_nonneg.
Qed.

Lemma sum_values_nonneg rows :
  0 ≤ sum_values (aggregate (sessions_per_user (validate_state rows))).
Proof.
  unfold sum_values. apply sum_nonneg, Forall_forall. intros v Hv.
  apply list_elem_of_fmap in Hv as ([u v'] & -> & Hin). simpl.
  apply elem_of_map_to_list in Hin. rewrite aggregate_validated in Hin.
  case_decide; [|done]. injection Hin as <-.
  apply sum_nonneg, sessions_of_nonneg.
Qed.

Lemma truediv_nonneg a b x :
  0 ≤ a → 0 < b → truediv a b = Ok x → ∃ z, x = Fin z ∧ 0 ≤ z.
Proof.
  intros Ha Hb. unfold truediv. destruct (Z.eqb_spec b 0); [done|].
  case_match; [|done]. intros [= <-]. eexists; split; [done|].
  pose proof ulps_pos.
  assert (0 ≤ round53 (Z.abs a * ulps) (Z.abs b))
    by (apply round53_nonneg; lia).
  rewrite (Z.sgn_pos b) by done.
  pose proof (sgn_cases a) as [->|[->|Hneg]]; [lia..|].
  pose proof (Z.sgn_nonneg a). lia.
Qed.

Lemma round2_nonneg z y :
  0 ≤ z → round2 (Fin z) = Ok y → ∃ z', y = Fin z' ∧ 0 ≤ z'.
Proof.
  intros Hz. simpl. case_match; [|done]. intros [= <-].
  eexists; split; [done|]. pose proof ulps_pos.
  assert (0 ≤ half_even (Z.abs z * 100) ulps)
    by (apply half_even_nonneg; lia).
  assert (0 ≤ round53 (half_even (Z.abs z * 100) ulps * ulps) 100)
    by (apply round53_nonneg; nia).
  pose proof (sgn_cases z) as [->|[->|Hneg]]; [lia..|].
  pose proof (Z.sgn_nonneg z). lia.
Qed.

Lemma avg_sessions_nonneg rows avg :
  avg_sessions (sessions_per_user (validate_state rows)) = Ok avg →
  ∃ z, avg = Fin z ∧ 0 ≤ z.
Proof.
  unfold avg_sessions. case_decide as Hs.
  - apply truediv_nonneg; [apply sum_values_nonneg | lia].
  - intros [= <-]. by exists 0.
Qed.

(** The aggregator reads the registry for its length, the sessions for
    the aggregated sums and the flags for the set of flagged users. *)
Lemma compute_summary_statistics_ext ids ids' sess sess' errs errs' :
  length ids = length ids' → aggregate sess = aggregate sess' →
  flagged errs = flagged errs' →
  compute_summary_statistics ids sess errs
  = compute_summary_statistics ids' sess' errs'.
Proof.
  intros Hl Ha Hf.
  unfold compute_summary_statistics, avg_sessions, error_percentage.
  by rewrite Hl, Ha, Hf.
Qed.

Lemma registry_length rows :
  length (unique_user_ids (validate_state rows))
  = size (list_to_set (C := gset string) (nonempty (user_id_of <$> rows))).
Proof.
  rewrite <- (size_list_to_set (C := gset string)) by apply registry_NoDup.
  f_equal. apply set_eq. intros u.
  by rewrite !elem_of_list_to_set, registry_elem_of, elem_of_nonempty.
Qed.

Lemma has_errors_Permutation u rows rows' :
  rows ≡ₚ rows' → has_errors u rows → has_errors u rows'.
Proof.
  intros Hp (row & v & Hin & H). exists row, v. split; [|done].
  by rewrite <- Hp.
Qed.

Lemma statistics_of_Permutation rows rows' :
  rows ≡ₚ rows' → statistics_of rows = statistics_of rows'.
Proof.
  intros Hp. unfold statistics_of. apply compute_summary_statistics_ext.
  - rewrite !registry_length. f_equal. apply set_eq. intros u.
    rewrite !elem_of_list_to_set, !elem_of_nonempty. by rewrite Hp.
  - apply map_eq. intros u. rewrite !aggregate_validated.
    assert (sessions_of u rows ≡ₚ sessions_of u rows') as Hs.
    { unfold sessions_of. by rewrite Hp. }
    rewrite (sum_Permutation _ _ Hs). apply decide_ext.
    split; intros [Hu Hne]; (split; [done|]); intros Hnil; apply Hne.
    + rewrite Hnil in Hs. by apply Permutation_nil_r in Hs.
    + rewrite Hnil in Hs. symmetry in Hs. by apply Permutation_nil_r in Hs.
  - apply set_eq. intros u. rewrite !elem_of_flagged.
    destruct (errors_spec rows u) as [-> _].
    destruct (errors_spec rows' u) as [-> _].
    split; intros [Hu He]; (split; [done|]).
    + by eapply has_errors_Permutation.
    + eapply has_errors_Permutation; [|done]. done.
Qed.

(** The percentage in the statistics is the rounded [error_percentage]. *)
Lemma statistics_percent ids sess errs stats pct percent :
  error_percentage (length ids) errs = Ok pct → round2 pct = Ok percent →
  compute_summary_statistics ids sess errs = Ok stats →
  percent_users_with_errors stats = percent.
Proof.
  intros Hp Hr. unfold compute_summary_statistics. rewrite Hp.
  destruct (avg_sessions sess) as [avg|]; [|done]. simpl.
  destruct (round2 avg) as [average|]; [|done]. simpl.
  rewrite Hr. simpl. by intros [= <-].
Qed.

Lemma round2_hundred : round2 (of_Z 100) = Ok (of_Z 100).
Proof. vm_compute. reflexivity. Qed.

Lemma truediv_same n : 0 < n → truediv n n = Ok (Fin ulps).
Proof.
  intros Hn. unfold truediv. destruct (Z.eqb_spec n 0); [lia|].
  rewrite (Z.abs_eq n) by lia.
  assert (round53 (n * ulps) n = ulps) as ->.
  { unfold round53. rewrite (Z.mul_comm n ulps), Z.div_mul by lia.
    change (Z.max 0 (Z.log2 ulps - 52)) with 1022.
    replace (ulps * n) with (2 ^ 52 * (n * 2 ^ 1022))
      by (change ulps with (2 ^ 52 * 2 ^ 1022); ring).
    rewrite half_even_exact; [reflexivity|lia|].
    apply Z.mul_pos_pos; [done|reflexivity]. }
  change (ulps <? huge) with true. cbv iota.
  rewrite (Z.sgn_pos n) by done. by rewrite !Z.mul_1_l.
Qed.

Lemma flagged_all rows :
  (∀ u, u ∈ unique_user_ids (validate_state rows) → has_errors u rows) →
  size (flagged (errors_flag_by_user (validate_state rows)))
  = length (unique_user_ids (validate_state rows)).
Proof.
  intros Hall.
  rewrite <- (size_list_to_set (C := gset string)) by apply registry_NoDup.
  f_equal. apply set_eq. intros u.
  rewrite elem_of_flagged, elem_of_list_to_set. split.
  - apply flagged_registered.
  - intros Hu. apply errors_spec. split; [|by apply Hall].
    by apply registry_elem_of in Hu as [? _].
Qed.

Lemma flagged_none rows :
  (∀ u, ¬ has_errors u rows) →
  flagged (errors_flag_by_user (validate_state rows)) = ∅.
Proof.
  intros Hnone. apply set_eq. intros u.
  rewrite elem_of_flagged, elem_of_empty. split; [|done].
  intros [_ He]%errors_spec. by apply (Hnone u).
Qed.

End statistics.

(** X10: on what the validator returns, the aggregator can fail in one way
    only, the overflow of the mean: when the mean of the users' summed
    sessions does not exceed the largest float, the statistics are
    returned, and the average is a finite number that is not negative. *)
Theorem X10_statistics_returned_when_mean_in_range (rows : list Row) :
  let sessions := sessions_per_user (validate_state rows) in
  PyFloat.in_range (sum_values (aggregate sessions))
                   (Z.of_nat (size (aggregate sessions))) →
  ∃ stats z,
    statistics_of rows = Ok stats
    ∧ average_sessions_per_user stats = Fin z ∧ 0 ≤ z
    ∧ PyFloat.between 0 100 (percent_users_with_errors stats).
Proof.
  cbv zeta. intros Hmean. unfold statistics_of, compute_summary_statistics.
  destruct (avg_sessions_in_range _ Hmean) as (avg & Havg & Hva & _).
  destruct (avg_sessions_nonneg rows avg Havg) as (z & -> & Hz).
  destruct (error_percentage_share _ _ (size_flagged_le rows))
    as (pct & percent & -> & _ & Hround & Hb).
  destruct (round2_valid (Fin z) Hva) as (average & Ha).
  destruct (round2_nonneg z average Hz Ha) as (z' & -> & Hz').
  rewrite Havg. simpl. simpl in Ha. rewrite Ha. simpl. rewrite Hround. simpl.
  eexists _, z'. done.
Qed.

Lemma X10_statistics_returned_when_mean_in_range_witness :
  ∃ stats z,
    statistics_of [mk_row "u1" "3" "1" "0"; mk_row "u2" "4" "1" "9"]
    = Ok stats
    ∧ average_sessions_per_user stats = Fin z ∧ 0 ≤ z
    ∧ PyFloat.between 0 100 (percent_users_with_errors stats).
Proof.
  apply (X10_statistics_returned_when_mean_in_range
           [mk_row "u1" "3" "1" "0"; mk_row "u2" "4" "1" "9"]).
  intros _. vm_compute. discriminate.
Defined.

(** X11: the statistics do not depend on the order of the records. *)
Theorem X11_statistics_ignore_record_order (rows rows' : list Row) :
  rows ≡ₚ rows' → statistics_of rows = statistics_of rows'.
Proof. apply statistics_of_Permutation. Qed.

Lemma X11_statistics_ignore_record_order_witness :
  statistics_of [mk_row "u1" "3" "1" "0"; mk_row "u2" "4" "1" "9"]
  = statistics_of [mk_row "u2" "4" "1" "9"; mk_row "u1" "3" "1" "0"].
Proof.
  apply (X11_statistics_ignore_record_order
           [mk_row "u1" "3" "1" "0"; mk_row "u2" "4" "1" "9"]
           [mk_row "u2" "4" "1" "9"; mk_row "u1" "3" "1" "0"]).
  apply perm_swap.
Defined.

(** X12: when no record has a positive errors value (zeros included), the
    percentage of users with errors is 0.0. *)
Theorem X12_no_positive_errors_gives_zero_percent (rows : list Row) :
  (∀ row v, row ∈ rows → accepted row "errors" = Some v → v = 0) →
  error_percentage (length (unique_user_ids (validate_state rows)))
                   (errors_flag_by_user (validate_state rows))
  = Ok (Fin 0)
  ∧ (∀ stats, statistics_of rows = Ok stats →
       percent_users_with_errors stats = Fin 0).
Proof.
  intros Hzero.
  assert (error_percentage (length (unique_user_ids (validate_state rows)))
            (errors_flag_by_user (validate_state rows)) = Ok (Fin 0)) as Hp.
  { apply error_percentage_none_flagged, flagged_none.
    intros u (row & v & Hin & _ & Ha & Hv). apply (Hzero row v Hin) in Ha. lia. }
  split; [done|]. intros stats.
  apply (statistics_percent _ _ _ _ _ _ Hp round2_zero).
Qed.

Lemma X12_no_positive_errors_gives_zero_percent_witness :
  error_percentage
    (length (unique_user_ids (validate_state
       [mk_row "u1" "3" "1" "0"; mk_row "u2" "4" "1" "x"])))
    (errors_flag_by_user (validate_state
       [mk_row "u1" "3" "1" "0"; mk_row "u2" "4" "1" "x"]))
  = Ok (Fin 0)
  ∧ (∀ stats,
       statistics_of [mk_row "u1" "3" "1" "0"; mk_row "u2" "4" "1" "x"]
       = Ok stats →
       percent_users_with_errors stats = Fin 0).
Proof.
  apply (X12_no_positive_errors_gives_zero_percent
           [mk_row "u1" "3" "1" "0"; mk_row "u2" "4" "1" "x"]).
  intros row v Hin.
  repeat (apply elem_of_cons in Hin as [->|Hin];
          [vm_compute; congruence|]).
  by apply elem_of_nil in Hin.
Defined.

(** X13: when there is a user and every user has a record with a positive
    errors value, the percentage of users with errors is 100.0. *)
Theorem X13_all_users_with_errors_gives_hundred_percent (rows : list Row) :
  unique_user_ids (validate_state rows) ≠ [] →
  (∀ u, u ∈ unique_user_ids (validate_state rows) → has_errors u rows) →
  error_percentage (length (unique_user_ids (validate_state rows)))
                   (errors_flag_by_user (validate_state rows))
  = Ok (PyFloat.of_Z 100)
  ∧ (∀ stats, statistics_of rows = Ok stats →
       percent_users_with_errors stats = PyFloat.of_Z 100).
Proof.
  intros Hne Hall.
  assert (error_percentage (length (unique_user_ids (validate_state rows)))
            (errors_flag_by_user (validate_state rows))
          = Ok (PyFloat.of_Z 100)) as Hp.
  { unfold error_percentage. rewrite (flagged_all rows Hall).
    destruct (unique_user_ids (validate_state rows)) as [|u l]; [done|].
    rewrite decide_True by done.
    rewrite truediv_same by (simpl; lia). vm_compute. reflexivity. }
  split; [done|]. intros stats.
  apply (statistics_percent _ _ _ _ _ _ Hp round2_hundred).
Qed.

Lemma X13_all_users_with_errors_gives_hundred_percent_witness :
  error_percentage
    (length (unique_user_ids (validate_state
       [mk_row "u1" "3" "1" "2"; mk_row "u1" "x" "1" "0"])))
    (errors_flag_by_user (validate_state
       [mk_row "u1" "3" "1" "2"; mk_row "u1" "x" "1" "0"]))
  = Ok (PyFloat.of_Z 100)
  ∧ (∀ stats,
       statistics_of [mk_row "u1" "3" "1" "2"; mk_row "u1" "x" "1" "0"]
       = Ok stats →
       percent_users_with_errors stats = PyFloat.of_Z 100).
Proof.
  apply (X13_all_users_with_errors_gives_hundred_percent
           [mk_row "u1" "3" "1" "2"; mk_row "u1" "x" "1" "0"]).
  - vm_compute. discriminate.
  - intros u Hu.
    replace (unique_user_ids (validate_state
               [mk_row "u1" "3" "1" "2"; mk_row "u1" "x" "1" "0"]))
      with ["u1"%string] in Hu by (vm_compute; reflexivity).
    apply list_elem_of_singleton in Hu as ->.
    exists (mk_row "u1" "3" "1" "2"), 2. split_and!.
    + left.
    + vm_compute. reflexivity.
    + vm_compute. reflexivity.
    + lia.
Defined.

(** ** The aggregator on arbitrary arguments *)

Section arbitrary.
Import PyFloat.
Implicit Types (sess : gmap string (list Z)) (errs : gmap string bool).

Lemma aggregate_insert_nil sess u :
  aggregate (<[u := []]> sess) = aggregate (delete u sess).
Proof.
  unfold aggregate. f_equal. apply map_filter_insert_False. simpl. tauto.
Qed.

Lemma flagged_insert_false errs u :
  flagged (<[u := false]> errs) = flagged (delete u errs).
Proof.
  unfold flagged. f_equal. apply map_filter_insert_False. simpl. done.
Qed.

Lemma compute_summary_statistics_in_range ids sess errs :
  in_range (sum_values (aggregate sess)) (Z.of_nat (size (aggregate sess))) →
  in_range (Z.of_nat (size (flagged errs))) (Z.of_nat (length ids)) →
  succeeds (compute_summary_statistics ids sess errs).
Proof.
  intros Hmean Hshare. unfold compute_summary_statistics.
  destruct (avg_sessions_in_range sess Hmean) as (avg & -> & Hva & _).
  destruct (error_percentage_in_range (length ids) errs Hshare)
    as (pct & -> & Hvp & _).
  destruct (round2_valid avg Hva) as (average & Ha).
  destruct (round2_valid pct Hvp) as (percent & Hp).
  simpl. rewrite Ha. simpl. rewrite Hp. simpl. by eexists.
Qed.

End arbitrary.

(** X14: whatever its arguments, the aggregator raises nothing but
    [OverflowError], so never [ZeroDivisionError], and it raises only when
    one of its two quotients is beyond the largest float. *)
Theorem X14_aggregator_raises_only_overflow
    (ids : list string) (sess : gmap string (list Z))
    (errs : gmap string bool) (e : exn) :
  compute_summary_statistics ids sess errs = Raise e →
  e = OverflowError
  ∧ ¬ (PyFloat.in_range (sum_values (aggregate sess))
                        (Z.of_nat (size (aggregate sess)))
       ∧ PyFloat.in_range (Z.of_nat (size (flagged errs)))
                          (Z.of_nat (length ids))).
Proof.
  intros Hraise. split; [by eapply compute_summary_statistics_raises|].
  intros [Hmean Hshare].
  destruct (compute_summary_statistics_in_range ids sess errs Hmean Hshare)
    as [stats Hok].
  congruence.
Qed.

Lemma X14_aggregator_raises_only_overflow_witness :
  OverflowError = OverflowError
  ∧ ¬ (PyFloat.in_range
         (sum_values (aggregate {["u"%string := [10 ^ 400]]}))
         (Z.of_nat (size (aggregate {["u"%string := [10 ^ 400]]})))
       ∧ PyFloat.in_range
           (Z.of_nat (size (flagged ∅)))
           (Z.of_nat (length ["u"%string]))).
Proof.
  apply (X14_aggregator_raises_only_overflow
           ["u"%string] {["u"%string := [10 ^ 400]]} ∅ OverflowError).
  vm_compute. reflexivity.
Defined.

(** X15: the aggregator does not tell an entry that a [defaultdict] made
    on a mere read from no entry at all: a user with an empty sessions list
    and a user whose errors flag is [False] count like users without an
    entry. *)
Theorem X15_aggregator_ignores_default_entries
    (ids : list string) (sess : gmap string (list Z))
    (errs : gmap string bool) (u : string) :
  compute_summary_statistics ids (<[u := []]> sess) errs
  = compute_summary_statistics ids (delete u sess) errs
  ∧ compute_summary_statistics ids sess (<[u := false]> errs)
    = compute_summary_statistics ids sess (delete u errs).
Proof.
  split; apply compute_summary_statistics_ext; try done.
  - apply aggregate_insert_nil.
  - apply flagged_insert_false.
Qed.

(** ** The records of [DictReader] *)

Section records.
Implicit Types (fieldnames line : list string) (d : Row).

Lemma fill_cells_snoc d (kvs : list (string * string)) k v :
  foldl (λ d kv, <[kv.1 := Some kv.2]> d) d (kvs ++ [(k, v)])
  = <[k := Some v]> (foldl (λ d kv, <[kv.1 := Some kv.2]> d) d kvs).
Proof. by rewrite foldl_app. Qed.

Lemma fill_rest_snoc d (keys : list string) k :
  foldl (λ d key, <[key := None]> d) d (keys ++ [k])
  = <[k := None]> (foldl (λ d key, <[key := None]> d) d keys).
Proof. by rewrite foldl_app. Qed.

Lemma fill_cells_dom d (kvs : list (string * string)) :
  dom (foldl (λ d kv, <[kv.1 := Some kv.2]> d) d kvs)
  = dom d ∪ list_to_set kvs.*1.
Proof.
  induction kvs as [|[k v] kvs IH] using rev_ind.
  { simpl. by rewrite (right_id_L ∅ (∪)). }
  rewrite fill_cells_snoc, dom_insert_L, IH, fmap_app, list_to_set_app_L.
  simpl. rewrite (right_id_L ∅ (∪)), (comm_L (∪) {[k]}).
  by rewrite (assoc_L (∪)).
Qed.

Lemma fill_rest_dom d (keys : list string) :
  dom (foldl (λ d key, <[key := None]> d) d keys)
  = dom d ∪ list_to_set keys.
Proof.
  induction keys as [|k keys IH] using rev_ind.
  { simpl. by rewrite (right_id_L ∅ (∪)). }
  rewrite fill_rest_snoc, dom_insert_L, IH, list_to_set_app_L.
  simpl. rewrite (right_id_L ∅ (∪)), (comm_L (∪) {[k]}).
  by rewrite (assoc_L (∪)).
Qed.

Lemma fill_cells_other d (kvs : list (string * string)) c :
  c ∉ kvs.*1 →
  foldl (λ d kv, <[kv.1 := Some kv.2]> d) d kvs !! c = d !! c.
Proof.
  induction kvs as [|[k v] kvs IH] using rev_ind; [done|].
  rewrite fmap_app, not_elem_of_app. intros [Hkvs Hk].
  rewrite fill_cells_snoc, lookup_insert_ne; [by apply IH|].
  intros ->. apply Hk. simpl. left.
Qed.

Lemma fill_cells_lookup d (kvs : list (string * string)) i c v :
  NoDup kvs.*1 → kvs !! i = Some (c, v) →
  foldl (λ d kv, <[kv.1 := Some kv.2]> d) d kvs !! c = Some (Some v).
Proof.
  revert i. induction kvs as [|[k v'] kvs IH] using rev_ind; intros i; [done|].
  rewrite fmap_app. simpl. rewrite NoDup_snoc_iff. intros [Hnd Hk] Hi.
  rewrite fill_cells_snoc.
  apply lookup_app_Some in Hi as [Hi|[_ Hi]].
  - rewrite lookup_insert_ne; [by apply (IH i)|].
    intros ->. apply Hk.
    apply (list_elem_of_fmap_2' fst _ (c, v)); [|done].
    by eapply list_elem_of_lookup_2.
  - apply list_lookup_singleton_Some in Hi as [_ [= -> ->]].
    by rewrite lookup_insert_eq.
Qed.

Lemma fill_rest_other d (keys : list string) c :
  c ∉ keys → foldl (λ d key, <[key := None]> d) d keys !! c = d !! c.
Proof.
  induction keys as [|k keys IH] using rev_ind; [done|].
  rewrite not_elem_of_app. intros [Hkeys Hk].
  rewrite fill_rest_snoc, lookup_insert_ne; [by apply IH|].
  intros ->. apply Hk. left.
Qed.

Lemma fill_rest_lookup d (keys : list string) c :
  c ∈ keys → foldl (λ d key, <[key := None]> d) d keys !! c = Some None.
Proof.
  induction keys as [|k keys IH] using rev_ind.
  { intros Hc. by apply elem_of_nil in Hc. }
  rewrite fill_rest_snoc. intros Hc.
  destruct (decide (c = k)) as [->|Hne]; [by rewrite lookup_insert_eq|].
  rewrite lookup_insert_ne by done. apply IH.
  apply elem_of_app in Hc as [Hc|Hc]; [done|].
  by apply list_elem_of_singleton in Hc.
Qed.

Lemma zip_keys fieldnames line :
  (zip fieldnames line).*1 = take (length line) fieldnames.
Proof.
  revert line. induction fieldnames as [|k fieldnames IH]; intros [|v line];
    simpl; try done.
  by rewrite IH.
Qed.

Lemma make_row_dom fieldnames line :
  dom (make_row fieldnames line) = list_to_set fieldnames.
Proof.
  unfold make_row.
  rewrite fill_rest_dom, fill_cells_dom, zip_keys, dom_empty_L.
  rewrite (left_id_L ∅ (∪)), <- list_to_set_app_L. by rewrite take_drop.
Qed.

(** The cell of the [i]-th column is the [i]-th cell of the line, [None]
    when the line is too short. *)
Lemma make_row_lookup fieldnames line i c :
  NoDup fieldnames → fieldnames !! i = Some c →
  make_row fieldnames line !! c = Some (line !! i).
Proof.
  intros Hnd Hi. unfold make_row.
  rewrite <- (take_drop (length line) fieldnames) in Hnd.
  apply NoDup_app in Hnd as (Hnd1 & Hdisj & _).
  destruct (decide (i < length line)%nat) as [Hlt|Hge].
  - destruct (lookup_lt_is_Some_2 line i Hlt) as [v Hv].
    assert (c ∈ take (length line) fieldnames) as Hin.
    { apply list_elem_of_lookup. exists i. by rewrite lookup_take_lt. }
    rewrite fill_rest_other by (by apply Hdisj).
    rewrite Hv. apply (fill_cells_lookup _ _ i).
    + by rewrite zip_keys.
    + apply lookup_zip_with_Some. by exists c, v.
  - rewrite (lookup_ge_None_2 line i) by lia.
    apply fill_rest_lookup, list_elem_of_lookup.
    exists (i - length line)%nat. rewrite lookup_drop, <- Hi. f_equal. lia.
Qed.

Lemma make_row_field fieldnames line i c :
  NoDup fieldnames → fieldnames !! i = Some c →
  field (make_row fieldnames line) c
  = PyStr.strip (default EmptyString (line !! i)).
Proof.
  intros Hnd Hi. unfold field.
  rewrite (make_row_lookup fieldnames line i c Hnd Hi).
  by destruct (line !! i).
Qed.

End records.

Section parsed.
Implicit Types (fieldnames line : list string) (rows : list Row).

(** What [parse_csv_rows] returns, when it returns. *)
Lemma parse_csv_rows_Ok csv_text rows :
  parse_csv_rows csv_text = Ok rows →
  ∃ fieldnames data,
    lines (csv_reader csv_text) = fieldnames :: data
    ∧ failure (csv_reader csv_text) = None
    ∧ missing_columns fieldnames = []
    ∧ rows = make_row fieldnames <$> data_lines data
    ∧ rows ≠ [].
Proof.
  unfold parse_csv_rows. cbv zeta.
  destruct (lines (csv_reader csv_text)) as [|fieldnames data].
  { by destruct (failure (csv_reader csv_text)). }
  case_decide as Hmiss; [done|].
  destruct (failure (csv_reader csv_text)); [done|].
  case_decide as Hrows; [done|]. intros [= <-].
  exists fieldnames, data. split_and!; [done..| |done|done].
  destruct (missing_columns fieldnames); [done|]. by destruct Hmiss.
Qed.

Lemma missing_columns_nil fieldnames c :
  missing_columns fieldnames = [] → c ∈ EXPECTED_COLUMNS → c ∈ fieldnames.
Proof.
  intros Hnil Hc. destruct (decide (c ∈ fieldnames)) as [|Hnot]; [done|].
  assert (c ∈ missing_columns fieldnames) as Hin
    by (by apply missing_columns_elem_of).
  rewrite Hnil in Hin. by apply elem_of_nil in Hin.
Qed.

Lemma missing_value_emitted rows i row c :
  rows !! i = Some row → c ∈ EXPECTED_COLUMNS → field row c = EmptyString →
  MissingValue (2 + i) c ∈ warnings (validate_state rows).
Proof.
  intros Hi Hc Hraw.
  apply (row_warnings_emitted rows i row); [done|].
  assert (column_warning (2 + i) row c = [MissingValue (2 + i) c]) as Hcw.
  { unfold column_warning. by rewrite decide_True. }
  unfold row_warnings. rewrite !elem_of_app.
  unfold EXPECTED_COLUMNS in Hc.
  apply elem_of_cons in Hc as [->|Hc].
  { left. unfold user_warning, user_id_of. rewrite decide_True by done. left. }
  apply elem_of_cons in Hc as [->|Hc]; [rewrite Hcw; right; left; left|].
  apply elem_of_cons in Hc as [->|Hc];
    [rewrite Hcw; right; right; left; left|].
  apply list_elem_of_singleton in Hc as ->.
  rewrite Hcw. right; right; right; left.
Qed.

End parsed.

(** X16: a record of [DictReader] under a header without repeated names
    holds, for the [i]-th column, the [i]-th cell of its line, and [None]
    when the line is too short; the validator then reads that cell
    trimmed, or the empty string.  The string keys of the record are the
    names of the header, whatever the length of the line. *)
Theorem X16_record_cells
    (fieldnames line : list string) (i : nat) (c : string) :
  NoDup fieldnames → fieldnames !! i = Some c →
  make_row fieldnames line !! c = Some (line !! i)
  ∧ field (make_row fieldnames line) c
    = PyStr.strip (default EmptyString (line !! i))
  ∧ dom (make_row fieldnames line) = list_to_set fieldnames.
Proof.
  intros Hnd Hi. split_and!.
  - by apply make_row_lookup.
  - by apply make_row_field.
  - apply make_row_dom.
Qed.

Lemma X16_record_cells_witness :
  make_row ["user_id"; "sessions"; "clicks"; "errors"]%string
           ["u1"; " 7 "]%string !! "errors"%string
  = Some (["u1"; " 7 "]%string !! 3%nat)
  ∧ field (make_row ["user_id"; "sessions"; "clicks"; "errors"]%string
                    ["u1"; " 7 "]%string) "errors"
    = PyStr.strip (default EmptyString (["u1"; " 7 "]%string !! 3%nat))
  ∧ dom (make_row ["user_id"; "sessions"; "clicks"; "errors"]%string
                  ["u1"; " 7 "]%string)
    = list_to_set ["user_id"; "sessions"; "clicks"; "errors"]%string.
Proof.
  apply (X16_record_cells
           ["user_id"; "sessions"; "clicks"; "errors"]%string
           ["u1"; " 7 "]%string 3 "errors").
  - apply (bool_decide_unpack _). vm_compute. exact I.
  - reflexivity.
Defined.

(** X17: when [parse_csv_rows] returns, it returns at least one record,
    one for each line after the header that is not blank; the header
    names every required column, and every record has the names of the
    header as its keys, so each required column has a cell in it, be it
    [None]. *)
Theorem X17_parsed_records (csv_text : string) (rows : list Row) :
  parse_csv_rows csv_text = Ok rows →
  rows ≠ []
  ∧ ∃ fieldnames data,
      lines (csv_reader csv_text) = fieldnames :: data
      ∧ failure (csv_reader csv_text) = None
      ∧ rows = make_row fieldnames <$> data_lines data
      ∧ (∀ c, c ∈ EXPECTED_COLUMNS → c ∈ fieldnames)
      ∧ Forall (λ row, dom row = list_to_set fieldnames
                       ∧ ∀ c, c ∈ EXPECTED_COLUMNS → is_Some (row !! c))
               rows.
Proof.
  intros (fieldnames & data & Hlines & Hfail & Hmiss & -> & Hne)%parse_csv_rows_Ok.
  split; [done|]. exists fieldnames, data. split_and!; try done.
  - intros c. by apply missing_columns_nil.
  - apply Forall_fmap, Forall_forall. intros line _. simpl.
    split; [apply make_row_dom|].
    intros c Hc. apply elem_of_dom.
    rewrite make_row_dom, elem_of_list_to_set.
    by apply missing_columns_nil.
Qed.

Lemma X17_parsed_records_witness :
  [make_row ["user_id"; "sessions"; "clicks"; "errors"]%string
            ["u1"; "10"; "3"; "0"]%string] ≠ []
  ∧ ∃ fieldnames data,
      lines (csv_reader one_line_upload) = fieldnames :: data
      ∧ failure (csv_reader one_line_upload) = None
      ∧ [make_row ["user_id"; "sessions"; "clicks"; "errors"]%string
                  ["u1"; "10"; "3"; "0"]%string]
        = make_row fieldnames <$> data_lines data
      ∧ (∀ c, c ∈ EXPECTED_COLUMNS → c ∈ fieldnames)
      ∧ Forall (λ row, dom row = list_to_set fieldnames
                       ∧ ∀ c, c ∈ EXPECTED_COLUMNS → is_Some (row !! c))
               [make_row ["user_id"; "sessions"; "clicks"; "errors"]%string
                         ["u1"; "10"; "3"; "0"]%string].
Proof.
  apply (X17_parsed_records one_line_upload
           [make_row ["user_id"; "sessions"; "clicks"; "errors"]%string
                     ["u1"; "10"; "3"; "0"]%string]).
  vm_compute. reflexivity.
Defined.

(** X18: parser and validator together: under a header without repeated
    names, a line that is too short to reach a required column, or whose
    cell there is empty or white space, gets the missing-value warning of
    that column; the row number is 2 plus the position of the line among
    the lines after the header that are not blank. *)
Theorem X18_short_line_reported
    (csv_text : string) (rows : list Row)
    (fieldnames : list string) (data : list (list string))
    (k i : nat) (line : list string) (c : string) :
  parse_csv_rows csv_text = Ok rows →
  lines (csv_reader csv_text) = fieldnames :: data →
  NoDup fieldnames → fieldnames !! i = Some c → c ∈ EXPECTED_COLUMNS →
  data_lines data !! k = Some line →
  ((length line ≤ i)%nat
   ∨ ∃ cell, line !! i = Some cell ∧ PyStr.strip cell = EmptyString) →
  ("Row " +:+ pretty (2 + k)%nat +:+ ": missing value in " +:+ c
     +:+ " column.")
  ∈ (validate_rows rows).1.1.1.
Proof.
  intros (f & d & Hlines & _ & _ & -> & _)%parse_csv_rows_Ok Hl Hnd Hi Hc Hk
    Hcell.
  rewrite Hl in Hlines. injection Hlines as <- <-.
  unfold validate_rows. simpl.
  apply (list_elem_of_fmap_2' render _ (MissingValue (2 + k) c)); [|done].
  apply (missing_value_emitted _ k (make_row fieldnames line)); [|done|].
  - by rewrite list_lookup_fmap, Hk.
  - rewrite (make_row_field fieldnames line i c Hnd Hi).
    destruct Hcell as [Hshort|(cell & -> & Hstrip)]; [|done].
    by rewrite (lookup_ge_None_2 line i).
Qed.

Lemma X18_short_line_reported_witness :
  "Row 3: missing value in errors column."%string
  ∈ (validate_rows
       [make_row ["user_id"; "sessions"; "clicks"; "errors"]%string
                 ["u1"; "10"; "3"; "0"]%string;
        make_row ["user_id"; "sessions"; "clicks"; "errors"]%string
                 ["u2"; "4"]%string]).1.1.1.
Proof.
  apply (X18_short_line_reported
           ("user_id,sessions,clicks,errors" +:+ LF +:+ "u1,10,3,0" +:+ LF
              +:+ LF +:+ "u2,4" +:+ LF)
           [make_row ["user_id"; "sessions"; "clicks"; "errors"]%string
                     ["u1"; "10"; "3"; "0"]%string;
            make_row ["user_id"; "sessions"; "clicks"; "errors"]%string
                     ["u2"; "4"]%string]
           ["user_id"; "sessions"; "clicks"; "errors"]%string
           [["u1"; "10"; "3"; "0"]; []; ["u2"; "4"]]%string
           1 3 ["u2"; "4"]%string "errors").
  - vm_compute. reflexivity.
  - vm_compute. reflexivity.
  - apply (bool_decide_unpack _). vm_compute. exact I.
  - reflexivity.
  - right; right; right; left.
  - vm_compute. reflexivity.
  - left. simpl. lia.
Defined.

(** ** The orchestrator and the endpoint *)

Section analysis.
Variable format_2f : pyfloat → string.
Variable format_row : Row → string.
Implicit Types (env : collaborator) (rows : list Row) (e : exn).

Lemma parse_csv_rows_raises csv_text e :
  parse_csv_rows csv_text = Raise e → parser_error e.
Proof.
  unfold parse_csv_rows, parser_error. cbv zeta.
  destruct (lines (csv_reader csv_text)) as [|fieldnames data].
  - destruct (failure (csv_reader csv_text)) as [msg|]; intros [= <-];
      [right; right; right; by exists msg | by left].
  - case_decide as Hmiss.
    + intros [= <-]. right; left. by exists fieldnames.
    + destruct (failure (csv_reader csv_text)) as [msg|].
      * intros [= <-]. right; right; right. by exists msg.
      * case_decide; [|done]. intros [= <-]. right; right; by left.
Qed.

(** The parser raises [ValueError] or [csv.Error], nothing else. *)
Lemma parser_error_cases e :
  parser_error e → (∃ msg, e = ValueError msg) ∨ (∃ msg, e = CsvError msg).
Proof.
  intros [->|[(? & _ & ->)|[->|[msg ->]]]]; [left; by eexists..|right].
  by exists msg.
Qed.

Lemma generate_openai_summary_raises env warnings stats rows e :
  generate_openai_summary format_2f format_row env warnings stats rows
  = Raise e ↔
  truthy (OPENAI_API_KEY env) = true
  ∧ (import_openai env = ImportRaises e
     ∨ import_openai env = Imported
       ∧ (new_client env = Some e
          ∨ new_client env = None ∧ e = no_usage_error
            ∧ ∃ content rest,
                create env (build_openai_prompt format_2f format_row warnings
                                                stats rows)
                = CallReturns (Completion (content :: rest) None)
                ∧ truthy content = true)).
Proof.
  unfold generate_openai_summary, no_usage_error.
  destruct (truthy (OPENAI_API_KEY env)); simpl;
    [|split; [done|by intros [? _]]].
  destruct (import_openai env) as [| |error]; simpl.
  - destruct (new_client env) as [error|].
    { split.
      - intros [= <-]. split; [done|]. right. split; [done|]. by left.
      - intros (_ & [?|(_ & [[= <-]|(? & _)])]); done. }
    destruct (create env _) as [error|[choices usage]]; simpl.
    { split; [done|].
      intros (_ & [?|(_ & [?|(_ & _ & ? & ? & ? & _)])]); done. }
    destruct choices as [|content rest].
    { split; [done|].
      intros (_ & [?|(_ & [?|(_ & _ & ? & ? & ? & _)])]); done. }
    destruct (truthy content) eqn:Hcontent; simpl.
    + destruct usage as [us|].
      * split; [done|].
        intros (_ & [?|(_ & [?|(_ & _ & ? & ? & ? & _)])]); done.
      * split.
        -- intros [= <-]. split; [done|]. right. split; [done|]. right.
           split_and!; try done. by exists content, rest.
        -- intros (_ & [?|(_ & [?|(_ & -> & _)])]); done.
    + split; [done|].
      intros (_ & [?|(_ & [?|(_ & _ & ? & ? & [= <- <-] & ?)])]);
        [done..|congruence].
  - split; [done|]. intros (_ & [?|(? & _)]); done.
  - split.
    + intros [= <-]. split; [done|]. by left.
    + intros (_ & [[= <-]|(? & _)]); done.
Qed.

Lemma generate_openai_summary_summary_error env warnings stats rows e :
  generate_openai_summary format_2f format_row env warnings stats rows
  = Raise e → summary_error env e.
Proof.
  intros (Hkey & Hcases)%generate_openai_summary_raises.
  split; [done|].
  destruct Hcases as [?|(? & [?|(? & ? & _)])]; [by left|right..];
    (split; [done|]); [by left|by right].
Qed.

Lemma generate_openai_summary_returns env warnings stats rows summary notice :
  generate_openai_summary format_2f format_row env warnings stats rows
  = Ok (summary, notice) →
  (summary = None ∧ is_Some notice)
  ∨ (notice = None
     ∧ ∃ content rest us,
         create env (build_openai_prompt format_2f format_row warnings stats
                                         rows)
         = CallReturns (Completion (Some content :: rest) (Some us))
         ∧ content ≠ EmptyString
         ∧ summary = Some (PyStr.strip content)).
Proof.
  unfold generate_openai_summary.
  destruct (truthy (OPENAI_API_KEY env)); simpl;
    [|intros [= <- <-]; left; eauto].
  destruct (import_openai env) as [| |error]; simpl;
    [|intros [= <- <-]; left; eauto|done].
  destruct (new_client env) as [error|]; [done|].
  destruct (create env _) as [error|[choices usage]]; simpl;
    [intros [= <- <-]; left; eauto|].
  destruct choices as [|content rest]; [intros [= <- <-]; left; eauto|].
  destruct content as [[|a content]|]; simpl;
    [intros [= <- <-]; left; eauto| |intros [= <- <-]; left; eauto].
  destruct usage as [us|]; [|done].
  intros [= <- <-]. right. split; [done|].
  by exists (String a content), rest, us.
Qed.

Lemma build_openai_prompt_sample warnings stats rows rows' :
  take 5 rows = take 5 rows' →
  build_openai_prompt format_2f format_row warnings stats rows
  = build_openai_prompt format_2f format_row warnings stats rows'.
Proof. intros Htake. unfold build_openai_prompt. by rewrite Htake. Qed.

(** The stages of [analyze_csv_content], when it raises. *)
Lemma analyze_csv_content_raises env csv_text e :
  analyze_csv_content format_2f format_row env csv_text = Raise e →
  parse_csv_rows csv_text = Raise e
  ∨ ∃ rows,
      parse_csv_rows csv_text = Ok rows
      ∧ (statistics_of rows = Raise e
         ∨ ∃ stats,
             statistics_of rows = Ok stats
             ∧ generate_openai_summary format_2f format_row env
                 (validate_rows rows).1.1.1 stats rows
               = Raise e).
Proof.
  unfold analyze_csv_content.
  intros [Hparse|(rows & Hparse & Hrest)]%bind_raise; [by left|].
  right. exists rows. split; [done|].
  unfold validate_rows in Hrest. cbv zeta in Hrest.
  apply bind_raise in Hrest as [Hstats|(stats & Hstats & Hrest)]; [by left|].
  right. exists stats. split; [done|].
  apply bind_raise in Hrest as [Hgen|([summary notice] & _ & ?)]; done.
Qed.

(** The same, with what each stage can raise. *)
Lemma analyze_csv_content_raises_stage env csv_text e :
  analyze_csv_content format_2f format_row env csv_text = Raise e →
  (parse_csv_rows csv_text = Raise e ∧ parser_error e)
  ∨ ∃ rows,
      parse_csv_rows csv_text = Ok rows
      ∧ ((statistics_of rows = Raise e ∧ e = OverflowError)
         ∨ ∃ stats,
             statistics_of rows = Ok stats
             ∧ generate_openai_summary format_2f format_row env
                 (validate_rows rows).1.1.1 stats rows
               = Raise e
             ∧ summary_error env e).
Proof.
  intros [Hparse|(rows & Hparse & [Hstats|(stats & Hstats & Hgen)])]
    %analyze_csv_content_raises.
  - left. split; [done|]. by apply parse_csv_rows_raises in Hparse.
  - right. exists rows. split; [done|]. left. split; [done|].
    by apply compute_summary_statistics_raises in Hstats.
  - right. exists rows. split; [done|]. right. exists stats.
    split_and!; [done..|].
    by apply generate_openai_summary_summary_error in Hgen.
Qed.

(** The stages of [analyze_csv_content], when it returns. *)
Lemma analyze_csv_content_returns env csv_text body :
  analyze_csv_content format_2f format_row env csv_text = Ok body →
  ∃ rows,
    parse_csv_rows csv_text = Ok rows
    ∧ response_warnings body = (validate_rows rows).1.1.1
    ∧ statistics_of rows = Ok (statistics body)
    ∧ generate_openai_summary format_2f format_row env
        (validate_rows rows).1.1.1 (statistics body) rows
      = Ok (ai_summary body, ai_notice body).
Proof.
  unfold analyze_csv_content.
  destruct (parse_csv_rows csv_text) as [rows|]; [|done]. simpl.
  unfold statistics_of.
  destruct (compute_summary_statistics _ _ _) as [stats|] eqn:Hstats;
    [|done].
  simpl.
  destruct (generate_openai_summary _ _ _ _ _ _) as [[summary notice]|]
    eqn:Hgen; [|done].
  simpl. intros [= <-]. exists rows. simpl. by split_and!.
Qed.

Lemma no_users_warned rows :
  rows ≠ [] → unique_user_ids (validate_state rows) = [] →
  warnings (validate_state rows) ≠ [].
Proof.
  intros Hne Hnone Hnil. apply warnings_nil_iff in Hnil as [_ Hclean].
  destruct rows as [|row rows]; [done|].
  apply Forall_cons in Hclean as [(Hid & _) _].
  assert (user_id_of row ∈ unique_user_ids (validate_state (row :: rows)))
    as Hin.
  { apply registry_elem_of. split; [done|].
    rewrite fmap_cons. left. }
  rewrite Hnone in Hin. by apply elem_of_nil in Hin.
Qed.

(** What the handler of [analyze_dataset] does with the outcome of the
    analysis, once the upload is accepted and decoded. *)
Lemma analyze_dataset_accepted
    (decode : list Byte.byte → string + string) env content_type
    content_bytes outcome :
  analyze_dataset format_2f format_row decode env content_type content_bytes
  = outcome →
  ((content_type ∉ [Some "text/csv"%string;
                    Some "application/vnd.ms-excel"%string])
   ∧ outcome = HTTPException 400 "Please upload a CSV file.")
  ∨ (content_type ∈ [Some "text/csv"%string;
                     Some "application/vnd.ms-excel"%string]
     ∧ ((content_bytes = []
         ∧ outcome
           = HTTPException 400
               "The input file is empty. Please upload a valid dataset.")
        ∨ (content_bytes ≠ []
           ∧ ((∃ exc, decode content_bytes = inl exc
                      ∧ outcome
                        = HTTPException 400
                            ("Unable to decode file as UTF-8: " +:+ exc))
              ∨ ∃ csv_text,
                  decode content_bytes = inr csv_text
                  ∧ match analyze_csv_content format_2f format_row env
                            csv_text with
                    | Ok body => outcome = Returns body
                    | Raise (ValueError msg) =>
                        outcome = HTTPException 400 msg
                    | Raise error => outcome = Unhandled error
                    end)))).
Proof.
  unfold analyze_dataset. case_decide as Htype; [intros <-; by left|].
  intros <-. right. split; [done|].
  destruct content_bytes as [|b content_bytes]; [by left|].
  right. split; [done|].
  destruct (decode (b :: content_bytes)) as [exc|csv_text].
  { left. by exists exc. }
  right. exists csv_text. split; [done|].
  destruct (analyze_csv_content _ _ _ _) as [body|[]]; done.
Qed.

End analysis.

(** X19: [generate_openai_summary] lets three exceptions through and no
    other: with the key set, that of [from openai import OpenAI] when it
    is no [ImportError], that of [OpenAI(api_key=api_key)], and, when the
    call returns a completion whose first choice has a text that is not
    empty and which has no usage statistics, the [AttributeError] of
    reading [usage.prompt_tokens].  Without the key, on an [ImportError],
    a call that raises, an empty list of choices or an empty text it
    does not raise. *)
Theorem X19_summary_generator_exceptions
    (format_2f : pyfloat → string) (format_row : Row → string)
    (env : collaborator) (warnings : list string)
    (stats : SummaryStatistics) (rows : list Row) (e : exn) :
  generate_openai_summary format_2f format_row env warnings stats rows
  = Raise e ↔
  truthy (OPENAI_API_KEY env) = true
  ∧ (import_openai env = ImportRaises e
     ∨ import_openai env = Imported
       ∧ (new_client env = Some e
          ∨ new_client env = None
            ∧ e = AttributeError
                    "'NoneType' object has no attribute 'prompt_tokens'"
            ∧ ∃ content rest,
                create env (build_openai_prompt format_2f format_row warnings
                                                stats rows)
                = CallReturns (Completion (content :: rest) None)
                ∧ truthy content = true)).
Proof. apply generate_openai_summary_raises. Qed.

(** X20: what [generate_openai_summary] returns is a notice without a
    summary, or a summary without a notice; the summary is the text of the
    first choice, trimmed, that text was not empty and the completion had
    usage statistics.  The summary itself can be empty, when the text is
    white space. *)
Theorem X20_summary_or_notice
    (format_2f : pyfloat → string) (format_row : Row → string)
    (env : collaborator) (warnings : list string)
    (stats : SummaryStatistics) (rows : list Row)
    (summary notice : option string) :
  generate_openai_summary format_2f format_row env warnings stats rows
  = Ok (summary, notice) →
  (summary = None ∧ is_Some notice)
  ∨ (notice = None
     ∧ ∃ content rest us,
         create env (build_openai_prompt format_2f format_row warnings stats
                                         rows)
         = CallReturns (Completion (Some content :: rest) (Some us))
         ∧ content ≠ EmptyString
         ∧ summary = Some (PyStr.strip content)).
Proof. apply generate_openai_summary_returns. Qed.

Lemma X20_summary_or_notice_witness :
  (Some EmptyString = None ∧ is_Some (@None string))
  ∨ (@None string = None
     ∧ ∃ content rest us,
         CallReturns (Completion [Some "  "%string] (Some (Usage 1 2 3)))
         = CallReturns (Completion (Some content :: rest) (Some us))
         ∧ content ≠ EmptyString
         ∧ Some EmptyString = Some (PyStr.strip content)).
Proof.
  apply (X20_summary_or_notice
           (λ _, EmptyString) (λ _, EmptyString)
           (Collaborator (Some "sk-test"%string) Imported None
              (λ _, CallReturns
                      (Completion [Some "  "%string] (Some (Usage 1 2 3)))))
           [] (Stats 0 (Fin 0) (Fin 0)) []
           (Some EmptyString) None).
  reflexivity.
Defined.

(** X21: the collaborator sees no record beyond the fifth: two lists of
    records with the same first five give the same prompt and the same
    result. *)
Theorem X21_sample_of_five_records
    (format_2f : pyfloat → string) (format_row : Row → string)
    (env : collaborator) (warnings : list string)
    (stats : SummaryStatistics) (rows rows' : list Row) :
  take 5 rows = take 5 rows' →
  build_openai_prompt format_2f format_row warnings stats rows
  = build_openai_prompt format_2f format_row warnings stats rows'
  ∧ generate_openai_summary format_2f format_row env warnings stats rows
    = generate_openai_summary format_2f format_row env warnings stats rows'.
Proof.
  intros Htake.
  pose proof (build_openai_prompt_sample format_2f format_row warnings stats
                rows rows' Htake) as Hprompt.
  split; [done|]. unfold generate_openai_summary. by rewrite Hprompt.
Qed.

Lemma X21_sample_of_five_records_witness :
  build_openai_prompt (λ _, EmptyString) (λ _, EmptyString) []
    (Stats 0 (Fin 0) (Fin 0)) (replicate 6 (mk_row "u" "1" "1" "1"))
  = build_openai_prompt (λ _, EmptyString) (λ _, EmptyString) []
      (Stats 0 (Fin 0) (Fin 0)) (replicate 5 (mk_row "u" "1" "1" "1")).
Proof.
  apply (X21_sample_of_five_records
           (λ _, EmptyString) (λ _, EmptyString) (without_usage "x") []
           (Stats 0 (Fin 0) (Fin 0))
           (replicate 6 (mk_row "u" "1" "1" "1"))
           (replicate 5 (mk_row "u" "1" "1" "1"))).
  reflexivity.
Defined.

(** X22: an exception of [analyze_csv_content] is the exception of the
    first stage that raises, unchanged: one of the parser's, else the
    [OverflowError] of the aggregator, else one the summary generator
    lets through, which is that of the [openai] import or of the client
    constructor, or the [AttributeError] of a completion without usage
    statistics.  The validator raises nothing, and a [ZeroDivisionError]
    can only come out of the [openai] package. *)
Theorem X22_analysis_errors
    (format_2f : pyfloat → string) (format_row : Row → string)
    (env : collaborator) (csv_text : string) (e : exn) :
  analyze_csv_content format_2f format_row env csv_text = Raise e →
  ((parse_csv_rows csv_text = Raise e ∧ parser_error e)
   ∨ ∃ rows,
       parse_csv_rows csv_text = Ok rows
       ∧ ((statistics_of rows = Raise e ∧ e = OverflowError)
          ∨ ∃ stats,
              statistics_of rows = Ok stats
              ∧ generate_openai_summary format_2f format_row env
                  (validate_rows rows).1.1.1 stats rows
                = Raise e
              ∧ summary_error env e))
  ∧ (e = ZeroDivisionError →
     import_openai env = ImportRaises e ∨ new_client env = Some e).
Proof.
  intros Hstage%analyze_csv_content_raises_stage. split; [done|].
  intros ->.
  destruct Hstage
    as [[_ Hparse]|(rows & _ & [[_ ?]|(stats & _ & _ & _ & Hsum)])];
    [|done|].
  - by apply parser_error_cases in Hparse as [[? ?]|[? ?]].
  - destruct Hsum as [?|(_ & [?|[_ ?]])]; [by left|by right|done].
Qed.

Lemma X22_analysis_errors_witness :
  ((parse_csv_rows one_line_upload
    = Raise (OtherException "OpenAIError" "no transport")
    ∧ parser_error (OtherException "OpenAIError" "no transport"))
   ∨ ∃ rows,
       parse_csv_rows one_line_upload = Ok rows
       ∧ ((statistics_of rows
           = Raise (OtherException "OpenAIError" "no transport")
           ∧ OtherException "OpenAIError" "no transport" = OverflowError)
          ∨ ∃ stats,
              statistics_of rows = Ok stats
              ∧ generate_openai_summary (λ _, EmptyString) (λ _, EmptyString)
                  (Collaborator (Some "sk-test"%string) Imported
                     (Some (OtherException "OpenAIError" "no transport"))
                     (λ _, CallRaises EmptyString))
                  (validate_rows rows).1.1.1 stats rows
                = Raise (OtherException "OpenAIError" "no transport")
              ∧ summary_error
                  (Collaborator (Some "sk-test"%string) Imported
                     (Some (OtherException "OpenAIError" "no transport"))
                     (λ _, CallRaises EmptyString))
                  (OtherException "OpenAIError" "no transport")))
  ∧ (OtherException "OpenAIError" "no transport" = ZeroDivisionError →
     Imported = ImportRaises (OtherException "OpenAIError" "no transport")
     ∨ Some (OtherException "OpenAIError" "no transport")
       = Some (OtherException "OpenAIError" "no transport")).
Proof.
  apply (X22_analysis_errors (λ _, EmptyString) (λ _, EmptyString)
           (Collaborator (Some "sk-test"%string) Imported
              (Some (OtherException "OpenAIError" "no transport"))
              (λ _, CallRaises EmptyString))
           one_line_upload (OtherException "OpenAIError" "no transport")).
  vm_compute. reflexivity.
Defined.

(** X23: a response of [analyze_csv_content] holds the warnings and the
    statistics of the parsed records and either a summary or a notice,
    never both and never neither; it counts at most as many users as
    there are records; and when it counts no user it has a warning. *)
Theorem X23_analysis_response
    (format_2f : pyfloat → string) (format_row : Row → string)
    (env : collaborator) (csv_text : string) (body : AnalysisResponse) :
  analyze_csv_content format_2f format_row env csv_text = Ok body →
  ∃ rows,
    parse_csv_rows csv_text = Ok rows
    ∧ response_warnings body = (validate_rows rows).1.1.1
    ∧ statistics_of rows = Ok (statistics body)
    ∧ (ai_summary body = None ∧ is_Some (ai_notice body)
       ∨ is_Some (ai_summary body) ∧ ai_notice body = None)
    ∧ (total_users (statistics body) ≤ length rows)%nat
    ∧ (total_users (statistics body) = 0%nat → response_warnings body ≠ []).
Proof.
  intros (rows & Hparse & Hw & Hstats & Hgen)%analyze_csv_content_returns.
  exists rows. split_and!; try done.
  - apply generate_openai_summary_returns in Hgen
      as [?|(Hn & content & rest & us & _ & _ & Hs)]; [by left|right].
    rewrite Hs, Hn. split; [by eexists|done].
  - apply compute_total_users in Hstats. rewrite Hstats, unique_spec.
    pose proof (first_seen_length (nonempty (user_id_of <$> rows))) as [? _].
    pose proof (nonempty_length (user_id_of <$> rows)) as [? _].
    rewrite length_fmap in *. lia.
  - intros Hzero. apply compute_total_users in Hstats.
    rewrite Hstats in Hzero. apply length_zero_iff_nil in Hzero.
    rewrite Hw. unfold validate_rows. simpl. intros Hnil%fmap_nil_inv.
    apply parse_csv_rows_Ok in Hparse as (_ & _ & _ & _ & _ & _ & Hne).
    by apply (no_users_warned rows).
Qed.

Lemma X23_analysis_response_witness :
  ∃ rows,
    parse_csv_rows one_line_upload = Ok rows
    ∧ [] = (validate_rows rows).1.1.1
    ∧ statistics_of rows = Ok (Stats 1 (PyFloat.of_Z 10) (Fin 0))
    ∧ (Some "All good."%string = None ∧ is_Some (@None string)
       ∨ is_Some (Some "All good."%string) ∧ @None string = None)
    ∧ (1 ≤ length rows)%nat
    ∧ (1%nat = 0%nat → @nil string ≠ []).
Proof.
  apply (X23_analysis_response (λ _, EmptyString) (λ _, EmptyString)
           (Collaborator (Some "sk-test"%string) Imported None
              (λ _, CallReturns
                      (Completion [Some " All good. "%string]
                                  (Some (Usage 1 2 3)))))
           one_line_upload
           (Response [] (Stats 1 (PyFloat.of_Z 10) (Fin 0))
                     (Some "All good."%string) None)).
  vm_compute. reflexivity.
Defined.

(** X24: every [HTTPException] of the endpoint has status 400.  Its
    detail is the fixed message for a media type that is neither
    [text/csv] nor [application/vnd.ms-excel]; else the fixed message for
    an empty payload; else the decoder's message for bytes that do not
    decode; else the message of a [ValueError] of the analysis, which is
    one of the three of the parser or, once the records are parsed and
    the key is set, one that the [openai] import or the client
    constructor raised.  An empty payload and a header without data
    lines get the same detail. *)
Theorem X24_endpoint_client_errors
    (format_2f : pyfloat → string) (format_row : Row → string)
    (decode : list Byte.byte → string + string)
    (env : collaborator) (content_type : option string)
    (content_bytes : list Byte.byte) (status_code : nat) (detail : string) :
  analyze_dataset format_2f format_row decode env content_type content_bytes
  = HTTPException status_code detail →
  status_code = 400%nat
  ∧ (((content_type ∉ [Some "text/csv"%string;
                        Some "application/vnd.ms-excel"%string])
      ∧ detail = "Please upload a CSV file."%string)
     ∨ (content_type ∈ [Some "text/csv"%string;
                        Some "application/vnd.ms-excel"%string]
        ∧ ((content_bytes = []
            ∧ detail
              = "The input file is empty. Please upload a valid dataset."%string)
           ∨ (content_bytes ≠ []
              ∧ ((∃ exc, decode content_bytes = inl exc
                         ∧ detail
                           = "Unable to decode file as UTF-8: " +:+ exc)
                 ∨ ∃ csv_text,
                     decode content_bytes = inr csv_text
                     ∧ ((parse_csv_rows csv_text = Raise (ValueError detail)
                         ∧ (ValueError detail = missing_header_error
                            ∨ (∃ fieldnames,
                                 missing_columns fieldnames ≠ []
                                 ∧ ValueError detail
                                   = missing_columns_error
                                       (missing_columns fieldnames))
                            ∨ ValueError detail = empty_dataset_error))
                        ∨ (succeeds (parse_csv_rows csv_text)
                           ∧ truthy (OPENAI_API_KEY env) = true
                           ∧ (import_openai env
                              = ImportRaises (ValueError detail)
                              ∨ import_openai env = Imported
                                ∧ new_client env
                                  = Some (ValueError detail))))))))).
Proof.
  intros Houtcome.
  apply analyze_dataset_accepted in Houtcome
    as [[Htype [= -> ->]]|[Htype [[-> [= -> ->]]|[Hbytes Hrest]]]].
  { split; [done|]. by left. }
  { split; [done|]. right. split; [done|]. by left. }
  destruct Hrest as [(exc & Hdecode & [= -> ->])|(csv_text & Hdecode & Hrest)].
  { split; [done|]. right. split; [done|]. right. split; [done|].
    left. by exists exc. }
  destruct (analyze_csv_content _ _ _ _) as [body|e] eqn:Hanalysis; [done|].
  destruct e as [msg| | | | |]; try done. injection Hrest as -> ->.
  split; [done|]. right. split; [done|]. right. split; [done|].
  right. exists csv_text. split; [done|].
  apply analyze_csv_content_raises_stage in Hanalysis
    as [[Hparse Herr]|(rows & Hparse & [[_ ?]|(stats & _ & _ & Hsum)])];
    [|done|].
  - left. split; [done|].
    destruct Herr as [?|[?|[?|[? ?]]]]; [tauto..|done].
  - right. split; [by exists rows|].
    destruct Hsum as [Hkey [?|(? & [?|[_ ?]])]]; [tauto..|done].
Qed.

Lemma X24_endpoint_client_errors_witness :
  400%nat = 400%nat
  ∧ (((Some "text/csv"%string
         ∉ [Some "text/csv"%string; Some "application/vnd.ms-excel"%string])
      ∧ "The input file is empty. Please upload a valid dataset."%string
        = "Please upload a CSV file."%string)
     ∨ (Some "text/csv"%string
          ∈ [Some "text/csv"%string; Some "application/vnd.ms-excel"%string]
        ∧ (([Byte.x75] = []
            ∧ "The input file is empty. Please upload a valid dataset."%string
              = "The input file is empty. Please upload a valid dataset."%string)
           ∨ ([Byte.x75] ≠ []
              ∧ ((∃ exc, @inr string string
                           ("user_id,sessions,clicks,errors" +:+ LF)
                         = inl exc
                         ∧ "The input file is empty. Please upload a valid dataset."%string
                           = "Unable to decode file as UTF-8: " +:+ exc)
                 ∨ ∃ csv_text,
                     @inr string string
                       ("user_id,sessions,clicks,errors" +:+ LF)
                     = inr csv_text
                     ∧ ((parse_csv_rows csv_text
                         = Raise (ValueError "The input file is empty. Please upload a valid dataset.")
                         ∧ (ValueError "The input file is empty. Please upload a valid dataset."
                            = missing_header_error
                            ∨ (∃ fieldnames,
                                 missing_columns fieldnames ≠ []
                                 ∧ ValueError "The input file is empty. Please upload a valid dataset."
                                   = missing_columns_error
                                       (missing_columns fieldnames))
                            ∨ ValueError "The input file is empty. Please upload a valid dataset."
                              = empty_dataset_error))
                        ∨ (succeeds (parse_csv_rows csv_text)
                           ∧ truthy (Some "sk-test"%string) = true
                           ∧ (Imported
                              = ImportRaises (ValueError "The input file is empty. Please upload a valid dataset.")
                              ∨ Imported = Imported
                                ∧ @None exn
                                  = Some (ValueError "The input file is empty. Please upload a valid dataset."))))))))).
Proof.
  apply (X24_endpoint_client_errors (λ _, EmptyString) (λ _, EmptyString)
           (λ _, inr ("user_id,sessions,clicks,errors" +:+ LF))
           (without_usage "x")
           (Some "text/csv"%string) [Byte.x75]
           400 "The input file is empty. Please upload a valid dataset.").
  vm_compute. reflexivity.
Defined.

(** X25: an exception leaves the endpoint as it is, and so is no client
    error, only when the upload was accepted and decoded and the analysis
    raised it; it is then no [ValueError], and it is a [csv.Error] of the
    parser, the [OverflowError] of the aggregator on the parsed records,
    or an exception the summary generator let through. *)
Theorem X25_endpoint_unhandled_errors
    (format_2f : pyfloat → string) (format_row : Row → string)
    (decode : list Byte.byte → string + string)
    (env : collaborator) (content_type : option string)
    (content_bytes : list Byte.byte) (e : exn) :
  analyze_dataset format_2f format_row decode env content_type content_bytes
  = Unhandled e →
  (∀ msg, e ≠ ValueError msg)
  ∧ content_type ∈ [Some "text/csv"%string;
                     Some "application/vnd.ms-excel"%string]
  ∧ content_bytes ≠ []
  ∧ ∃ csv_text,
      decode content_bytes = inr csv_text
      ∧ analyze_csv_content format_2f format_row env csv_text = Raise e
      ∧ ((∃ msg, e = CsvError msg
                 ∧ parse_csv_rows csv_text = Raise (CsvError msg))
         ∨ ∃ rows,
             parse_csv_rows csv_text = Ok rows
             ∧ ((e = OverflowError ∧ statistics_of rows = Raise OverflowError)
                ∨ (succeeds (statistics_of rows) ∧ summary_error env e))).
Proof.
  intros Houtcome.
  apply analyze_dataset_accepted in Houtcome
    as [[_ ?]|[Htype [[_ ?]|[Hbytes Hrest]]]]; [done..|].
  destruct Hrest as [(exc & _ & ?)|(csv_text & Hdecode & Hrest)]; [done|].
  destruct (analyze_csv_content _ _ _ _) as [body|e'] eqn:Hanalysis; [done|].
  assert (e' = e ∧ ∀ msg, e ≠ ValueError msg) as [-> Hne].
  { destruct e'; try done; by injection Hrest as ->. }
  split_and!; [done..|]. exists csv_text. split_and!; [done..|].
  apply analyze_csv_content_raises_stage in Hanalysis
    as [[Hparse Herr]|(rows & Hparse & [[? ->]|(stats & ? & _ & Hsum)])].
  - left. apply parser_error_cases in Herr as [[msg ->]|[msg ->]];
      [by destruct (Hne msg)|by exists msg].
  - right. exists rows. split; [done|]. by left.
  - right. exists rows. split; [done|]. right. split; [by exists stats|done].
Qed.

Lemma X25_endpoint_unhandled_errors_witness :
  (∀ msg, OverflowError ≠ ValueError msg)
  ∧ Some "text/csv"%string
      ∈ [Some "text/csv"%string; Some "application/vnd.ms-excel"%string]
  ∧ [Byte.x75] ≠ []
  ∧ ∃ csv_text,
      @inr string string
        ("user_id,sessions,clicks,errors" +:+ LF +:+ "u,1"
           +:+ Stdlib.Strings.String.string_of_list_ascii
                 (replicate 400 "0"%char)
           +:+ ",0,0" +:+ LF)
      = inr csv_text
      ∧ analyze_csv_content (λ _, EmptyString) (λ _, EmptyString)
          (without_usage "x") csv_text
        = Raise OverflowError
      ∧ ((∃ msg, OverflowError = CsvError msg
                 ∧ parse_csv_rows csv_text = Raise (CsvError msg))
         ∨ ∃ rows,
             parse_csv_rows csv_text = Ok rows
             ∧ ((OverflowError = OverflowError
                 ∧ statistics_of rows = Raise OverflowError)
                ∨ (succeeds (statistics_of rows)
                   ∧ summary_error (without_usage "x") OverflowError))).
Proof.
  apply (X25_endpoint_unhandled_errors
           (λ _, EmptyString) (λ _, EmptyString)
           (λ _, inr ("user_id,sessions,clicks,errors" +:+ LF +:+ "u,1"
                        +:+ Stdlib.Strings.String.string_of_list_ascii
                              (replicate 400 "0"%char)
                        +:+ ",0,0" +:+ LF))
           (without_usage "x") (Some "text/csv"%string) [Byte.x75]
           OverflowError).
  vm_compute. reflexivity.
Defined.

(** ** When the reader does not fail *)

Section reader.
Implicit Types (r : Csv.reader) (c : ascii) (text : string).

Lemma is_newline_no_return c :
  c ≠ "013"%char → Csv.is_newline c = true → c = "010"%char.
Proof.
  unfold Csv.is_newline. intros Hc.
  destruct (Ascii.eqb_spec c "010"); [done|].
  destruct (Ascii.eqb_spec c "013"); done.
Qed.

Lemma parse_add_char_ok c r :
  (Csv.field_len r < Csv.field_limit)%N →
  ∃ r1, Csv.parse_add_char c r = inr r1
        ∧ Csv.state r1 = Csv.state r
        ∧ Csv.field_len r1 = (Csv.field_len r + 1)%N.
Proof.
  intros Hlen. unfold Csv.parse_add_char.
  destruct (N.leb_spec Csv.field_limit (Csv.field_len r)); [lia|].
  by eexists.
Qed.

(** A character other than a carriage return, read outside [EAT_CRNL]
    and below the field limit, is accepted; it leads to [EAT_CRNL] only
    if it is a line feed. *)
Lemma parse_process_char_ok c r :
  c ≠ "013"%char → Csv.state r ≠ Csv.EAT_CRNL →
  (Csv.field_len r < Csv.field_limit)%N →
  ∃ r1, Csv.parse_process_char r (Some c) = inr r1
        ∧ (Csv.field_len r1 ≤ Csv.field_len r + 1)%N
        ∧ (Csv.state r1 = Csv.EAT_CRNL → c = "010"%char).
Proof.
  intros Hc Hstate Hlen.
  destruct (parse_add_char_ok c r Hlen) as (r1 & Hadd & Hs1 & Hl1).
  pose proof (is_newline_no_return c Hc) as Hnl.
  unfold Csv.parse_process_char, Csv.start_field, Csv.then_state.
  rewrite Hadd.
  destruct (Csv.state r) eqn:Hs; [..|done];
    destruct (Csv.is_newline c), (Csv.is_quote c), (Csv.is_delimiter c);
    (eexists; split; [reflexivity|]); simpl; (split; [lia|]);
    first [ by intros _; apply Hnl | by rewrite ?Hs1, ?Hs ].
Qed.

(** The end of a line is always accepted, and leaves [EAT_CRNL]. *)
Lemma parse_process_eol_ok r :
  ∃ r2, Csv.parse_process_char r None = inr r2
        ∧ Csv.state r2 ≠ Csv.EAT_CRNL
        ∧ (Csv.field_len r2 ≤ Csv.field_len r)%N.
Proof.
  destruct r as [s f n fs]. unfold Csv.parse_process_char. simpl.
  destruct s; simpl; eexists; (split; [done|]); simpl; (split; [done|lia]).
Qed.

Lemma feed_no_failure text :
  no_carriage_return text →
  ∀ r rows,
    Csv.state r ≠ Csv.EAT_CRNL →
    (Csv.field_len r + N.of_nat (characters text) ≤ Csv.field_limit)%N →
    failure (Csv.feed text r rows) = None.
Proof.
  unfold no_carriage_return, characters.
  induction text as [|c text IH]; simpl; [done|].
  intros [Hc Htext]%Forall_cons r rows Hstate Hlen.
  destruct (parse_process_char_ok c r Hc Hstate) as (r1 & -> & Hl1 & Hs1);
    [lia|].
  destruct (parse_process_eol_ok r1) as (r2 & Heol & Hs2 & Hl2).
  destruct (Ascii.eqb c "010" || bool_decide (text = EmptyString))
    eqn:Hend.
  - rewrite Heol.
    destruct (Csv.state r2) eqn:Hr2; try (apply IH; [done|congruence|lia]);
      apply IH; try done; simpl; lia.
  - apply IH; [done| |lia].
    intros ->%Hs1. by rewrite Ascii.eqb_refl in Hend.
Qed.

End reader.

(** X26: on a text without carriage return and of at most 131072
    characters, the field limit of the [csv] module, the reader does not
    fail (the reader of Python 3.11 and later, which takes a NUL character
    like any other); [parse_csv_rows] then raises nothing but
    [ValueError], and raises it only in its three cases. *)
Theorem X26_reader_accepts_text_without_returns (csv_text : string) :
  no_carriage_return csv_text →
  (N.of_nat (characters csv_text) ≤ Csv.field_limit)%N →
  failure (csv_reader csv_text) = None
  ∧ (∀ e, parse_csv_rows csv_text = Raise e →
          e = missing_header_error
          ∨ (∃ fieldnames,
               missing_columns fieldnames ≠ []
               ∧ e = missing_columns_error (missing_columns fieldnames))
          ∨ e = empty_dataset_error).
Proof.
  intros Hcr Hlen.
  assert (failure (csv_reader csv_text) = None) as Hfail.
  { apply feed_no_failure; [done|done|]. simpl. lia. }
  split; [done|]. intros e Hraise.
  pose proof Hraise as [?|[?|[?|[msg ->]]]]%parse_csv_rows_raises;
    [tauto..|].
  exfalso. revert Hraise. unfold parse_csv_rows. cbv zeta. rewrite Hfail.
  destruct (lines (csv_reader csv_text)); [done|].
  repeat case_decide; done.
Qed.

Lemma X26_reader_accepts_text_without_returns_witness :
  failure (csv_reader one_line_upload) = None
  ∧ (∀ e, parse_csv_rows one_line_upload = Raise e →
          e = missing_header_error
          ∨ (∃ fieldnames,
               missing_columns fieldnames ≠ []
               ∧ e = missing_columns_error (missing_columns fieldnames))
          ∨ e = empty_dataset_error).
Proof.
  apply (X26_reader_accepts_text_without_returns one_line_upload).
  - apply (bool_decide_unpack _). vm_compute. exact I.
  - vm_compute. discriminate.
Defined.
